(** * Instance lifecycle helpers of the Alibaba Cloud machine actuator

    A shallow embedding of package [machine] (instances.go): tag
    generation, resource resolution, the create-instance request, the
    selection order of duplicate instances, clean-up and tag repair,
    together with the properties the specification states about them.

    Conventions of the embedding.
    - Go strings are [string]; [==] on strings is byte equality, so
      every comparison is case sensitive.
    - [int64] fields are [Z]; the code performs no arithmetic on them.
    - A Go slice is a [list]; where the code tells a nil slice from an
      empty one the slice is an [option (list _)] with [None] for nil.
    - A Go [error] is a value of type [error]; a pair (value, error) in
      which exactly one side is set is a sum [A + error].
    - A pointer to a struct is the struct; where the code compares the
      pointer with nil it is an [option].  The elements of a slice of
      pointers are taken to be non-nil, as the code dereferences them
      without a test.
    - Calls of the provider client, of the metrics package and of
      [time.Sleep] are effects: they are appended to an event log that
      is threaded through the code.  [klog] output is not modelled. *)

From Stdlib Require Import ZArith String Ascii List Permutation Sorted DecimalString Lia.
From stdpp Require Import base gmap strings list.

Local Open Scope string_scope.
Local Open Scope Z_scope.
Local Open Scope list_scope.

(** ** Data model *)

(** Types of github.com/openshift/api/machine/v1 read by the package.
    Only the fields the package reads are kept. *)
Module machinev1.

Module Tag.
Record t := mk { Key : string; Value : string }.
End Tag.

Module AlibabaResourceReference.
(** [Tags] is a slice that the code compares with nil. *)
Record t := mk { ID : string; Tags : option (list Tag.t) }.
End AlibabaResourceReference.

Module BandwidthProperties.
Record t := mk { InternetMaxBandwidthIn : Z; InternetMaxBandwidthOut : Z }.
End BandwidthProperties.

Module SystemDiskProperties.
Record t := mk {
  Category : string;
  PerformanceLevel : string;
  Name : string;
  Size : Z }.
End SystemDiskProperties.

Module DataDiskProperties.
Record t := mk {
  Name : string;
  SnapshotID : string;
  Size : Z;
  DiskEncryption : string;
  PerformanceLevel : string;
  Category : string;
  KMSKeyID : string;
  DiskPreservation : string }.
End DataDiskProperties.

Module AlibabaCloudMachineProviderConfig.
Record t := mk {
  InstanceType : string;
  VpcID : string;
  RegionID : string;
  ImageID : string;
  DataDisks : list DataDiskProperties.t;
  SecurityGroups : list AlibabaResourceReference.t;
  Bandwidth : BandwidthProperties.t;
  SystemDisk : SystemDiskProperties.t;
  VSwitch : AlibabaResourceReference.t;
  RAMRoleName : string;
  ResourceGroupID : string;
  Tenancy : string;
  UserDataSecret : string;
  Tags : list Tag.t }.
End AlibabaCloudMachineProviderConfig.

End machinev1.

(** runtimeclient.ObjectKey. *)
Module ObjectKey.
Record t := mk { Name : string; Namespace : string }.
End ObjectKey.

(** The part of machinev1beta1.Machine the package reads.  [Labels] is
    kept because the cluster ID is looked up from the machine. *)
Module Machine.
Record t := mk { Name : string; Namespace : string; Labels : gmap string string }.
End Machine.

(** Types of the provider SDK (services/ecs and services/vpc).  A
    [requests.Integer] is a Go string holding the decimal rendering; a
    request field left at the empty string is not sent. *)
Module ecs.

Module Tag.
Record t := mk { TagKey : string; TagValue : string }.
End Tag.

Module Instance.
Record t := mk {
  InstanceId : string;
  Status : string;
  StartTime : string;
  Tags : list Tag.t }.
End Instance.

Module Image.
Record t := mk { ImageId : string; Status : string }.
End Image.

Module SecurityGroup.
Record t := mk { SecurityGroupId : string }.
End SecurityGroup.

Module InstanceResponse.
Record t := mk {
  InstanceId : string;
  PreviousStatus : string;
  CurrentStatus : string;
  Code : string;
  Message : string }.
End InstanceResponse.

(** RunInstancesTag, TagResourcesTag, DescribeInstancesTag and
    DescribeSecurityGroupsTag are four structs with the same two
    fields. *)
Module RequestTag.
Record t := mk { Key : string; Value : string }.
End RequestTag.

Module RunInstancesDataDisk.
Record t := mk {
  Size : string;
  Category : string;
  Encrypted : string;
  DiskName : string;
  SnapshotId : string;
  PerformanceLevel : string;
  KMSKeyId : string;
  DeleteWithInstance : string }.
End RunInstancesDataDisk.

Module RunInstancesRequest.
Record t := mk {
  Scheme : string;
  RegionId : string;
  ResourceGroupId : string;
  SecurityGroupIds : option (list string);
  Tag : option (list RequestTag.t);
  ImageId : string;
  InstanceType : string;
  InstanceName : string;
  HostName : string;
  Amount : string;
  MinAmount : string;
  RamRoleName : string;
  InternetMaxBandwidthOut : string;
  InternetMaxBandwidthIn : string;
  VSwitchId : string;
  SystemDiskCategory : string;
  SystemDiskSize : string;
  SystemDiskDiskName : string;
  SystemDiskPerformanceLevel : string;
  DataDisk : option (list RunInstancesDataDisk.t);
  UserData : string;
  Tenancy : string }.
End RunInstancesRequest.

Module RunInstancesResponse.
Record t := mk { InstanceIdSet : list string }.
End RunInstancesResponse.

Module DescribeInstancesRequest.
(** [InstanceIds] is the JSON array that [json.Marshal] makes of a
    slice of instance IDs.  The encoding is injective, so the field
    holds the slice it encodes; [None] is the field left unset. *)
Record t := mk {
  Scheme : string;
  RegionId : string;
  InstanceIds : option (list string);
  Tag : option (list RequestTag.t) }.
End DescribeInstancesRequest.

Module DescribeInstancesResponse.
Record t := mk { Instance : list Instance.t }.
End DescribeInstancesResponse.

Module DescribeImagesRequest.
Record t := mk {
  Scheme : string;
  RegionId : string;
  ImageId : string;
  ShowExpired : string }.
End DescribeImagesRequest.

Module DescribeImagesResponse.
Record t := mk { Image : list Image.t }.
End DescribeImagesResponse.

Module DescribeSecurityGroupsRequest.
Record t := mk {
  Scheme : string;
  RegionId : string;
  VpcId : string;
  ResourceGroupId : string;
  Tag : option (list RequestTag.t) }.
End DescribeSecurityGroupsRequest.

Module DescribeSecurityGroupsResponse.
Record t := mk { SecurityGroup : list SecurityGroup.t }.
End DescribeSecurityGroupsResponse.

Module StopInstancesRequest.
Record t := mk {
  Scheme : string;
  RegionId : string;
  InstanceId : option (list string) }.
End StopInstancesRequest.

Module StopInstancesResponse.
Record t := mk { InstanceResponse : list InstanceResponse.t }.
End StopInstancesResponse.

Module TagResourcesRequest.
Record t := mk {
  Scheme : string;
  RegionId : string;
  Tag : option (list RequestTag.t);
  ResourceId : option (list string);
  ResourceType : string }.
End TagResourcesRequest.

End ecs.

Module vpc.

Module VSwitch.
Record t := mk { VSwitchId : string }.
End VSwitch.

Module DescribeVSwitchesRequest.
Record t := mk {
  Scheme : string;
  RegionId : string;
  VpcId : string;
  Tag : option (list ecs.RequestTag.t) }.
End DescribeVSwitchesRequest.

Module DescribeVSwitchesResponse.
Record t := mk { VSwitch : list VSwitch.t }.
End DescribeVSwitchesResponse.

End vpc.

(** ** Errors *)

(** The reasons of machine-api-operator's MachineError that the package
    produces: [mapierrors.InvalidMachineConfiguration] builds an error
    with the first reason, [mapierrors.CreateMachine] one with the
    second. *)
Inductive MachineStatusError : Type :=
| InvalidConfigurationMachineError
| CreateMachineError.

(** A Go error.  The text of an error is kept as its format string and
    the arguments given to it. *)
Inductive error : Type :=
| errors_New (text : string)
| fmt_Errorf (format : string) (args : list fmtArg)
| MachineError (Reason : MachineStatusError) (format : string) (args : list fmtArg)
with fmtArg : Type :=
| ArgString (s : string)
| ArgStrings (l : list string)
| ArgInt (n : Z)
| ArgInstance (i : option ecs.Instance.t)
| ArgError (e : error).

Module mapierrors.
Definition InvalidMachineConfiguration (format : string) (args : list fmtArg) : error :=
  MachineError InvalidConfigurationMachineError format args.
Definition CreateMachine (format : string) (args : list fmtArg) : error :=
  MachineError CreateMachineError format args.
End mapierrors.

(** The reason a returned error carries, if it is a MachineError. *)
Definition errorReason (e : error) : option MachineStatusError :=
  match e with
  | MachineError r _ _ => Some r
  | _ => None
  end.

(** ** Constants of the file *)

Definition EcsImageStatusAvailable : string := "Available".
Definition InstanceDefaultTimeout : Z := 900.
Definition DefaultWaitForInterval : Z := 5.
Definition ECSInstanceStatusPending : string := "Pending".
Definition ECSInstanceStatusStarting : string := "Starting".
Definition ECSInstanceStatusRunning : string := "Running".
Definition ECSInstanceStatusStopping : string := "Stopping".
Definition ECSInstanceStatusStopped : string := "Stopped".
Definition ECSTagResourceTypeInstance : string := "instance".

(** [strconv.FormatInt v 10], [strconv.FormatBool] and
    [requests.NewInteger64]. *)
Definition FormatInt10 (v : Z) : string := NilZero.string_of_int (Z.to_int v).
Definition FormatBool (b : bool) : string := if b then "true" else "false".
Definition NewInteger64 (v : Z) : string := FormatInt10 v.
Definition NewInteger (v : Z) : string := FormatInt10 v.

(** [strings.HasPrefix s prefix]. *)
Definition HasPrefix (s prefix : string) : bool := String.prefix prefix s.

(** [a == b] on Go strings. *)
Definition strEq (a b : string) : bool := bool_decide (a = b).

(** [strings.Join elems sep]. *)
Fixpoint Join (elems : list string) (sep : string) : string :=
  match elems with
  | [] => ""
  | [e] => e
  | e :: rest => e +:+ sep +:+ Join rest sep
  end.

(** ** Effects: the provider client and the event log *)

(** What the package does to the outside world, in the order it does
    it. *)
Inductive Event : Type :=
| CallDescribeImages (request : ecs.DescribeImagesRequest.t)
| CallDescribeSecurityGroups (request : ecs.DescribeSecurityGroupsRequest.t)
| CallDescribeVSwitches (request : vpc.DescribeVSwitchesRequest.t)
| CallRunInstances (request : ecs.RunInstancesRequest.t)
| CallDescribeInstances (request : ecs.DescribeInstancesRequest.t)
| CallStopInstances (request : ecs.StopInstancesRequest.t)
| CallTagResources (request : ecs.TagResourcesRequest.t)
| RegisterFailedInstanceCreate (Name Namespace : string) (Reason : error)
| Sleep (seconds : Z).

(** The interface alibabacloudClient.Client, restricted to the methods
    the package calls.  The provider is stateful: what a method answers
    may depend on everything that happened before, so each method also
    receives the log of earlier events.  RunInstances and StopInstances
    may answer a nil response, which the code checks for. *)
Module alibabacloudClient.
Record Client := mk {
  DescribeImages :
    list Event -> ecs.DescribeImagesRequest.t -> ecs.DescribeImagesResponse.t + error;
  DescribeSecurityGroups :
    list Event -> ecs.DescribeSecurityGroupsRequest.t ->
    ecs.DescribeSecurityGroupsResponse.t + error;
  DescribeVSwitches :
    list Event -> vpc.DescribeVSwitchesRequest.t -> vpc.DescribeVSwitchesResponse.t + error;
  RunInstances :
    list Event -> ecs.RunInstancesRequest.t -> option ecs.RunInstancesResponse.t + error;
  DescribeInstances :
    list Event -> ecs.DescribeInstancesRequest.t -> ecs.DescribeInstancesResponse.t + error;
  StopInstances :
    list Event -> ecs.StopInstancesRequest.t -> option ecs.StopInstancesResponse.t + error;
  TagResources :
    list Event -> ecs.TagResourcesRequest.t -> option error }.
End alibabacloudClient.

(** Code with effects: a function of the log so far that returns its
    result and the events it adds to the log, oldest first.  Code can
    only add to the log. *)
Definition Api (A : Type) : Type := list Event -> A * list Event.

Definition ret {A : Type} (a : A) : Api A := fun _ => (a, []).

Definition bind {A B : Type} (m : Api A) (k : A -> Api B) : Api B :=
  fun h =>
    let (a, e1) := m h in
    let (b, e2) := k a (h ++ e1) in
    (b, e1 ++ e2).

Notation "'do' x <- m ; k" := (bind m (fun x => k))
  (at level 10, x name, m at level 100, k at level 200, only parsing).

(** One call of a client method: the answer is computed from the log so
    far, and the call is logged. *)
Definition invoke {Req Resp : Type} (ev : Req -> Event)
    (method : list Event -> Req -> Resp) (request : Req) : Api Resp :=
  fun h => (method h request, [ev request]).

Definition emit (e : Event) : Api unit := fun _ => (tt, [e]).

(** The result of a computation started from the log [h], and the
    events it adds. *)
Definition result {A : Type} (m : Api A) (h : list Event) : A := fst (m h).
Definition issued {A : Type} (m : Api A) (h : list Event) : list Event := snd (m h).

(** ** What the file takes from the rest of the package and from
    libraries

    The constants and helpers below are declared in other files of the
    package (the tag keys, [getClusterID], [WaitForResult]), in
    openshift/api (the tenancy, encryption and preservation values) or
    in Go's standard library ([time.ParseInLocation]); the code of this
    file is modelled over any value of them. *)
Class Externals : Type := {
  clusterFilterKeyPrefix : string;
  clusterFilterValue : string;
  clusterFilterName : string;
  clusterOwnedKey : string;
  clusterOwnedValue : string;
  machineTagKeyFrom : string;
  machineTagValueFrom : string;
  machineIsvIntegrationTagKey : string;
  DefaultTenancy : string;
  HostTenancy : string;
  AlibabaDiskEncryptionEnabled : string;
  DeleteWithInstance : string;
  (** [getClusterID machine]: the cluster ID and whether it was found. *)
  getClusterID : Machine.t -> option string;
  (** [time.ParseInLocation formatISO8601 value time.Local]: the instant
      parsed, or [None] for a parse error. *)
  ParseInLocation : string -> option Z;
  (** [WaitForResult name predicate returnWhenError delay timeout], at the
      result type this file uses it at. *)
  WaitForResult :
    string * list fmtArg ->
    Api (bool * option (list ecs.Instance.t) * option error) ->
    bool -> Z -> Z -> Api (option (list ecs.Instance.t) * option error)
}.

(** ** The functions of the file *)

Import machinev1.

(** [instanceHasSupportedState]: [None] is Go's nil error.  The loop
    over [instanceStates] returns nil at the first state equal to the
    instance's. *)
Fixpoint stateListed (actualState : string) (instanceStates : list string) : bool :=
  match instanceStates with
  | [] => false
  | supportedState :: rest =>
      if strEq supportedState actualState then true else stateListed actualState rest
  end.

Definition instanceHasSupportedState
    (instance : ecs.Instance.t) (instanceStates : list string) : option error :=
  if strEq (ecs.Instance.InstanceId instance) "" then
    Some (fmt_Errorf "instance has nil ID" [])
  else if strEq (ecs.Instance.Status instance) "" then
    Some (fmt_Errorf "instance %s has nil state"
            [ArgString (ecs.Instance.InstanceId instance)])
  else if (length instanceStates =? 0)%nat then
    None
  else
    let actualState := ecs.Instance.Status instance in
    if stateListed actualState instanceStates then None
    else
      let supportedStates := instanceStates in
      Some (fmt_Errorf "instance %s state %q is not in %s"
              [ArgString (ecs.Instance.InstanceId instance);
               ArgString actualState;
               ArgString (Join supportedStates ", ")]).

(** [removeDuplicatedTags]: one pass with the map [m] of the keys seen
    so far and the result built by appending.  The slice holds pointers
    to tags; the entries are taken to be non-nil, as every caller in the
    file builds them. *)
Definition removeDuplicatedTags_step
    (acc : gmap string bool * list Tag.t) (entry : Tag.t) : gmap string bool * list Tag.t :=
  let (m, result) := acc in
  match m !! Tag.Key entry with
  | Some _ => (m, result)
  | None => (<[Tag.Key entry := true]> m, result ++ [entry])
  end.

Definition removeDuplicatedTags (tags : list Tag.t) : list Tag.t :=
  snd (fold_left removeDuplicatedTags_step tags (∅, [])).

(** [covertToRunInstancesTag], [buildDescribeSecurityGroupsTag] and
    [buildDescribeVSwitchesTag] copy key and value of every tag. *)
Definition toRequestTag (tag : Tag.t) : ecs.RequestTag.t :=
  ecs.RequestTag.mk (Tag.Key tag) (Tag.Value tag).

Definition covertToRunInstancesTag (tags : list Tag.t) : option (list ecs.RequestTag.t) :=
  Some (fold_left (fun runInstancesTags tag => runInstancesTags ++ [toRequestTag tag]) tags []).

Definition buildDescribeSecurityGroupsTag (tags : list Tag.t) : option (list ecs.RequestTag.t) :=
  Some (map toRequestTag tags).

Definition buildDescribeVSwitchesTag (tags : list Tag.t) : option (list ecs.RequestTag.t) :=
  Some (map toRequestTag tags).

(** A slice behind a nil-able reference, read as a plain slice. *)
Definition sliceOf {A : Type} (s : option (list A)) : list A :=
  match s with Some l => l | None => [] end.

Section Package.
Context `{Externals}.

(** The condition under which [buildTagList] keeps a machine tag. *)
Definition keepsMachineTag (tag : Tag.t) : bool :=
  negb (HasPrefix (Tag.Key tag) clusterFilterKeyPrefix)
  && negb (strEq (Tag.Key tag) clusterFilterName).

(** The five tags [buildTagList] appends. *)
Definition generatedTags (machineName clusterID : string) : list Tag.t :=
  [ Tag.mk (clusterFilterKeyPrefix +:+ clusterID) clusterFilterValue;
    Tag.mk clusterFilterName machineName;
    Tag.mk clusterOwnedKey clusterOwnedValue;
    Tag.mk machineTagKeyFrom machineTagValueFrom;
    Tag.mk machineIsvIntegrationTagKey machineTagValueFrom ].

Definition buildTagList (machineName clusterID : string) (machineTags : list Tag.t)
    : list Tag.t :=
  let rawTagList :=
    fold_left
      (fun rawTagList tag =>
         if keepsMachineTag tag
         then rawTagList ++ [Tag.mk (Tag.Key tag) (Tag.Value tag)]
         else rawTagList)
      machineTags [] in
  let rawTagList := rawTagList ++ generatedTags machineName clusterID in
  removeDuplicatedTags rawTagList.

(** Modelled from the spec: [tagResourceTags] is declared in another
    file of the package.  The specification describes the set it
    builds as the three required markers: the name tag for the machine
    name, the cluster-ownership tag for the cluster ID and the generic
    owned marker. *)
Definition tagResourceTags (clusterID machineName : string)
    : option (list ecs.RequestTag.t) :=
  Some [ ecs.RequestTag.mk (clusterFilterKeyPrefix +:+ clusterID) clusterFilterValue;
         ecs.RequestTag.mk clusterFilterName machineName;
         ecs.RequestTag.mk clusterOwnedKey clusterOwnedValue ].

(** [instanceList.Less] on the two instances [il[i]] and [il[j]].
    [After] compares the two parsed instants. *)
Definition Less (ili ilj : ecs.Instance.t) : bool :=
  let iStart := ecs.Instance.StartTime ili in
  let jStart := ecs.Instance.StartTime ilj in
  if strEq iStart "" && strEq jStart "" then false
  else if negb (strEq iStart "") && strEq jStart "" then false
  else if strEq iStart "" && negb (strEq jStart "") then true
  else
    match ParseInLocation iStart with
    | None => false
    | Some iStartTime =>
        match ParseInLocation jStart with
        | None => false
        | Some jStartTime => iStartTime >? jStartTime
        end
    end.

End Package.

(** [sort.Sort] belongs to Go's standard library.  It is modelled by the
    library's [insertionSort], the code [sort.Sort] runs on a short
    slice (up to six elements in Go 1.18, up to twelve from Go 1.19): for
    [i] from 1 on, element [i] is swapped towards the front while
    [Less j (j-1)] holds.  [sift] is that inner loop; it takes the part
    before [i] nearest element first and gives back the part up to [i]
    in the same direction.  Beyond that length [sort.Sort] runs
    other code (Go 1.18: a pass with gap six before the insertion sort
    for seven to twelve elements, quicksort above twelve), which may
    leave instances that compare as equal in another order.  What
    carries over to every length is that the result is a permutation in
    which no element is less than the one before it; see
    [Less_sorted_standsBefore], which does not depend on the
    algorithm. *)
Section Sort.
Context {A : Type} (less : A -> A -> bool).

Fixpoint sift (x : A) (before : list A) : list A :=
  match before with
  | [] => [x]
  | y :: rest => if less x y then y :: sift x rest else x :: y :: rest
  end.

Definition insertionSort (data : list A) : list A :=
  rev (fold_left (fun before x => sift x before) data []).

End Sort.

(** [sortInstances]: the slice is sorted in place; the function gives
    the slice after the call. *)
Definition sortInstances `{Externals} (instances : list ecs.Instance.t)
    : list ecs.Instance.t :=
  insertionSort Less instances.

(** [getRunningFromInstances]. *)
Definition getRunningFromInstances (instances : list ecs.Instance.t) : list ecs.Instance.t :=
  fold_left
    (fun runningInstances instance =>
       if strEq (ecs.Instance.Status instance) ECSInstanceStatusRunning
       then runningInstances ++ [instance] else runningInstances)
    instances [].

Section Effects.
Context `{Externals}.
Import alibabacloudClient.

Definition metricsFailedCreate (machine : ObjectKey.t) (err : error) : Api unit :=
  emit (RegisterFailedInstanceCreate
          (ObjectKey.Name machine) (ObjectKey.Namespace machine) err).

(** [describeInstances]. *)
Definition describeInstances (instanceIds : list string) (regionID : string)
    (client : Client) : Api (list ecs.Instance.t + error) :=
  if (length instanceIds <? 1)%nat then
    ret (inr (fmt_Errorf "instance-ids not specified" []))
  else
    let describeInstancesRequest :=
      {| ecs.DescribeInstancesRequest.RegionId := regionID;
         ecs.DescribeInstancesRequest.Scheme := "https";
         ecs.DescribeInstancesRequest.InstanceIds := Some instanceIds;
         ecs.DescribeInstancesRequest.Tag := None |} in
    do result <- invoke CallDescribeInstances (DescribeInstances client)
                   describeInstancesRequest;
    match result with
    | inr err => ret (inr err)
    | inl result => ret (inl (ecs.DescribeInstancesResponse.Instance result))
    end.

(** The IDs of the instances of a slice, in order (the first loop of
    [stopInstances]). *)
Definition instanceIDsOf (instances : list ecs.Instance.t) : list string :=
  fold_left (fun instanceIDs instance => instanceIDs ++ [ecs.Instance.InstanceId instance])
    instances [].

(** The second loop of [stopInstances]: the IDs of the instances whose
    status is Running. *)
Definition needStoppedInstanceIDsOf (existingInstances : list ecs.Instance.t)
    : list string :=
  fold_left
    (fun needStoppedInstanceIDs instance =>
       if strEq (ecs.Instance.Status instance) ECSInstanceStatusRunning
       then needStoppedInstanceIDs ++ [ecs.Instance.InstanceId instance]
       else needStoppedInstanceIDs)
    existingInstances [].

(** [stopInstances].  The result is the pair (responses, error) of the
    code: [inl None] is (nil, nil). *)
Definition stopInstances (client : Client) (regionID : string)
    (instances : list ecs.Instance.t)
    : Api (option (list ecs.InstanceResponse.t) + error) :=
  let instanceIDs := instanceIDsOf instances in
  do existingInstances <- describeInstances instanceIDs regionID client;
  match existingInstances with
  | inr err => ret (inr err)
  | inl existingInstances =>
      if (length existingInstances <? 1)%nat then
        ret (inr (fmt_Errorf "instances %v not exist" [ArgStrings instanceIDs]))
      else
        let needStoppedInstanceIDs := needStoppedInstanceIDsOf existingInstances in
        let stopInstancesRequest :=
          {| ecs.StopInstancesRequest.RegionId := regionID;
             ecs.StopInstancesRequest.Scheme := "https";
             ecs.StopInstancesRequest.InstanceId := Some needStoppedInstanceIDs |} in
        do stopInstancesResponse <- invoke CallStopInstances (StopInstances client)
                                      stopInstancesRequest;
        match stopInstancesResponse with
        | inr err => ret (inr (fmt_Errorf "error stopping instances: %v" [ArgError err]))
        | inl None => ret (inl None)
        | inl (Some response) =>
            ret (inl (Some (ecs.StopInstancesResponse.InstanceResponse response)))
        end
  end.

(** The loop of [correctExistingTags] over the tags of the instance:
    the three flags nameTagOk, clusterTagOk and ownedTagOk. *)
Definition correctExistingTags_step (machineName clusterID : string)
    (flags : bool * bool * bool) (tag : ecs.Tag.t) : bool * bool * bool :=
  let '(nameTagOk, clusterTagOk, ownedTagOk) := flags in
  if negb (strEq (ecs.Tag.TagKey tag) "") && negb (strEq (ecs.Tag.TagValue tag) "") then
    let nameTagOk :=
      if strEq (ecs.Tag.TagKey tag) clusterFilterName
         && strEq (ecs.Tag.TagValue tag) machineName
      then true else nameTagOk in
    let clusterTagOk :=
      if strEq (ecs.Tag.TagKey tag) (clusterFilterKeyPrefix +:+ clusterID)
         && strEq (ecs.Tag.TagValue tag) clusterFilterValue
      then true else clusterTagOk in
    let ownedTagOk :=
      if strEq (ecs.Tag.TagKey tag) clusterOwnedKey
         && strEq (ecs.Tag.TagValue tag) clusterOwnedValue
      then true else ownedTagOk in
    (nameTagOk, clusterTagOk, ownedTagOk)
  else flags.

(** [correctExistingTags]; [instance] is a pointer that may be nil. *)
Definition correctExistingTags (machine : Machine.t) (regionID : string)
    (instance : option ecs.Instance.t) (client : Client) : Api (option error) :=
  match instance with
  | None =>
      ret (Some (fmt_Errorf "unexpected nil found in instance: %v" [ArgInstance instance]))
  | Some inst =>
      if strEq (ecs.Instance.InstanceId inst) "" then
        ret (Some (fmt_Errorf "unexpected nil found in instance: %v" [ArgInstance instance]))
      else
        match getClusterID machine with
        | None =>
            ret (Some (fmt_Errorf "unable to get cluster ID for machine: %q"
                         [ArgString (Machine.Name machine)]))
        | Some clusterID =>
            let '(nameTagOk, clusterTagOk, ownedTagOk) :=
              fold_left (correctExistingTags_step (Machine.Name machine) clusterID)
                (ecs.Instance.Tags inst) (false, false, false) in
            if negb nameTagOk || negb clusterTagOk || negb ownedTagOk then
              let request :=
                {| ecs.TagResourcesRequest.Scheme := "https";
                   ecs.TagResourcesRequest.RegionId := regionID;
                   ecs.TagResourcesRequest.Tag :=
                     tagResourceTags clusterID (Machine.Name machine);
                   ecs.TagResourcesRequest.ResourceId :=
                     Some [ecs.Instance.InstanceId inst];
                   ecs.TagResourcesRequest.ResourceType := ECSTagResourceTypeInstance |} in
              invoke CallTagResources (TagResources client) request
            else ret None
        end
  end.

End Effects.

Section Launcher.
Context `{Externals}.
Import alibabacloudClient.
Import AlibabaCloudMachineProviderConfig.

(** [getImageID]. *)
Definition getImageID (machine : ObjectKey.t)
    (machineProviderConfig : AlibabaCloudMachineProviderConfig.t) (client : Client)
    : Api (string + error) :=
  let request :=
    {| ecs.DescribeImagesRequest.ImageId := ImageID machineProviderConfig;
       ecs.DescribeImagesRequest.RegionId := RegionID machineProviderConfig;
       ecs.DescribeImagesRequest.ShowExpired := FormatBool true;
       ecs.DescribeImagesRequest.Scheme := "https" |} in
  do response <- invoke CallDescribeImages (DescribeImages client) request;
  match response with
  | inr err =>
      do _ <- metricsFailedCreate machine err;
      ret (inr (fmt_Errorf "error describing Images: %v" [ArgError err]))
  | inl response =>
      match ecs.DescribeImagesResponse.Image response with
      | [] => ret (inr (fmt_Errorf "no image for given filters not found" []))
      | image :: _ =>
          if negb (strEq (ecs.Image.Status image) EcsImageStatusAvailable) then
            ret (inr (fmt_Errorf "%s invalid image status: %s"
                        [ArgString (ImageID machineProviderConfig);
                         ArgString (ecs.Image.Status image)]))
          else ret (inl (ecs.Image.ImageId image))
      end
  end.

(** [getSecurityGroupIDByTags]. *)
Definition getSecurityGroupIDByTags (machine : ObjectKey.t)
    (machineProviderConfig : AlibabaCloudMachineProviderConfig.t)
    (tags : list Tag.t) (client : Client) : Api (list string + error) :=
  let request :=
    {| ecs.DescribeSecurityGroupsRequest.VpcId := VpcID machineProviderConfig;
       ecs.DescribeSecurityGroupsRequest.ResourceGroupId :=
         ResourceGroupID machineProviderConfig;
       ecs.DescribeSecurityGroupsRequest.RegionId := RegionID machineProviderConfig;
       ecs.DescribeSecurityGroupsRequest.Tag := buildDescribeSecurityGroupsTag tags;
       ecs.DescribeSecurityGroupsRequest.Scheme := "https" |} in
  do response <- invoke CallDescribeSecurityGroups (DescribeSecurityGroups client) request;
  match response with
  | inr err =>
      do _ <- metricsFailedCreate machine err;
      ret (inr (fmt_Errorf "error describing securitygroup: %v" [ArgError err]))
  | inl response =>
      let found := ecs.DescribeSecurityGroupsResponse.SecurityGroup response in
      if (length found <? 1)%nat then
        ret (inr (fmt_Errorf "no securitygroup for given tags not found" []))
      else
        ret (inl (fold_left
                    (fun securityGroupIDs sg =>
                       securityGroupIDs ++ [ecs.SecurityGroup.SecurityGroupId sg])
                    found []))
  end.

(** The loop of [getSecurityGroupIDs] over the configured entries;
    [securityGroupIDs] is the slice built so far.  An error of a tag
    query leaves the function at once. *)
Fixpoint getSecurityGroupIDs_loop (machine : ObjectKey.t)
    (machineProviderConfig : AlibabaCloudMachineProviderConfig.t) (client : Client)
    (entries : list AlibabaResourceReference.t) (securityGroupIDs : list string)
    : Api (list string + error) :=
  match entries with
  | [] => ret (inl securityGroupIDs)
  | sg :: entries =>
      if negb (strEq (AlibabaResourceReference.ID sg) "") then
        getSecurityGroupIDs_loop machine machineProviderConfig client entries
          (securityGroupIDs ++ [AlibabaResourceReference.ID sg])
      else
        match AlibabaResourceReference.Tags sg with
        | Some tags =>
            do ids <- getSecurityGroupIDByTags machine machineProviderConfig tags client;
            match ids with
            | inr err => ret (inr err)
            | inl ids =>
                getSecurityGroupIDs_loop machine machineProviderConfig client entries
                  (securityGroupIDs ++ ids)
            end
        | None =>
            getSecurityGroupIDs_loop machine machineProviderConfig client entries
              securityGroupIDs
        end
  end.

(** [getSecurityGroupIDs]. *)
Definition getSecurityGroupIDs (machine : ObjectKey.t)
    (machineProviderConfig : AlibabaCloudMachineProviderConfig.t) (client : Client)
    : Api (list string + error) :=
  if (length (SecurityGroups machineProviderConfig) =? 0)%nat then
    ret (inr (errors_New "no security configuration provided"))
  else
    do found <- getSecurityGroupIDs_loop machine machineProviderConfig client
                  (SecurityGroups machineProviderConfig) [];
    match found with
    | inr err => ret (inr err)
    | inl securityGroupIDs =>
        if (length securityGroupIDs =? 0)%nat then
          ret (inr (errors_New "no securitygroup IDs found from configuration"))
        else ret (inl securityGroupIDs)
    end.

(** [getVSwitchIDFromTags]. *)
Definition getVSwitchIDFromTags (machine : ObjectKey.t)
    (mpc : AlibabaCloudMachineProviderConfig.t) (client : Client) : Api (string + error) :=
  let describeVSwitchesRequest :=
    {| vpc.DescribeVSwitchesRequest.Scheme := "https";
       vpc.DescribeVSwitchesRequest.RegionId := RegionID mpc;
       vpc.DescribeVSwitchesRequest.VpcId := VpcID mpc;
       vpc.DescribeVSwitchesRequest.Tag :=
         buildDescribeVSwitchesTag (sliceOf (AlibabaResourceReference.Tags (VSwitch mpc))) |} in
  do describeVSwitchesResponse <-
    invoke CallDescribeVSwitches (DescribeVSwitches client) describeVSwitchesRequest;
  match describeVSwitchesResponse with
  | inr err =>
      do _ <- metricsFailedCreate machine err;
      ret (inr (fmt_Errorf "error describing vswitches: %v" [ArgError err]))
  | inl response =>
      match vpc.DescribeVSwitchesResponse.VSwitch response with
      | [] => ret (inr (fmt_Errorf "no vswitches found for given tags, vpcid, and regionid" []))
      | first :: _ => ret (inl (vpc.VSwitch.VSwitchId first))
      end
  end.

(** [getVSwitchID]. *)
Definition getVSwitchID (machine : ObjectKey.t)
    (machineProviderConfig : AlibabaCloudMachineProviderConfig.t) (client : Client)
    : Api (string + error) :=
  let vswitch := VSwitch machineProviderConfig in
  if strEq (AlibabaResourceReference.ID vswitch) ""
     && (length (sliceOf (AlibabaResourceReference.Tags vswitch)) =? 0)%nat then
    ret (inr (errors_New "no vswitch configuration provided"))
  else if negb (strEq (AlibabaResourceReference.ID vswitch) "") then
    ret (inl (AlibabaResourceReference.ID vswitch))
  else
    match AlibabaResourceReference.Tags vswitch with
    | Some _ => getVSwitchIDFromTags machine machineProviderConfig client
    | None => ret (inr (fmt_Errorf "no vSwitch found from configuration" []))
    end.

(** The predicate [waitForInstancesStatus] polls with.  The code
    appends [&instance], the address of the loop variable, for every
    instance in the wanted status.  The build uses Go 1.18, where a
    range loop has one variable for all iterations: every pointer of
    the slice is that address, and after the loop the variable holds
    the last instance of the response. *)
Definition waitForInstancesStatus_predicate (client : Client) (regionID : string)
    (instanceIds : list string) (instanceStatus : string)
    : Api (bool * option (list ecs.Instance.t) * option error) :=
  let describeInstancesRequest :=
    {| ecs.DescribeInstancesRequest.RegionId := regionID;
       ecs.DescribeInstancesRequest.InstanceIds := Some instanceIds;
       ecs.DescribeInstancesRequest.Scheme := "https";
       ecs.DescribeInstancesRequest.Tag := None |} in
  do describeInstancesResponse <-
    invoke CallDescribeInstances (DescribeInstances client) describeInstancesRequest;
  match describeInstancesResponse with
  | inr err => ret (false, None, Some err)
  | inl response =>
      let described := ecs.DescribeInstancesResponse.Instance response in
      match last described with
      | None =>
          ret (true, None,
               Some (fmt_Errorf "the instances %v not found. " [ArgStrings instanceIds]))
      | Some loopVariable =>
          let idsLen := length instanceIds in
          let matching :=
            filter (fun instance => ecs.Instance.Status instance = instanceStatus)
              described in
          let instances := replicate (length matching) loopVariable in
          if (length instances =? idsLen)%nat then ret (true, Some instances, None)
          else
            ret (false, None,
                 Some (fmt_Errorf
                         "the instances  %v state are not  the expected state  %s "
                         [ArgStrings instanceIds; ArgString instanceStatus]))
      end
  end.

(** [waitForInstancesStatus]; [inl None] is the result (nil, nil). *)
Definition waitForInstancesStatus (client : Client) (regionID : string)
    (instanceIds : list string) (instanceStatus : string) (timeout : Z)
    : Api (option (list ecs.Instance.t) + error) :=
  let timeout := if timeout <=? 0 then InstanceDefaultTimeout else timeout in
  do waited <-
    WaitForResult
      ("Wait for the instances %v state to change to %s ",
       [ArgStrings instanceIds; ArgString instanceStatus])
      (waitForInstancesStatus_predicate client regionID instanceIds instanceStatus)
      false DefaultWaitForInterval timeout;
  match waited with
  | (_, Some err) => ret (inr err)
  | (None, None) => ret (inl None)
  | (Some instances, None) => ret (inl (Some instances))
  end.

End Launcher.

Section RunInstances.
Context `{Externals}.
Import alibabacloudClient.
Import AlibabaCloudMachineProviderConfig.

(** A field that the code assigns only when the value is not the empty
    string. *)
Definition unlessEmpty (value : string) : string :=
  if negb (strEq value "") then value else "".

(** One element of the DataDisk slice of the request. *)
Definition runInstancesDataDiskOf (dataDisk : DataDiskProperties.t)
    : ecs.RunInstancesDataDisk.t :=
  {| ecs.RunInstancesDataDisk.Size := FormatInt10 (DataDiskProperties.Size dataDisk);
     ecs.RunInstancesDataDisk.Category := DataDiskProperties.Category dataDisk;
     ecs.RunInstancesDataDisk.Encrypted :=
       FormatBool (strEq (DataDiskProperties.DiskEncryption dataDisk)
                     AlibabaDiskEncryptionEnabled);
     ecs.RunInstancesDataDisk.DiskName := unlessEmpty (DataDiskProperties.Name dataDisk);
     ecs.RunInstancesDataDisk.SnapshotId :=
       unlessEmpty (DataDiskProperties.SnapshotID dataDisk);
     ecs.RunInstancesDataDisk.PerformanceLevel :=
       unlessEmpty (DataDiskProperties.PerformanceLevel dataDisk);
     ecs.RunInstancesDataDisk.KMSKeyId := unlessEmpty (DataDiskProperties.KMSKeyID dataDisk);
     ecs.RunInstancesDataDisk.DeleteWithInstance :=
       if strEq (DataDiskProperties.DiskPreservation dataDisk) DeleteWithInstance
       then FormatBool true else "" |}.

(** The switch on the tenancy at the end of the request assembly: the
    tenancy of the request, or the error the function returns. *)
Definition tenancyOf (instanceTenancy : string) : string + error :=
  if strEq instanceTenancy "" then inl DefaultTenancy
  else if strEq instanceTenancy DefaultTenancy || strEq instanceTenancy HostTenancy then
    inl instanceTenancy
  else
    inr (mapierrors.CreateMachine
           "invalid instance tenancy: %s. Allowed options are: %s,%s"
           [ArgString instanceTenancy; ArgString DefaultTenancy; ArgString HostTenancy]).

(** The request [runInstances] assembles between the resolution of the
    resources and the call of the client (the part of the function
    without effects), from the configuration and the resolved image,
    security groups, vswitch and cluster ID. *)
Definition runInstancesRequestOf (machine : Machine.t)
    (machineProviderConfig : AlibabaCloudMachineProviderConfig.t) (userData : string)
    (imageID : string) (securityGroupIDs : list string) (vSwitchID clusterID : string)
    : ecs.RunInstancesRequest.t + error :=
  let tagList := buildTagList (Machine.Name machine) clusterID (Tags machineProviderConfig) in
  let bandwidth := Bandwidth machineProviderConfig in
  let systemDisk := SystemDisk machineProviderConfig in
  match tenancyOf (Tenancy machineProviderConfig) with
  | inr err => inr err
  | inl tenancy =>
      inl {|
        ecs.RunInstancesRequest.Scheme := "https";
        ecs.RunInstancesRequest.RegionId := RegionID machineProviderConfig;
        ecs.RunInstancesRequest.ResourceGroupId :=
          unlessEmpty (ResourceGroupID machineProviderConfig);
        ecs.RunInstancesRequest.SecurityGroupIds := Some securityGroupIDs;
        ecs.RunInstancesRequest.Tag := covertToRunInstancesTag tagList;
        ecs.RunInstancesRequest.ImageId := imageID;
        ecs.RunInstancesRequest.InstanceType := InstanceType machineProviderConfig;
        ecs.RunInstancesRequest.InstanceName := Machine.Name machine;
        ecs.RunInstancesRequest.HostName := Machine.Name machine;
        ecs.RunInstancesRequest.Amount := NewInteger 1;
        ecs.RunInstancesRequest.MinAmount := NewInteger 1;
        ecs.RunInstancesRequest.RamRoleName := unlessEmpty (RAMRoleName machineProviderConfig);
        ecs.RunInstancesRequest.InternetMaxBandwidthOut :=
          if BandwidthProperties.InternetMaxBandwidthOut bandwidth >? 0
          then NewInteger64 (BandwidthProperties.InternetMaxBandwidthOut bandwidth)
          else "";
        ecs.RunInstancesRequest.InternetMaxBandwidthIn :=
          if negb (BandwidthProperties.InternetMaxBandwidthIn bandwidth =? 0)
          then NewInteger64 (BandwidthProperties.InternetMaxBandwidthIn bandwidth)
          else "";
        ecs.RunInstancesRequest.VSwitchId := vSwitchID;
        ecs.RunInstancesRequest.SystemDiskCategory := SystemDiskProperties.Category systemDisk;
        ecs.RunInstancesRequest.SystemDiskSize :=
          FormatInt10 (SystemDiskProperties.Size systemDisk);
        ecs.RunInstancesRequest.SystemDiskDiskName :=
          unlessEmpty (SystemDiskProperties.Name systemDisk);
        ecs.RunInstancesRequest.SystemDiskPerformanceLevel :=
          unlessEmpty (SystemDiskProperties.PerformanceLevel systemDisk);
        ecs.RunInstancesRequest.DataDisk :=
          if (0 <? length (DataDisks machineProviderConfig))%nat
          then Some (map runInstancesDataDiskOf (DataDisks machineProviderConfig))
          else None;
        ecs.RunInstancesRequest.UserData := unlessEmpty userData;
        ecs.RunInstancesRequest.Tenancy := tenancy
      |}
  end.

(** [runInstances]. *)
Definition runInstances (machine : Machine.t)
    (machineProviderConfig : AlibabaCloudMachineProviderConfig.t) (userData : string)
    (client : Client) : Api (ecs.Instance.t + error) :=
  let machineKey :=
    {| ObjectKey.Name := Machine.Name machine;
       ObjectKey.Namespace := Machine.Namespace machine |} in
  do imageID <- getImageID machineKey machineProviderConfig client;
  match imageID with
  | inr err =>
      ret (inr (mapierrors.InvalidMachineConfiguration
                  "error getting ImageID: %v" [ArgError err]))
  | inl imageID =>
  do securityGroupIDs <- getSecurityGroupIDs machineKey machineProviderConfig client;
  match securityGroupIDs with
  | inr err =>
      ret (inr (mapierrors.InvalidMachineConfiguration
                  "error getting security groups ID: %v" [ArgError err]))
  | inl securityGroupIDs =>
  do vSwitchID <- getVSwitchID machineKey machineProviderConfig client;
  match vSwitchID with
  | inr err =>
      ret (inr (mapierrors.InvalidMachineConfiguration
                  "error getting vswitch ID: %v" [ArgError err]))
  | inl vSwitchID =>
  match getClusterID machine with
  | None =>
      ret (inr (mapierrors.InvalidMachineConfiguration
                  "Unable to get cluster ID for machine: %q"
                  [ArgString (Machine.Name machine)]))
  | Some clusterID =>
  match runInstancesRequestOf machine machineProviderConfig userData
          imageID securityGroupIDs vSwitchID clusterID with
  | inr err => ret (inr err)
  | inl runInstancesRequest =>
  do runResponse <- invoke CallRunInstances (RunInstances client) runInstancesRequest;
  match runResponse with
  | inr err =>
      do _ <- metricsFailedCreate machineKey err;
      ret (inr (mapierrors.CreateMachine "error creating ECS instance: %v" [ArgError err]))
  | inl (Some {| ecs.RunInstancesResponse.InstanceIdSet := [instanceId] |}) =>
      do _ <- emit (Sleep 5);
      do instance <-
        waitForInstancesStatus client (RegionID machineProviderConfig) [instanceId]
          ECSInstanceStatusRunning InstanceDefaultTimeout;
      match instance with
      | inr err =>
          do _ <- metricsFailedCreate machineKey err;
          ret (inr (mapierrors.CreateMachine
                      "error waiting ECS instance to Running: %v" [ArgError err]))
      | inl (Some (first :: _)) => ret (inl first)
      | inl _ =>
          ret (inr (mapierrors.CreateMachine
                      " ECS instance %s not found" [ArgString instanceId]))
      end
  | inl _ =>
      ret (inr (mapierrors.CreateMachine "unexpected reservation creating instance" []))
  end end end end end end.

End RunInstances.

Section Lookup.
Context `{Externals}.
Import alibabacloudClient.

(** [getInstanceByID].  The code returns a pair: the pointer to the
    instance, nil when no single instance was found, and the error.
    With exactly one instance described, the instance is returned
    together with the verdict of [instanceHasSupportedState]. *)
Definition getInstanceByID (instanceID regionID : string) (client : Client)
    (instanceStates : list string) : Api (option ecs.Instance.t * option error) :=
  if strEq instanceID "" then
    ret (None, Some (fmt_Errorf "instance-id not specified" []))
  else
    do instances <- describeInstances [instanceID] regionID client;
    match instances with
    | inr err => ret (None, Some err)
    | inl instances =>
        match instances with
        | [instance] =>
            ret (Some instance, instanceHasSupportedState instance instanceStates)
        | _ =>
            ret (None,
                 Some (fmt_Errorf "found %d instances for instance-id %s"
                         [ArgInt (Z.of_nat (length instances)); ArgString instanceID]))
        end
    end.

(** [getInstances].  The request is built without a scheme and with the
    two ownership tags.  As in [waitForInstancesStatus], the loop
    appends [&instance], the address of its one loop variable (Go 1.18),
    for every instance in a supported state: the slice returned holds
    that address once per supported instance, and the variable holds
    the last instance of the response. *)
Definition getInstances (machine : Machine.t) (regionID : string) (client : Client)
    (instanceStates : list string) : Api (list ecs.Instance.t + error) :=
  match getClusterID machine with
  | None =>
      ret (inr (fmt_Errorf "unable to get cluster ID for machine: %q"
                  [ArgString (Machine.Name machine)]))
  | Some clusterID =>
      let request :=
        {| ecs.DescribeInstancesRequest.Scheme := "";
           ecs.DescribeInstancesRequest.RegionId := regionID;
           ecs.DescribeInstancesRequest.InstanceIds := None;
           ecs.DescribeInstancesRequest.Tag :=
             Some [ ecs.RequestTag.mk (clusterFilterKeyPrefix +:+ clusterID)
                      clusterFilterValue;
                    ecs.RequestTag.mk clusterFilterName (Machine.Name machine) ] |} in
      do result <- invoke CallDescribeInstances (DescribeInstances client) request;
      match result with
      | inr err => ret (inr err)
      | inl result =>
          let described := ecs.DescribeInstancesResponse.Instance result in
          let supported :=
            List.filter
              (fun instance =>
                 match instanceHasSupportedState instance instanceStates with
                 | None => true
                 | Some _ => false
                 end)
              described in
          match last described with
          | None => ret (inl [])
          | Some loopVariable => ret (inl (replicate (length supported) loopVariable))
          end
      end
  end.

End Lookup.

(** ** Specification-side definitions *)

(** The tags of a list that are the first with their key: the entry at
    index [i] is kept when no entry before [i] has the same key.  This
    follows the wording of the specification, not the code. *)
Definition isFirstOccurrence (tags : list Tag.t) (i : nat) : bool :=
  match tags !! i with
  | Some entry =>
      forallb (fun earlier => negb (strEq (Tag.Key earlier) (Tag.Key entry))) (take i tags)
  | None => false
  end.

Definition firstOccurrences (tags : list Tag.t) : list Tag.t :=
  map snd
    (List.filter (fun p => isFirstOccurrence tags (fst p)) (zip (seq 0 (length tags)) tags)).

(** A key of the reserved namespace: it starts with the cluster prefix
    or it is the name key. *)
Definition reservedKey `{Externals} (key : string) : Prop :=
  HasPrefix key clusterFilterKeyPrefix = true \/ key = clusterFilterName.

(** The order the code sorts into, on two instances of which [a] stands
    before [b]: an instance without start time stands before every
    instance with one, and of two instances with start times the one
    started later stands first. *)
Definition standsBefore `{Externals} (a b : ecs.Instance.t) : Prop :=
  ecs.Instance.StartTime a = ""
  \/ (ecs.Instance.StartTime a <> "" /\ ecs.Instance.StartTime b <> ""
      /\ exists ta tb,
           ParseInLocation (ecs.Instance.StartTime a) = Some ta
           /\ ParseInLocation (ecs.Instance.StartTime b) = Some tb
           /\ tb <= ta).

(** Every start time that is set can be parsed. *)
Definition startTimeParses `{Externals} (instance : ecs.Instance.t) : Prop :=
  ecs.Instance.StartTime instance = ""
  \/ exists t, ParseInLocation (ecs.Instance.StartTime instance) = Some t.

(** The three markers [correctExistingTags] looks for. *)
Definition requiredMarkers `{Externals} (machineName clusterID : string) : list ecs.Tag.t :=
  [ ecs.Tag.mk clusterFilterName machineName;
    ecs.Tag.mk (clusterFilterKeyPrefix +:+ clusterID) clusterFilterValue;
    ecs.Tag.mk clusterOwnedKey clusterOwnedValue ].

(** What one configured security-group entry stands for, when a tag
    filter [tags] matches the groups [matching tags]. *)
Definition entryIDs (matching : list Tag.t -> list string)
    (sg : AlibabaResourceReference.t) : list string :=
  if strEq (AlibabaResourceReference.ID sg) "" then
    match AlibabaResourceReference.Tags sg with
    | Some tags => matching tags
    | None => []
    end
  else [AlibabaResourceReference.ID sg].

(** An event that is not a create-instance call. *)
Definition notRunInstances (e : Event) : Prop :=
  match e with CallRunInstances _ => False | _ => True end.

(** The requests named in the properties: the describe call for a list
    of instance IDs, the batched stop call for a list of instance IDs,
    and the tag call that carries the three required markers for one
    instance. *)
Definition describeByIDs (regionID : string) (instanceIds : list string)
    : ecs.DescribeInstancesRequest.t :=
  {| ecs.DescribeInstancesRequest.Scheme := "https";
     ecs.DescribeInstancesRequest.RegionId := regionID;
     ecs.DescribeInstancesRequest.InstanceIds := Some instanceIds;
     ecs.DescribeInstancesRequest.Tag := None |}.

Definition stopRequest (regionID : string) (instanceIds : list string)
    : ecs.StopInstancesRequest.t :=
  {| ecs.StopInstancesRequest.Scheme := "https";
     ecs.StopInstancesRequest.RegionId := regionID;
     ecs.StopInstancesRequest.InstanceId := Some instanceIds |}.

Definition markerRequest `{Externals} (regionID clusterID machineName instanceId : string)
    : ecs.TagResourcesRequest.t :=
  {| ecs.TagResourcesRequest.Scheme := "https";
     ecs.TagResourcesRequest.RegionId := regionID;
     ecs.TagResourcesRequest.Tag :=
       Some [ ecs.RequestTag.mk (clusterFilterKeyPrefix +:+ clusterID) clusterFilterValue;
              ecs.RequestTag.mk clusterFilterName machineName;
              ecs.RequestTag.mk clusterOwnedKey clusterOwnedValue ];
     ecs.TagResourcesRequest.ResourceId := Some [instanceId];
     ecs.TagResourcesRequest.ResourceType := "instance" |}.

(** The instances of a list that are in the Running status. *)
Definition isRunning (instance : ecs.Instance.t) : bool :=
  strEq (ecs.Instance.Status instance) "Running".

(** A marker has a key and a value. *)
Definition markerSet (marker : ecs.Tag.t) : Prop :=
  ecs.Tag.TagKey marker <> "" /\ ecs.Tag.TagValue marker <> "".

(** The describe call [getSecurityGroupIDByTags] makes for a tag filter,
    and a provider that answers every such call with the groups
    [matching tags], whatever happened before. *)
Definition securityGroupsByTags
    (machineProviderConfig : AlibabaCloudMachineProviderConfig.t) (tags : list Tag.t)
    : ecs.DescribeSecurityGroupsRequest.t :=
  {| ecs.DescribeSecurityGroupsRequest.Scheme := "https";
     ecs.DescribeSecurityGroupsRequest.RegionId :=
       AlibabaCloudMachineProviderConfig.RegionID machineProviderConfig;
     ecs.DescribeSecurityGroupsRequest.VpcId :=
       AlibabaCloudMachineProviderConfig.VpcID machineProviderConfig;
     ecs.DescribeSecurityGroupsRequest.ResourceGroupId :=
       AlibabaCloudMachineProviderConfig.ResourceGroupID machineProviderConfig;
     ecs.DescribeSecurityGroupsRequest.Tag := Some (map toRequestTag tags) |}.

Definition answersByTag (client : alibabacloudClient.Client)
    (machineProviderConfig : AlibabaCloudMachineProviderConfig.t)
    (matching : list Tag.t -> list string) : Prop :=
  forall (h : list Event) (tags : list Tag.t),
    alibabacloudClient.DescribeSecurityGroups client h
      (securityGroupsByTags machineProviderConfig tags)
    = inl (ecs.DescribeSecurityGroupsResponse.mk
             (map ecs.SecurityGroup.mk (matching tags))).

(** Every tag filter that is consulted matches a group. *)
Definition filtersMatch (matching : list Tag.t -> list string)
    (entries : list AlibabaResourceReference.t) : Prop :=
  forall sg tags,
    sg ∈ entries ->
    AlibabaResourceReference.ID sg = "" ->
    AlibabaResourceReference.Tags sg = Some tags ->
    matching tags <> [].

(** The format of the error for a tenancy outside the enumeration. *)
Definition tenancyFormat : string :=
  "invalid instance tenancy: %s. Allowed options are: %s,%s".

(** The describe call of [getInstances] for a machine of a cluster. *)
Definition describeByOwner `{Externals} (regionID clusterID machineName : string)
    : ecs.DescribeInstancesRequest.t :=
  {| ecs.DescribeInstancesRequest.Scheme := "";
     ecs.DescribeInstancesRequest.RegionId := regionID;
     ecs.DescribeInstancesRequest.InstanceIds := None;
     ecs.DescribeInstancesRequest.Tag :=
       Some [ ecs.RequestTag.mk (clusterFilterKeyPrefix +:+ clusterID) clusterFilterValue;
              ecs.RequestTag.mk clusterFilterName machineName ] |}.

(** The describe calls of [getImageID] and of [getVSwitchIDFromTags]. *)
Definition describeImage (machineProviderConfig : AlibabaCloudMachineProviderConfig.t)
    : ecs.DescribeImagesRequest.t :=
  {| ecs.DescribeImagesRequest.Scheme := "https";
     ecs.DescribeImagesRequest.RegionId :=
       AlibabaCloudMachineProviderConfig.RegionID machineProviderConfig;
     ecs.DescribeImagesRequest.ImageId :=
       AlibabaCloudMachineProviderConfig.ImageID machineProviderConfig;
     ecs.DescribeImagesRequest.ShowExpired := "true" |}.

Definition describeVSwitches (machineProviderConfig : AlibabaCloudMachineProviderConfig.t)
    : vpc.DescribeVSwitchesRequest.t :=
  {| vpc.DescribeVSwitchesRequest.Scheme := "https";
     vpc.DescribeVSwitchesRequest.RegionId :=
       AlibabaCloudMachineProviderConfig.RegionID machineProviderConfig;
     vpc.DescribeVSwitchesRequest.VpcId :=
       AlibabaCloudMachineProviderConfig.VpcID machineProviderConfig;
     vpc.DescribeVSwitchesRequest.Tag :=
       Some (map toRequestTag
               (sliceOf (AlibabaResourceReference.Tags
                           (AlibabaCloudMachineProviderConfig.VSwitch
                              machineProviderConfig)))) |}.


(** An event that is not a stop call. *)
Definition notStopInstances (e : Event) : Prop :=
  match e with CallStopInstances _ => False | _ => True end.

(** A tag is fresh for a list when no tag of the list has its key. *)
Definition freshFor (earlier : list Tag.t) (tag : Tag.t) : bool :=
  forallb (fun e => negb (strEq (Tag.Key e) (Tag.Key tag))) earlier.

(** The start time of an instance is set and parses to the instant
    [t]. *)
Definition startsAt `{Externals} (instance : ecs.Instance.t) (t : Z) : Prop :=
  ecs.Instance.StartTime instance <> ""
  /\ ParseInLocation (ecs.Instance.StartTime instance) = Some t.

(** The start time of an instance is set and does not parse. *)
Definition startTimeUnparsed `{Externals} (instance : ecs.Instance.t) : Prop :=
  ecs.Instance.StartTime instance <> ""
  /\ ParseInLocation (ecs.Instance.StartTime instance) = None.

(** The describe call for a tag filter, written out: it carries the key
    and the value of every tag of the filter.  A provider answers such a
    call with the groups [matching tags], whatever happened before. *)
Definition securityGroupsQuery
    (machineProviderConfig : AlibabaCloudMachineProviderConfig.t) (tags : list Tag.t)
    : ecs.DescribeSecurityGroupsRequest.t :=
  {| ecs.DescribeSecurityGroupsRequest.Scheme := "https";
     ecs.DescribeSecurityGroupsRequest.RegionId :=
       AlibabaCloudMachineProviderConfig.RegionID machineProviderConfig;
     ecs.DescribeSecurityGroupsRequest.VpcId :=
       AlibabaCloudMachineProviderConfig.VpcID machineProviderConfig;
     ecs.DescribeSecurityGroupsRequest.ResourceGroupId :=
       AlibabaCloudMachineProviderConfig.ResourceGroupID machineProviderConfig;
     ecs.DescribeSecurityGroupsRequest.Tag :=
       Some (map (fun tag => ecs.RequestTag.mk (Tag.Key tag) (Tag.Value tag)) tags) |}.

Definition answersQuery (client : alibabacloudClient.Client)
    (machineProviderConfig : AlibabaCloudMachineProviderConfig.t)
    (matching : list Tag.t -> list string) : Prop :=
  forall (h : list Event) (tags : list Tag.t),
    alibabacloudClient.DescribeSecurityGroups client h
      (securityGroupsQuery machineProviderConfig tags)
    = inl (ecs.DescribeSecurityGroupsResponse.mk
             (map ecs.SecurityGroup.mk (matching tags))).

(** The tag filters of the entries that have no literal ID, in the order
    of the configuration. *)
Definition consultedFilters (entries : list AlibabaResourceReference.t)
    : list (list Tag.t) :=
  flat_map
    (fun sg =>
       if strEq (AlibabaResourceReference.ID sg) "" then
         match AlibabaResourceReference.Tags sg with
         | Some tags => [tags]
         | None => []
         end
       else [])
    entries.

(** ** Sample values used by the examples

    A reading of the layout 2006-01-02T15:04:05Z in the UTC location:
    seconds since 1970-01-01 for a well-formed value, [None] otherwise.
    Go also accepts a fraction after the seconds, which this reading
    rejects.  The theorems hold for every [ParseInLocation]; this one
    serves the closed examples. *)
Definition digitOf (c : ascii) : option Z :=
  let n := Z.of_N (N_of_ascii c) in
  if (48 <=? n) && (n <=? 57) then Some (n - 48) else None.

Definition numberOf (cs : list ascii) : option Z :=
  fold_left
    (fun acc c =>
       match acc, digitOf c with
       | Some a, Some d => Some (10 * a + d)
       | _, _ => None
       end)
    cs (Some 0).

Definition isLeapYear (y : Z) : bool :=
  (y mod 4 =? 0) && (negb (y mod 100 =? 0) || (y mod 400 =? 0)).

Definition daysIn (y m : Z) : Z :=
  if m =? 2 then (if isLeapYear y then 29 else 28)
  else if (m =? 4) || (m =? 6) || (m =? 9) || (m =? 11) then 30
  else 31.

Definition daysFromCivil (y m d : Z) : Z :=
  let y' := if m <=? 2 then y - 1 else y in
  let era := y' / 400 in
  let yoe := y' - era * 400 in
  let doy := (153 * (if m >? 2 then m - 3 else m + 9) + 2) / 5 + d - 1 in
  let doe := yoe * 365 + yoe / 4 - yoe / 100 + doy in
  era * 146097 + doe - 719468.

Definition parseISO8601UTC (value : string) : option Z :=
  match list_ascii_of_string value with
  | [y1; y2; y3; y4; dash1; m1; m2; dash2; d1; d2; tee;
     h1; h2; colon1; n1; n2; colon2; s1; s2; zed] =>
      if Ascii.eqb dash1 "-" && Ascii.eqb dash2 "-" && Ascii.eqb tee "T"
         && Ascii.eqb colon1 ":" && Ascii.eqb colon2 ":" && Ascii.eqb zed "Z"
      then
        match numberOf [y1; y2; y3; y4], numberOf [m1; m2], numberOf [d1; d2],
              numberOf [h1; h2], numberOf [n1; n2], numberOf [s1; s2] with
        | Some y, Some m, Some d, Some hh, Some mm, Some ss =>
            if (1 <=? m) && (m <=? 12) && (1 <=? d) && (d <=? daysIn y m)
               && (hh <? 24) && (mm <? 60) && (ss <? 60)
            then Some (daysFromCivil y m d * 86400 + hh * 3600 + mm * 60 + ss)
            else None
        | _, _, _, _, _, _ => None
        end
      else None
  | _ => None
  end.

(** A poll that runs the predicate once. *)
Definition pollOnce (name : string * list fmtArg)
    (predicate : Api (bool * option (list ecs.Instance.t) * option error))
    (returnWhenError : bool) (delay timeout : Z)
    : Api (option (list ecs.Instance.t) * option error) :=
  do polled <- predicate;
  match polled with
  | (_, found, err) => ret (found, err)
  end.

Definition sampleExternals : Externals :=
  {| clusterFilterKeyPrefix := "kubernetes.io/cluster/";
     clusterFilterValue := "owned";
     clusterFilterName := "Name";
     clusterOwnedKey := "cluster-owned";
     clusterOwnedValue := "true";
     machineTagKeyFrom := "From";
     machineTagValueFrom := "ocp";
     machineIsvIntegrationTagKey := "ISV Integration";
     DefaultTenancy := "default";
     HostTenancy := "host";
     AlibabaDiskEncryptionEnabled := "encrypted";
     DeleteWithInstance := "DeleteWithInstance";
     getClusterID := fun machine => Machine.Labels machine !! "machine.openshift.io/cluster-api-cluster";
     ParseInLocation := parseISO8601UTC;
     WaitForResult := pollOnce |}.

Definition sampleInstance (id status startTime : string) : ecs.Instance.t :=
  ecs.Instance.mk id status startTime [].

(** A provider that knows the instances [known], the security groups
    [groups] for every tag query, one available image and one vswitch,
    and that accepts every other call. *)
Definition sampleClient (known : list ecs.Instance.t) (groups : list string)
    : alibabacloudClient.Client :=
  {| alibabacloudClient.DescribeImages := fun _ request =>
       inl (ecs.DescribeImagesResponse.mk
              [ecs.Image.mk (ecs.DescribeImagesRequest.ImageId request) "Available"]);
     alibabacloudClient.DescribeSecurityGroups := fun _ _ =>
       inl (ecs.DescribeSecurityGroupsResponse.mk (map ecs.SecurityGroup.mk groups));
     alibabacloudClient.DescribeVSwitches := fun _ _ =>
       inl (vpc.DescribeVSwitchesResponse.mk [vpc.VSwitch.mk "vsw-1"]);
     alibabacloudClient.RunInstances := fun _ _ =>
       inl (Some (ecs.RunInstancesResponse.mk ["i-new"]));
     alibabacloudClient.DescribeInstances := fun _ _ =>
       inl (ecs.DescribeInstancesResponse.mk known);
     alibabacloudClient.StopInstances := fun _ _ =>
       inl (Some (ecs.StopInstancesResponse.mk []));
     alibabacloudClient.TagResources := fun _ _ => None |}.

Definition sampleMachine : Machine.t :=
  Machine.mk "worker-0" "openshift-machine-api"
    {[ "machine.openshift.io/cluster-api-cluster" := "c1" ]}.

Definition sampleConfig (tenancy : string) (diskSize bandwidthOut bandwidthIn : Z)
    : AlibabaCloudMachineProviderConfig.t :=
  {| AlibabaCloudMachineProviderConfig.InstanceType := "ecs.g6.large";
     AlibabaCloudMachineProviderConfig.VpcID := "vpc-1";
     AlibabaCloudMachineProviderConfig.RegionID := "cn-hangzhou";
     AlibabaCloudMachineProviderConfig.ImageID := "img-1";
     AlibabaCloudMachineProviderConfig.DataDisks := [];
     AlibabaCloudMachineProviderConfig.SecurityGroups :=
       [AlibabaResourceReference.mk "sg-literal" None];
     AlibabaCloudMachineProviderConfig.Bandwidth :=
       BandwidthProperties.mk bandwidthIn bandwidthOut;
     AlibabaCloudMachineProviderConfig.SystemDisk :=
       SystemDiskProperties.mk "cloud_essd" "" "" diskSize;
     AlibabaCloudMachineProviderConfig.VSwitch := AlibabaResourceReference.mk "vsw-1" None;
     AlibabaCloudMachineProviderConfig.RAMRoleName := "";
     AlibabaCloudMachineProviderConfig.ResourceGroupID := "";
     AlibabaCloudMachineProviderConfig.Tenancy := tenancy;
     AlibabaCloudMachineProviderConfig.UserDataSecret := "";
     AlibabaCloudMachineProviderConfig.Tags := [] |}.

(** Three instances of one machine: started at T1, started at T2 with
    T1 before T2, and without start time. *)
Definition instanceT1 : ecs.Instance.t :=
  sampleInstance "i-t1" "Running" "2021-01-01T00:00:00Z".
Definition instanceT2 : ecs.Instance.t :=
  sampleInstance "i-t2" "Running" "2021-01-02T00:00:00Z".
Definition instanceUndated : ecs.Instance.t :=
  sampleInstance "i-undated" "Running" "".

(** An instance whose start time lacks the seconds of the layout, and so
    does not parse. *)
Definition instanceUnparsed : ecs.Instance.t :=
  sampleInstance "i-unparsed" "Running" "2021-01-01T12:00Z".

(** Three instances in the statuses Running, Stopped, Running. *)
Definition instancesRunningStoppedRunning : list ecs.Instance.t :=
  [ sampleInstance "i-a" "Running" "";
    sampleInstance "i-b" "Stopped" "";
    sampleInstance "i-c" "Running" "" ].

(** An instance of the sample machine that lacks only the generic owned
    marker, and one that has the three markers. *)
Definition instanceMissingOwned : ecs.Instance.t :=
  ecs.Instance.mk "i-a" "Running" ""
    [ ecs.Tag.mk "Name" "worker-0";
      ecs.Tag.mk "kubernetes.io/cluster/c1" "owned";
      ecs.Tag.mk "team" "storage" ].

Definition instanceFullyTagged : ecs.Instance.t :=
  ecs.Instance.mk "i-a" "Running" ""
    [ ecs.Tag.mk "team" "storage";
      ecs.Tag.mk "cluster-owned" "true";
      ecs.Tag.mk "Name" "worker-0";
      ecs.Tag.mk "kubernetes.io/cluster/c1" "owned" ].

(** The sample configuration with two security-group entries: a
    literal ID, then a tag filter. *)
Definition sampleConfigTwoGroups : AlibabaCloudMachineProviderConfig.t :=
  {| AlibabaCloudMachineProviderConfig.InstanceType := "ecs.g6.large";
     AlibabaCloudMachineProviderConfig.VpcID := "vpc-1";
     AlibabaCloudMachineProviderConfig.RegionID := "cn-hangzhou";
     AlibabaCloudMachineProviderConfig.ImageID := "img-1";
     AlibabaCloudMachineProviderConfig.DataDisks := [];
     AlibabaCloudMachineProviderConfig.SecurityGroups :=
       [ AlibabaResourceReference.mk "sg-literal" None;
         AlibabaResourceReference.mk "" (Some [Tag.mk "role" "worker"]) ];
     AlibabaCloudMachineProviderConfig.Bandwidth := BandwidthProperties.mk 0 0;
     AlibabaCloudMachineProviderConfig.SystemDisk :=
       SystemDiskProperties.mk "cloud_essd" "" "" 120;
     AlibabaCloudMachineProviderConfig.VSwitch := AlibabaResourceReference.mk "vsw-1" None;
     AlibabaCloudMachineProviderConfig.RAMRoleName := "";
     AlibabaCloudMachineProviderConfig.ResourceGroupID := "";
     AlibabaCloudMachineProviderConfig.Tenancy := "";
     AlibabaCloudMachineProviderConfig.UserDataSecret := "";
     AlibabaCloudMachineProviderConfig.Tags := [] |}.

Definition sampleKey : ObjectKey.t := ObjectKey.mk "worker-0" "openshift-machine-api".

(** The sample provider with another answer to the create-instance
    call. *)
Definition sampleClientAnswering
    (answer : option ecs.RunInstancesResponse.t + error) : alibabacloudClient.Client :=
  {| alibabacloudClient.DescribeImages :=
       alibabacloudClient.DescribeImages (sampleClient [] []);
     alibabacloudClient.DescribeSecurityGroups :=
       alibabacloudClient.DescribeSecurityGroups (sampleClient [] []);
     alibabacloudClient.DescribeVSwitches :=
       alibabacloudClient.DescribeVSwitches (sampleClient [] []);
     alibabacloudClient.RunInstances := fun _ _ => answer;
     alibabacloudClient.DescribeInstances :=
       alibabacloudClient.DescribeInstances (sampleClient [] []);
     alibabacloudClient.StopInstances :=
       alibabacloudClient.StopInstances (sampleClient [] []);
     alibabacloudClient.TagResources :=
       alibabacloudClient.TagResources (sampleClient [] []) |}.

(** * Properties *)

(** ** Lifecycle-state filter *)

Lemma strEq_true (a b : string) : strEq a b = true <-> a = b.
Proof. unfold strEq. apply bool_decide_eq_true. Qed.

Lemma strEq_false (a b : string) : strEq a b = false <-> a <> b.
Proof. unfold strEq. apply bool_decide_eq_false. Qed.

Lemma stateListed_elem_of (actualState : string) (instanceStates : list string) :
  stateListed actualState instanceStates = true <-> actualState ∈ instanceStates.
Proof.
  induction instanceStates as [|s rest IH]; simpl.
  - split; [discriminate | intros Hin; inversion Hin].
  - destruct (strEq s actualState) eqn:E.
    + apply strEq_true in E. subst. split; [intros _; left | reflexivity].
    + apply strEq_false in E. rewrite IH. split.
      * intros Hin. right. exact Hin.
      * intros Hin. apply elem_of_cons in Hin as [-> | Hin]; [congruence | exact Hin].
Qed.

(** C10: [instanceHasSupportedState] returns no error exactly when the
    instance has an ID, has a status, and the list of allowed states is
    empty or contains that status.  With an empty list the first two
    conditions decide alone, and an instance without ID or without
    status is rejected whatever the list. *)
Theorem instanceHasSupportedState_accepts_iff
    (instance : ecs.Instance.t) (instanceStates : list string) :
  (instanceHasSupportedState instance instanceStates = None <->
     ecs.Instance.InstanceId instance <> ""
     /\ ecs.Instance.Status instance <> ""
     /\ (instanceStates = [] \/ ecs.Instance.Status instance ∈ instanceStates))
  /\ (instanceHasSupportedState instance [] = None <->
        ecs.Instance.InstanceId instance <> "" /\ ecs.Instance.Status instance <> "")
  /\ (ecs.Instance.InstanceId instance = "" \/ ecs.Instance.Status instance = "" ->
        is_Some (instanceHasSupportedState instance instanceStates)).
Proof.
  unfold instanceHasSupportedState.
  destruct (strEq (ecs.Instance.InstanceId instance) "") eqn:Eid;
    [apply strEq_true in Eid | apply strEq_false in Eid].
  { repeat split; try discriminate; try tauto; intros; eexists; reflexivity. }
  destruct (strEq (ecs.Instance.Status instance) "") eqn:Est;
    [apply strEq_true in Est | apply strEq_false in Est].
  { repeat split; try discriminate; try tauto; intros; eexists; reflexivity. }
  split; [|split].
  - destruct instanceStates as [|s rest].
    + simpl. split; [intros _; auto | reflexivity].
    + cbn [length Nat.eqb].
      destruct (stateListed (ecs.Instance.Status instance) (s :: rest)) eqn:El.
      * apply stateListed_elem_of in El. split; [intros _; auto | reflexivity].
      * split; [discriminate |].
        intros (_ & _ & [Hnil | Hin]); [discriminate |].
        apply stateListed_elem_of in Hin. congruence.
  - simpl. split; [intros _; auto | reflexivity].
  - intros [Hid | Hst]; contradiction.
Qed.

(** ** Tag de-duplication *)

Lemma firstOccurrences_snoc (pre : list Tag.t) (x : Tag.t) :
  firstOccurrences (pre ++ [x]) =
  firstOccurrences pre
  ++ (if forallb (fun earlier => negb (strEq (Tag.Key earlier) (Tag.Key x))) pre
      then [x] else []).
Proof.
  unfold firstOccurrences.
  rewrite length_app. cbn [length]. rewrite seq_app. cbn [seq].
  rewrite Nat.add_0_l.
  rewrite zip_with_app by (rewrite length_seq; reflexivity).
  rewrite List.filter_app, map_app. f_equal.
  - f_equal. apply List.filter_ext_in. intros [i t] Hin. cbn [fst].
    apply list_elem_of_In, elem_of_zip_l in Hin. cbn [fst] in Hin.
    apply elem_of_seq in Hin. unfold isFirstOccurrence.
    rewrite lookup_app_l by lia.
    rewrite take_app_le by lia. reflexivity.
  - cbn [zip_with List.filter fst]. unfold isFirstOccurrence.
    rewrite list_lookup_middle by reflexivity.
    rewrite take_app_length.
    destruct (forallb _ pre); reflexivity.
Qed.

Lemma forallb_key_fresh (key : string) (pre : list Tag.t) :
  forallb (fun earlier => negb (strEq (Tag.Key earlier) key)) pre = true <->
  key ∉ map Tag.Key pre.
Proof.
  induction pre as [|t pre IH]; simpl.
  - split; [intros _ Hin; inversion Hin | reflexivity].
  - rewrite andb_true_iff, IH, negb_true_iff, strEq_false, not_elem_of_cons.
    split; intros [? ?]; split; auto.
Qed.

(** The state of the loop of [removeDuplicatedTags] after the entries
    [pre]: the map holds their keys, the result their first
    occurrences. *)
Lemma removeDuplicatedTags_loop (rest pre : list Tag.t)
    (m : gmap string bool) (found : list Tag.t) :
  (forall key, is_Some (m !! key) <-> key ∈ map Tag.Key pre) ->
  found = firstOccurrences pre ->
  snd (fold_left removeDuplicatedTags_step rest (m, found)) = firstOccurrences (pre ++ rest).
Proof.
  revert pre m found.
  induction rest as [|entry rest IH]; intros pre m found Hm Hfound.
  - rewrite app_nil_r. exact Hfound.
  - cbn [fold_left].
    replace (pre ++ entry :: rest) with ((pre ++ [entry]) ++ rest)
      by (rewrite <- app_assoc; reflexivity).
    unfold removeDuplicatedTags_step at 2.
    destruct (m !! Tag.Key entry) as [seen|] eqn:Hlook.
    + apply IH.
      * intros key. rewrite Hm, map_app, elem_of_app. cbn [map].
        split; [auto |]. intros [Hin | Hin]; [exact Hin |].
        apply list_elem_of_singleton in Hin. subst key.
        apply Hm. eexists; exact Hlook.
      * rewrite firstOccurrences_snoc, Hfound.
        assert (Hseen : Tag.Key entry ∈ map Tag.Key pre)
          by (apply Hm; eexists; exact Hlook).
        destruct (forallb _ pre) eqn:Hfresh.
        { apply forallb_key_fresh in Hfresh. contradiction. }
        rewrite app_nil_r. reflexivity.
    + apply IH.
      * intros key. rewrite map_app, elem_of_app. cbn [map].
        rewrite list_elem_of_singleton, <- Hm.
        destruct (decide (key = Tag.Key entry)) as [-> | Hne].
        { rewrite lookup_insert_eq. split; [auto | intros _; eexists; reflexivity]. }
        rewrite lookup_insert_ne by congruence. tauto.
      * rewrite firstOccurrences_snoc, Hfound.
        assert (Hfresh : Tag.Key entry ∉ map Tag.Key pre).
        { intros Hin. apply Hm in Hin. rewrite Hlook in Hin. destruct Hin; discriminate. }
        apply forallb_key_fresh in Hfresh. rewrite Hfresh. reflexivity.
Qed.

Lemma removeDuplicatedTags_firstOccurrences (tags : list Tag.t) :
  removeDuplicatedTags tags = firstOccurrences tags.
Proof.
  unfold removeDuplicatedTags.
  apply (removeDuplicatedTags_loop tags [] ∅ []).
  - intros key. rewrite lookup_empty. cbn [map]. split.
    + intros [? ?]; discriminate.
    + intros Hin; inversion Hin.
  - reflexivity.
Qed.

Lemma firstOccurrences_elem_of (tags : list Tag.t) (t : Tag.t) :
  t ∈ firstOccurrences tags -> t ∈ tags.
Proof.
  unfold firstOccurrences. intros Hin.
  apply list_elem_of_fmap in Hin as ([i u] & -> & Hin).
  apply list_elem_of_In, List.filter_In in Hin as [Hin _].
  apply list_elem_of_In, elem_of_zip_r in Hin. exact Hin.
Qed.

Lemma firstOccurrences_keys (tags : list Tag.t) (key : string) :
  key ∈ map Tag.Key (firstOccurrences tags) <-> key ∈ map Tag.Key tags.
Proof.
  induction tags as [|x pre IH] using rev_ind; [reflexivity |].
  rewrite firstOccurrences_snoc, !map_app, !elem_of_app, IH.
  destruct (forallb _ pre) eqn:Hfresh; [reflexivity |].
  cbn [map]. split; [intros [Hin | Hin]; [auto | inversion Hin] |].
  intros [Hin | Hin]; [auto |].
  apply list_elem_of_singleton in Hin. subst key. left.
  destruct (decide (Tag.Key x ∈ map Tag.Key pre)) as [Hin | Hnot]; [exact Hin |].
  apply forallb_key_fresh in Hnot. congruence.
Qed.

Lemma firstOccurrences_NoDup (tags : list Tag.t) :
  NoDup (map Tag.Key (firstOccurrences tags)).
Proof.
  induction tags as [|x pre IH] using rev_ind; [constructor |].
  rewrite firstOccurrences_snoc, map_app.
  destruct (forallb _ pre) eqn:Hfresh.
  - apply NoDup_app. split; [exact IH |]. split.
    + intros key Hin Hx. cbn [map] in Hx. apply list_elem_of_singleton in Hx. subst key.
      apply (proj1 (firstOccurrences_keys _ _)) in Hin.
      apply forallb_key_fresh in Hfresh.
      exact (Hfresh Hin).
    + cbn [map]. apply NoDup_singleton.
  - cbn [map]. rewrite app_nil_r. exact IH.
Qed.

Lemma firstOccurrences_sublist (tags : list Tag.t) :
  sublist (firstOccurrences tags) tags.
Proof.
  induction tags as [|x pre IH] using rev_ind; [constructor |].
  rewrite firstOccurrences_snoc.
  destruct (forallb _ pre).
  - apply sublist_app; [exact IH | reflexivity].
  - rewrite app_nil_r. apply sublist_inserts_r. exact IH.
Qed.

(** C6: [removeDuplicatedTags] keeps, in their order, exactly the
    entries that are the first of the list with their key; keys are
    compared as strings, byte for byte.  Hence the result is a
    subsequence of the input in which every key of the input occurs
    once. *)
Theorem removeDuplicatedTags_keeps_first_occurrences (tags : list Tag.t) :
  removeDuplicatedTags tags = firstOccurrences tags
  /\ sublist (removeDuplicatedTags tags) tags
  /\ NoDup (map Tag.Key (removeDuplicatedTags tags))
  /\ (forall key : string,
        key ∈ map Tag.Key (removeDuplicatedTags tags) <-> key ∈ map Tag.Key tags).
Proof.
  rewrite removeDuplicatedTags_firstOccurrences.
  split; [reflexivity |].
  split; [apply firstOccurrences_sublist |].
  split; [apply firstOccurrences_NoDup |].
  apply firstOccurrences_keys.
Qed.

(** Keys that differ only in case are different keys: both are kept,
    and of two entries with the same key the first is kept. *)
Example removeDuplicatedTags_case_sensitive :
  removeDuplicatedTags
    [Tag.mk "Name" "a"; Tag.mk "name" "b"; Tag.mk "Name" "c"; Tag.mk "team" "d"]
  = [Tag.mk "Name" "a"; Tag.mk "name" "b"; Tag.mk "team" "d"].
Proof. vm_compute. reflexivity. Qed.

(** ** Generated tag list *)

Lemma fold_left_keep_append {A B : Type} (keep : A -> bool) (g : A -> B)
    (l : list A) (acc : list B) :
  fold_left (fun acc x => if keep x then acc ++ [g x] else acc) l acc
  = acc ++ map g (List.filter keep l).
Proof.
  revert acc. induction l as [|x l IH]; intros acc; cbn [fold_left List.filter].
  - cbn [map]. rewrite app_nil_r. reflexivity.
  - rewrite IH. destruct (keep x); [| reflexivity].
    cbn [map]. rewrite <- app_assoc. reflexivity.
Qed.

Section TagList.
Context `{Externals}.

Lemma keepsMachineTag_not_reserved (tag : Tag.t) :
  keepsMachineTag tag = true <-> ~ reservedKey (Tag.Key tag).
Proof.
  unfold keepsMachineTag, reservedKey.
  rewrite andb_true_iff, !negb_true_iff, strEq_false.
  destruct (HasPrefix (Tag.Key tag) clusterFilterKeyPrefix).
  - split; [intros [? _]; discriminate | intros Hn; exfalso; apply Hn; left; reflexivity].
  - split.
    + intros [_ Hne] [Hp | Heq]; [discriminate | contradiction].
    + intros Hn. split; [reflexivity |]. intros Heq. apply Hn. right. exact Heq.
Qed.

Lemma buildTagList_unfold (machineName clusterID : string) (machineTags : list Tag.t) :
  buildTagList machineName clusterID machineTags
  = removeDuplicatedTags
      (List.filter keepsMachineTag machineTags ++ generatedTags machineName clusterID).
Proof.
  unfold buildTagList.
  rewrite (fold_left_keep_append keepsMachineTag
             (fun tag => Tag.mk (Tag.Key tag) (Tag.Value tag))).
  cbn [app]. f_equal. f_equal.
  induction (List.filter keepsMachineTag machineTags) as [|[k v] l IH]; [reflexivity |].
  cbn [map Tag.Key Tag.Value]. rewrite IH. reflexivity.
Qed.

(** C7: the list [buildTagList] de-duplicates is the machine tags
    without those whose key has the cluster prefix or is the name key,
    followed by the generated tags.  A machine tag with such a key is
    dropped whatever its value, so any tag of the result with a
    reserved key is one of the generated tags. *)
Theorem buildTagList_excludes_reserved
    (machineName clusterID : string) (machineTags : list Tag.t) :
  let kept := List.filter keepsMachineTag machineTags in
  buildTagList machineName clusterID machineTags
  = removeDuplicatedTags (kept ++ generatedTags machineName clusterID)
  /\ (forall tag : Tag.t,
        tag ∈ kept <-> tag ∈ machineTags /\ ~ reservedKey (Tag.Key tag))
  /\ (forall tag : Tag.t,
        tag ∈ buildTagList machineName clusterID machineTags ->
        reservedKey (Tag.Key tag) ->
        tag ∈ generatedTags machineName clusterID).
Proof.
  intros kept.
  assert (Hkept : forall tag : Tag.t,
             tag ∈ kept <-> tag ∈ machineTags /\ ~ reservedKey (Tag.Key tag)).
  { intros tag. unfold kept.
    rewrite list_elem_of_In, List.filter_In, <- list_elem_of_In,
      keepsMachineTag_not_reserved.
    reflexivity. }
  split; [apply buildTagList_unfold |].
  split; [exact Hkept |].
  intros tag Hin Hres.
  rewrite buildTagList_unfold, removeDuplicatedTags_firstOccurrences in Hin.
  apply firstOccurrences_elem_of, elem_of_app in Hin as [Hin | Hin]; [| exact Hin].
  apply Hkept in Hin as [_ Hnot]. contradiction.
Qed.

End TagList.

(** A machine tag that claims the name key or a cluster key is not in
    the generated list; the generated markers are. *)
Example buildTagList_sample :
  @buildTagList sampleExternals "worker-0" "c1"
    [Tag.mk "Name" "intruder"; Tag.mk "kubernetes.io/cluster/other" "owned";
     Tag.mk "team" "storage"]
  = [Tag.mk "team" "storage";
     Tag.mk "kubernetes.io/cluster/c1" "owned";
     Tag.mk "Name" "worker-0";
     Tag.mk "cluster-owned" "true";
     Tag.mk "From" "ocp";
     Tag.mk "ISV Integration" "ocp"].
Proof. vm_compute. reflexivity. Qed.

(** ** Insertion sort *)

Section SortFacts.
Context {A : Type} (less : A -> A -> bool) (P : A -> Prop).

(** On the elements that satisfy [P] the comparison is asymmetric and
    "not less" is transitive. *)
Hypothesis less_asym :
  forall a b, P a -> P b -> less a b = true -> less b a = false.
Hypothesis not_less_trans :
  forall a b c, P a -> P b -> P c ->
    less b a = false -> less c b = false -> less c a = false.

Lemma sift_Permutation (x : A) (before : list A) :
  Permutation (sift less x before) (x :: before).
Proof.
  induction before as [|y rest IH]; cbn [sift]; [reflexivity |].
  destruct (less x y); [| reflexivity].
  rewrite IH. apply perm_swap.
Qed.

Lemma insertionSort_Permutation (data : list A) :
  Permutation data (insertionSort less data).
Proof.
  unfold insertionSort. rewrite <- Permutation_rev.
  assert (Hgen : forall before,
             Permutation (before ++ data)
               (fold_left (fun before x => sift less x before) data before)).
  { induction data as [|x data IH]; intros before; cbn [fold_left].
    - rewrite app_nil_r. reflexivity.
    - rewrite <- IH. rewrite sift_Permutation.
      symmetry. apply Permutation_middle. }
  apply (Hgen []).
Qed.

(** The part before the element under insertion, nearest element
    first, is ordered when every element may stand after all those
    that follow it in that list. *)
Lemma sift_sorted (x : A) (before : list A) :
  P x -> Forall P before ->
  StronglySorted (fun later earlier => less later earlier = false) before ->
  StronglySorted (fun later earlier => less later earlier = false) (sift less x before).
Proof.
  intros Px. induction before as [|y rest IH]; intros HP Hs; cbn [sift].
  - repeat constructor.
  - apply Forall_cons in HP as [Py HPrest].
    apply StronglySorted_inv in Hs as [Hrest Hy].
    destruct (less x y) eqn:Hxy.
    + constructor; [apply IH; assumption |].
      rewrite (sift_Permutation x rest). constructor; [| exact Hy].
      apply less_asym; assumption.
    + constructor; [constructor; assumption |].
      constructor; [exact Hxy |].
      rewrite Forall_forall in Hy, HPrest. apply Forall_forall.
      intros e He.
      apply (not_less_trans e y x); auto.
Qed.

Lemma StronglySorted_rev_flip (R : A -> A -> Prop) (l : list A) :
  StronglySorted (fun later earlier => R earlier later) l -> StronglySorted R (rev l).
Proof.
  induction 1 as [|x l Hs IH Hx]; cbn [rev]; [constructor |].
  clear Hs.
  assert (Hx' : Forall (fun earlier => R earlier x) (rev l)).
  { apply Forall_forall. intros e He. rewrite Forall_forall in Hx.
    apply Hx. apply list_elem_of_In, in_rev, list_elem_of_In. exact He. }
  clear Hx. induction IH as [|y k Hk IHk Hy]; cbn [app].
  - repeat constructor.
  - apply Forall_cons in Hx' as [Hyx Hkx].
    constructor; [apply IHk; exact Hkx |].
    apply Forall_app. split; [exact Hy | repeat constructor; exact Hyx].
Qed.

Lemma insertionSort_sorted (data : list A) :
  Forall P data ->
  StronglySorted (fun earlier later => less later earlier = false)
    (insertionSort less data).
Proof.
  intros HP. unfold insertionSort.
  apply (StronglySorted_rev_flip (fun earlier later => less later earlier = false)).
  assert (Hgen : forall before,
             Forall P before -> Forall P data ->
             StronglySorted (fun later earlier => less later earlier = false) before ->
             StronglySorted (fun later earlier => less later earlier = false)
               (fold_left (fun before x => sift less x before) data before)).
  { clear HP. induction data as [|x data IH]; intros before HPb HPd Hs; cbn [fold_left].
    - exact Hs.
    - apply Forall_cons in HPd as [Px HPd].
      apply IH; [| exact HPd | apply sift_sorted; assumption].
      rewrite (sift_Permutation x before). constructor; assumption. }
  apply Hgen; [constructor | exact HP | constructor].
Qed.

End SortFacts.

(** ** Order of duplicate instances *)

Section InstanceOrder.
Context `{Externals}.

(** [Less] on instances whose start times parse, case by case. *)
Lemma Less_cases (a b : ecs.Instance.t) :
  startTimeParses a -> startTimeParses b ->
  (ecs.Instance.StartTime a = "" /\ ecs.Instance.StartTime b = "" /\ Less a b = false)
  \/ (ecs.Instance.StartTime a <> "" /\ ecs.Instance.StartTime b = "" /\ Less a b = false)
  \/ (ecs.Instance.StartTime a = "" /\ ecs.Instance.StartTime b <> "" /\ Less a b = true)
  \/ (ecs.Instance.StartTime a <> "" /\ ecs.Instance.StartTime b <> ""
      /\ exists ta tb,
           ParseInLocation (ecs.Instance.StartTime a) = Some ta
           /\ ParseInLocation (ecs.Instance.StartTime b) = Some tb
           /\ Less a b = (ta >? tb)).
Proof.
  intros Ha Hb. unfold Less.
  destruct (strEq (ecs.Instance.StartTime a) "") eqn:Ea;
    [apply strEq_true in Ea | apply strEq_false in Ea];
    (destruct (strEq (ecs.Instance.StartTime b) "") eqn:Eb;
     [apply strEq_true in Eb | apply strEq_false in Eb]); cbn [andb negb].
  - left. auto.
  - right. right. left. auto.
  - right. left. auto.
  - right. right. right.
    destruct Ha as [Ha | [ta Hta]]; [contradiction |].
    destruct Hb as [Hb | [tb Htb]]; [contradiction |].
    rewrite Hta, Htb. split; [exact Ea |]. split; [exact Eb |].
    exists ta, tb. auto.
Qed.

Lemma Less_false_standsBefore (a b : ecs.Instance.t) :
  startTimeParses a -> startTimeParses b ->
  (Less b a = false <-> standsBefore a b).
Proof.
  intros Ha Hb. unfold standsBefore.
  destruct (Less_cases b a Hb Ha)
    as [(Eb & Ea & HL) | [(Eb & Ea & HL) | [(Eb & Ea & HL) | (Eb & Ea & tb & ta & Hb' & Ha' & HL)]]];
    rewrite HL.
  - split; [intros _; left; exact Ea | reflexivity].
  - split; [intros _; left; exact Ea | reflexivity].
  - split; [discriminate |]. intros [Hn | (_ & Hn & _)]; contradiction.
  - split.
    + intros Hgt. right. split; [exact Ea |]. split; [exact Eb |].
      exists ta, tb. split; [exact Ha' |]. split; [exact Hb' |].
      destruct (Z.gtb_spec tb ta); [discriminate | lia].
    + intros [Hn | (_ & _ & ta' & tb' & Ha'' & Hb'' & Hle)]; [contradiction |].
      rewrite Ha' in Ha''. rewrite Hb' in Hb''.
      injection Ha'' as <-. injection Hb'' as <-.
      destruct (Z.gtb_spec tb ta); [lia | reflexivity].
Qed.

Lemma Less_asym (a b : ecs.Instance.t) :
  startTimeParses a -> startTimeParses b -> Less a b = true -> Less b a = false.
Proof.
  intros Ha Hb.
  destruct (Less_cases a b Ha Hb)
    as [(Ea & Eb & HL) | [(Ea & Eb & HL) | [(Ea & Eb & HL) | (Ea & Eb & ta & tb & Ha' & Hb' & HL)]]];
    rewrite HL; try discriminate.
  - intros _. unfold Less. apply strEq_true in Ea. apply strEq_false in Eb.
    rewrite Ea, Eb. reflexivity.
  - intros Hgt. unfold Less. apply strEq_false in Ea, Eb.
    rewrite Ea, Eb, Ha', Hb'. cbn [andb negb].
    destruct (Z.gtb_spec ta tb); [| discriminate].
    destruct (Z.gtb_spec tb ta); [lia | reflexivity].
Qed.

Lemma standsBefore_trans (a b c : ecs.Instance.t) :
  standsBefore a b -> standsBefore b c -> standsBefore a c.
Proof.
  unfold standsBefore.
  intros [Ha | (Ha & Hb & ta & tb & Hta & Htb & Hle)]; [left; exact Ha |].
  intros [Hb' | (_ & Hc & tb' & tc & Htb' & Htc & Hle')]; [contradiction |].
  right. split; [exact Ha |]. split; [exact Hc |].
  exists ta, tc. split; [exact Hta |]. split; [exact Htc |].
  rewrite Htb in Htb'. injection Htb' as <-. lia.
Qed.

Lemma Less_not_less_trans (a b c : ecs.Instance.t) :
  startTimeParses a -> startTimeParses b -> startTimeParses c ->
  Less b a = false -> Less c b = false -> Less c a = false.
Proof.
  intros Ha Hb Hc Hab Hbc.
  apply Less_false_standsBefore in Hab; [| assumption | assumption].
  apply Less_false_standsBefore in Hbc; [| assumption | assumption].
  apply Less_false_standsBefore; [assumption | assumption |].
  exact (standsBefore_trans a b c Hab Hbc).
Qed.

(** C1, as the code has it: when every start time that is set can be
    parsed, [sortInstances] rearranges the instances so that those
    without start time come first and the others follow from the
    latest start to the earliest. *)
Theorem sortInstances_undated_first_then_newest
    (instances : list ecs.Instance.t) :
  Forall startTimeParses instances ->
  Permutation instances (sortInstances instances)
  /\ StronglySorted standsBefore (sortInstances instances).
Proof.
  intros Hparse. unfold sortInstances.
  split; [apply insertionSort_Permutation |].
  pose proof (insertionSort_sorted Less startTimeParses Less_asym
                Less_not_less_trans instances Hparse) as Hsorted.
  assert (Hall : Forall startTimeParses (insertionSort Less instances)).
  { rewrite <- (insertionSort_Permutation Less instances). exact Hparse. }
  revert Hall. induction Hsorted as [|x l Hl IH Hx]; intros Hall; [constructor |].
  apply Forall_cons in Hall as [Px Pl].
  constructor; [apply IH; exact Pl |].
  rewrite Forall_forall in Hx, Pl. apply Forall_forall. intros e He.
  apply Less_false_standsBefore; auto.
Qed.

(** The same order holds for the result of any sort that leaves no
adjacent pair out of order with respect to [Less], which is what
[sort.Sort] promises for slices of every length. *)
Lemma Less_sorted_standsBefore (sorted : list ecs.Instance.t) :
Forall startTimeParses sorted ->
Sorted (fun earlier later => Less later earlier = false) sorted ->
StronglySorted standsBefore sorted.
Proof.
intros Hparse Hsorted.
apply Sorted_StronglySorted; [exact standsBefore_trans |].
induction Hsorted as [|x l Hl IH Hhd]; [constructor |].
apply Forall_cons in Hparse as [Px Pl].
constructor; [apply IH; exact Pl |].
destruct Hhd as [|y l Hxy]; constructor.
apply Forall_cons in Pl as [Py _].
apply Less_false_standsBefore; assumption.
Qed.

End InstanceOrder.

Lemma sortInstances_undated_first_then_newest_witness :
  Forall (@startTimeParses sampleExternals) [instanceT1; instanceUndated; instanceT2]
  /\ Permutation [instanceT1; instanceUndated; instanceT2]
       (@sortInstances sampleExternals [instanceT1; instanceUndated; instanceT2])
  /\ StronglySorted (@standsBefore sampleExternals)
       (@sortInstances sampleExternals [instanceT1; instanceUndated; instanceT2]).
Proof.
  assert (Hparse : Forall (@startTimeParses sampleExternals)
                     [instanceT1; instanceUndated; instanceT2]).
  { apply List.Forall_cons; [right; eexists; vm_compute; reflexivity |].
    apply List.Forall_cons; [left; reflexivity |].
    apply List.Forall_cons; [right; eexists; vm_compute; reflexivity |].
    apply List.Forall_nil. }
  split; [exact Hparse |].
  exact (@sortInstances_undated_first_then_newest sampleExternals _ Hparse).
Defined.

(** Without the condition on the start times the order can fail: a start
    time that does not parse compares as "not less" with every dated
    instance, so T1 stays before T2. *)
Example sortInstances_unparsed_keeps_order :
  @sortInstances sampleExternals [instanceT1; instanceUnparsed; instanceT2]
  = [instanceT1; instanceUnparsed; instanceT2].
Proof. vm_compute. reflexivity. Qed.

(** C1 as stated fails: with T1 before T2 the code puts the instance
    without start time first, not last. *)
Lemma sortInstances_undated_last_counterexample :
  (exists t1 t2,
     parseISO8601UTC (ecs.Instance.StartTime instanceT1) = Some t1
     /\ parseISO8601UTC (ecs.Instance.StartTime instanceT2) = Some t2
     /\ t1 < t2)
  /\ @sortInstances sampleExternals [instanceT1; instanceT2; instanceUndated]
     = [instanceUndated; instanceT2; instanceT1]
  /\ @sortInstances sampleExternals [instanceT1; instanceT2; instanceUndated]
     <> [instanceT2; instanceT1; instanceUndated].
Proof.
  split; [| split].
  - eexists _, _. split; [vm_compute; reflexivity |].
    split; [vm_compute; reflexivity | reflexivity].
  - vm_compute. reflexivity.
  - vm_compute. discriminate.
Qed.

(** ** Clean-up of redundant instances *)

Lemma instanceIDsOf_map (instances : list ecs.Instance.t) :
  instanceIDsOf instances = map ecs.Instance.InstanceId instances.
Proof.
  unfold instanceIDsOf.
  rewrite <- (List.filter_true instances) at 2.
  apply (fold_left_keep_append (fun _ => true) ecs.Instance.InstanceId instances []).
Qed.

Lemma needStoppedInstanceIDsOf_running (existingInstances : list ecs.Instance.t) :
  needStoppedInstanceIDsOf existingInstances
  = map ecs.Instance.InstanceId (List.filter isRunning existingInstances).
Proof.
  apply (fold_left_keep_append isRunning ecs.Instance.InstanceId existingInstances []).
Qed.

Lemma length_lt_1 {A : Type} (l : list A) : (length l <? 1)%nat = false <-> l <> [].
Proof. destruct l; cbn; split; congruence. Qed.

(** C5, as the code has it: for a non-empty input whose re-describe call
    answers at least one instance, [stopInstances] issues, after that
    describe call, one stop request, and the request lists the IDs of
    the described instances whose status is Running, in their order. *)
Theorem stopInstances_stops_exactly_running
    (client : alibabacloudClient.Client) (regionID : string)
    (instances existingInstances : list ecs.Instance.t) (h : list Event) :
  instances <> [] ->
  alibabacloudClient.DescribeInstances client h
    (describeByIDs regionID (map ecs.Instance.InstanceId instances))
  = inl (ecs.DescribeInstancesResponse.mk existingInstances) ->
  existingInstances <> [] ->
  issued (stopInstances client regionID instances) h
  = [ CallDescribeInstances
        (describeByIDs regionID (map ecs.Instance.InstanceId instances));
      CallStopInstances
        (stopRequest regionID
           (map ecs.Instance.InstanceId (List.filter isRunning existingInstances))) ].
Proof.
  intros Hne Hdescribe Hexisting.
  unfold issued, stopInstances, describeInstances, bind, invoke, ret.
  rewrite instanceIDsOf_map.
  assert (Hids : (length (map ecs.Instance.InstanceId instances) <? 1)%nat = false).
  { apply length_lt_1. destruct instances; [congruence | discriminate]. }
  rewrite Hids. fold (describeByIDs regionID (map ecs.Instance.InstanceId instances)).
  rewrite Hdescribe. cbn [ecs.DescribeInstancesResponse.Instance].
  apply length_lt_1 in Hexisting. rewrite Hexisting.
  rewrite needStoppedInstanceIDsOf_running.
  fold (stopRequest regionID
          (map ecs.Instance.InstanceId (List.filter isRunning existingInstances))).
  destruct (alibabacloudClient.StopInstances client _ _) as [[response|]|err];
    reflexivity.
Qed.

(** C4, as the code has it: for a non-empty input whose re-describe call
    answers no instance at all, [stopInstances] returns the existence
    error and issues no stop request. *)
Theorem stopInstances_none_described_is_error
    (client : alibabacloudClient.Client) (regionID : string)
    (instances : list ecs.Instance.t) (h : list Event) :
  instances <> [] ->
  alibabacloudClient.DescribeInstances client h
    (describeByIDs regionID (map ecs.Instance.InstanceId instances))
  = inl (ecs.DescribeInstancesResponse.mk []) ->
  result (stopInstances client regionID instances) h
  = inr (fmt_Errorf "instances %v not exist"
           [ArgStrings (map ecs.Instance.InstanceId instances)])
  /\ issued (stopInstances client regionID instances) h
     = [ CallDescribeInstances
           (describeByIDs regionID (map ecs.Instance.InstanceId instances)) ].
Proof.
  intros Hne Hdescribe.
  unfold result, issued, stopInstances, describeInstances, bind, invoke, ret.
  rewrite instanceIDsOf_map.
  assert (Hids : (length (map ecs.Instance.InstanceId instances) <? 1)%nat = false).
  { apply length_lt_1. destruct instances; [congruence | discriminate]. }
  rewrite Hids. fold (describeByIDs regionID (map ecs.Instance.InstanceId instances)).
  rewrite Hdescribe. cbn. split; reflexivity.
Qed.

Lemma stopInstances_stops_exactly_running_witness :
  issued
    (stopInstances (sampleClient instancesRunningStoppedRunning []) "cn-hangzhou"
       instancesRunningStoppedRunning) []
  = [ CallDescribeInstances (describeByIDs "cn-hangzhou" ["i-a"; "i-b"; "i-c"]);
      CallStopInstances (stopRequest "cn-hangzhou" ["i-a"; "i-c"]) ].
Proof.
  apply (stopInstances_stops_exactly_running
           (sampleClient instancesRunningStoppedRunning []) "cn-hangzhou"
           instancesRunningStoppedRunning instancesRunningStoppedRunning []).
  - discriminate.
  - reflexivity.
  - discriminate.
Defined.

(** C5 as stated fails: the input is not empty, the describe call
    answers no instance, and no stop request is issued. *)
Lemma stopInstances_none_described_counterexample :
  [instanceT1] <> []
  /\ issued (stopInstances (sampleClient [] []) "cn-hangzhou" [instanceT1]) []
     = [ CallDescribeInstances (describeByIDs "cn-hangzhou" ["i-t1"]) ]
  /\ Forall notStopInstances
       (issued (stopInstances (sampleClient [] []) "cn-hangzhou" [instanceT1]) []).
Proof.
  split; [discriminate |]. split; [reflexivity |].
  apply List.Forall_cons; [exact I | apply List.Forall_nil].
Qed.

Lemma stopInstances_none_described_is_error_witness :
  result (stopInstances (sampleClient [] []) "cn-hangzhou" [instanceT1]) []
  = inr (fmt_Errorf "instances %v not exist" [ArgStrings ["i-t1"]])
  /\ issued (stopInstances (sampleClient [] []) "cn-hangzhou" [instanceT1]) []
     = [ CallDescribeInstances (describeByIDs "cn-hangzhou" ["i-t1"]) ].
Proof.
  apply (stopInstances_none_described_is_error
           (sampleClient [] []) "cn-hangzhou" [instanceT1] []).
  - discriminate.
  - reflexivity.
Defined.

(** C4 as stated fails: the input is not empty, the one instance
    described is stopped, so nothing is left after the filter; the code
    returns no error and issues a stop request with an empty list of
    IDs. *)
Lemma stopInstances_empty_after_filter_counterexample :
  List.filter isRunning [sampleInstance "i-t1" "Stopped" ""] = []
  /\ result
       (stopInstances (sampleClient [sampleInstance "i-t1" "Stopped" ""] [])
          "cn-hangzhou" [instanceT1]) []
     = inl (Some [])
  /\ issued
       (stopInstances (sampleClient [sampleInstance "i-t1" "Stopped" ""] [])
          "cn-hangzhou" [instanceT1]) []
     = [ CallDescribeInstances (describeByIDs "cn-hangzhou" ["i-t1"]);
         CallStopInstances (stopRequest "cn-hangzhou" []) ].
Proof. repeat split. Qed.

(** ** Tag repair *)

Lemma tag_matches (tag : ecs.Tag.t) (key value : string) :
  strEq (ecs.Tag.TagKey tag) key && strEq (ecs.Tag.TagValue tag) value = true
  <-> tag = ecs.Tag.mk key value.
Proof.
  rewrite andb_true_iff, !strEq_true. destruct tag as [k v]. cbn.
  split; [intros [-> ->]; reflexivity | intros [= -> ->]; auto].
Qed.

Lemma flag_update (flag : bool) (tag : ecs.Tag.t) (key value : string) :
  (if strEq (ecs.Tag.TagKey tag) key && strEq (ecs.Tag.TagValue tag) value
   then true else flag) = true
  <-> flag = true \/ tag = ecs.Tag.mk key value.
Proof.
  rewrite <- tag_matches.
  destruct (strEq (ecs.Tag.TagKey tag) key && strEq (ecs.Tag.TagValue tag) value);
    destruct flag; intuition congruence.
Qed.

Section TagRepair.
Context `{Externals}.

(** The flags after the loop over the tags: a flag is set when it was
    set before or when the tag list holds the marker. *)
Lemma correctExistingTags_flags (machineName clusterID : string)
    (tags : list ecs.Tag.t) (nameTagOk clusterTagOk ownedTagOk : bool) :
  Forall markerSet (requiredMarkers machineName clusterID) ->
  match fold_left (correctExistingTags_step machineName clusterID) tags
          (nameTagOk, clusterTagOk, ownedTagOk) with
  | (nameTagOk', clusterTagOk', ownedTagOk') =>
      (nameTagOk' = true <->
         nameTagOk = true \/ ecs.Tag.mk clusterFilterName machineName ∈ tags)
      /\ (clusterTagOk' = true <->
            clusterTagOk = true
            \/ ecs.Tag.mk (clusterFilterKeyPrefix +:+ clusterID) clusterFilterValue ∈ tags)
      /\ (ownedTagOk' = true <->
            ownedTagOk = true \/ ecs.Tag.mk clusterOwnedKey clusterOwnedValue ∈ tags)
  end.
Proof.
  intros Hset. unfold requiredMarkers in Hset.
  apply Forall_cons in Hset as [[Hn1 Hn2] Hset].
  apply Forall_cons in Hset as [[Hc1 Hc2] Hset].
  apply Forall_cons in Hset as [[Ho1 Ho2] _].
  cbn [ecs.Tag.TagKey ecs.Tag.TagValue] in *.
  revert nameTagOk clusterTagOk ownedTagOk.
  induction tags as [|tag tags IH]; intros a b c; cbn [fold_left].
  - repeat split; try (intros ->; left; reflexivity);
      intros [-> | Hin]; try reflexivity; inversion Hin.
  - unfold correctExistingTags_step at 2.
    destruct (negb (strEq (ecs.Tag.TagKey tag) "")
              && negb (strEq (ecs.Tag.TagValue tag) "")) eqn:Hfilled.
    + specialize (IH
        (if strEq (ecs.Tag.TagKey tag) clusterFilterName
            && strEq (ecs.Tag.TagValue tag) machineName then true else a)
        (if strEq (ecs.Tag.TagKey tag) (clusterFilterKeyPrefix +:+ clusterID)
            && strEq (ecs.Tag.TagValue tag) clusterFilterValue then true else b)
        (if strEq (ecs.Tag.TagKey tag) clusterOwnedKey
            && strEq (ecs.Tag.TagValue tag) clusterOwnedValue then true else c)).
      destruct (fold_left _ tags _) as [[a' b'] c'].
      destruct IH as (IHa & IHb & IHc).
      rewrite IHa, IHb, IHc, !flag_update, !elem_of_cons.
      repeat split; intuition (subst; auto).
    + specialize (IH a b c).
      destruct (fold_left _ tags _) as [[a' b'] c'].
      destruct IH as (IHa & IHb & IHc).
      rewrite IHa, IHb, IHc, !elem_of_cons.
      assert (Hempty : ecs.Tag.TagKey tag = "" \/ ecs.Tag.TagValue tag = "").
      { apply andb_false_iff in Hfilled as [E | E];
          apply negb_false_iff, strEq_true in E; auto. }
      repeat split; try tauto.
      all: intros [Hflag | [Heq | Hin]]; auto; subst tag;
        cbn [ecs.Tag.TagKey ecs.Tag.TagValue] in Hempty;
        destruct Hempty; congruence.
Qed.

End TagRepair.

Section TagRepairClaim.
Context `{Externals}.

(** C9: for an instance with an ID, a machine with a cluster ID, and
    markers that have keys and values, [correctExistingTags] issues no
    call when the tags of the instance hold the name marker, the
    cluster marker and the owned marker, and issues one tag call, with
    the three markers for this instance, when one of them is not
    among the tags (absent, or present with another value). *)
Theorem correctExistingTags_repairs_once
    (machine : Machine.t) (regionID : string) (inst : ecs.Instance.t)
    (client : alibabacloudClient.Client) (h : list Event) (clusterID : string) :
  ecs.Instance.InstanceId inst <> "" ->
  getClusterID machine = Some clusterID ->
  Forall markerSet (requiredMarkers (Machine.Name machine) clusterID) ->
  (Forall (fun marker => marker ∈ ecs.Instance.Tags inst)
     (requiredMarkers (Machine.Name machine) clusterID) ->
   issued (correctExistingTags machine regionID (Some inst) client) h = []
   /\ result (correctExistingTags machine regionID (Some inst) client) h = None)
  /\ (~ Forall (fun marker => marker ∈ ecs.Instance.Tags inst)
        (requiredMarkers (Machine.Name machine) clusterID) ->
      issued (correctExistingTags machine regionID (Some inst) client) h
      = [ CallTagResources
            (markerRequest regionID clusterID (Machine.Name machine)
               (ecs.Instance.InstanceId inst)) ]
      /\ result (correctExistingTags machine regionID (Some inst) client) h
         = alibabacloudClient.TagResources client h
             (markerRequest regionID clusterID (Machine.Name machine)
                (ecs.Instance.InstanceId inst))).
Proof.
  intros Hid Hcluster Hset.
  pose proof (correctExistingTags_flags (Machine.Name machine) clusterID
                (ecs.Instance.Tags inst) false false false Hset) as Hflags.
  unfold issued, result, correctExistingTags.
  apply strEq_false in Hid. rewrite Hid, Hcluster.
  destruct (fold_left _ (ecs.Instance.Tags inst) _) as [[nameTagOk clusterTagOk] ownedTagOk].
  destruct Hflags as (Hname & Hclustertag & Howned).
  unfold requiredMarkers.
  split.
  - intros Hall.
    apply Forall_cons in Hall as [Hn Hall].
    apply Forall_cons in Hall as [Hc Hall].
    apply Forall_cons in Hall as [Ho _].
    assert (nameTagOk = true) as -> by (apply Hname; right; exact Hn).
    assert (clusterTagOk = true) as -> by (apply Hclustertag; right; exact Hc).
    assert (ownedTagOk = true) as -> by (apply Howned; right; exact Ho).
    split; reflexivity.
  - intros Hnot.
    destruct (negb nameTagOk || negb clusterTagOk || negb ownedTagOk) eqn:Hany.
    + split; reflexivity.
    + exfalso. apply Hnot.
      apply orb_false_iff in Hany as [Hany Ho].
      apply orb_false_iff in Hany as [Hn Hc].
      apply negb_false_iff in Hn, Hc, Ho. subst.
      repeat (apply List.Forall_cons); [| | | apply List.Forall_nil].
      * destruct (proj1 Hname eq_refl) as [? | ?]; [discriminate | assumption].
      * destruct (proj1 Hclustertag eq_refl) as [? | ?]; [discriminate | assumption].
      * destruct (proj1 Howned eq_refl) as [? | ?]; [discriminate | assumption].
Qed.

End TagRepairClaim.

Lemma correctExistingTags_repairs_once_witness :
  (issued (@correctExistingTags sampleExternals sampleMachine "cn-hangzhou"
             (Some instanceFullyTagged) (sampleClient [] [])) [] = []
   /\ issued (@correctExistingTags sampleExternals sampleMachine "cn-hangzhou"
                (Some instanceMissingOwned) (sampleClient [] [])) []
      = [ CallTagResources
            {| ecs.TagResourcesRequest.Scheme := "https";
               ecs.TagResourcesRequest.RegionId := "cn-hangzhou";
               ecs.TagResourcesRequest.Tag :=
                 Some [ ecs.RequestTag.mk "kubernetes.io/cluster/c1" "owned";
                        ecs.RequestTag.mk "Name" "worker-0";
                        ecs.RequestTag.mk "cluster-owned" "true" ];
               ecs.TagResourcesRequest.ResourceId := Some ["i-a"];
               ecs.TagResourcesRequest.ResourceType := "instance" |} ]).
Proof.
  assert (Hset : Forall markerSet (@requiredMarkers sampleExternals "worker-0" "c1")).
  { repeat (apply List.Forall_cons; [split; discriminate |]). apply List.Forall_nil. }
  split.
  - refine (proj1 (proj1 (@correctExistingTags_repairs_once sampleExternals sampleMachine
                            "cn-hangzhou" instanceFullyTagged (sampleClient [] []) [] "c1"
                            _ _ Hset) _)).
    + discriminate.
    + reflexivity.
    + repeat (apply List.Forall_cons; [set_solver |]). apply List.Forall_nil.
  - refine (proj1 (proj2 (@correctExistingTags_repairs_once sampleExternals sampleMachine
                            "cn-hangzhou" instanceMissingOwned (sampleClient [] []) [] "c1"
                            _ _ Hset) _)).
    + discriminate.
    + reflexivity.
    + intros Hall. apply Forall_cons in Hall as [_ Hall].
      apply Forall_cons in Hall as [_ Hall]. apply Forall_cons in Hall as [Ho _].
      unfold instanceMissingOwned in Ho. cbn [ecs.Instance.Tags] in Ho.
      repeat (apply elem_of_cons in Ho as [Ho | Ho]; [discriminate Ho |]).
      inversion Ho.
Defined.

(** ** Laws of the effect combinators *)

Lemma result_bind {A B : Type} (m : Api A) (k : A -> Api B) (h : list Event) :
  result (bind m k) h = result (k (result m h)) (h ++ issued m h).
Proof.
  unfold result, issued, bind. destruct (m h) as [a e1]. cbn [fst snd].
  destruct (k a (h ++ e1)); reflexivity.
Qed.

Lemma issued_bind {A B : Type} (m : Api A) (k : A -> Api B) (h : list Event) :
  issued (bind m k) h = issued m h ++ issued (k (result m h)) (h ++ issued m h).
Proof.
  unfold result, issued, bind. destruct (m h) as [a e1]. cbn [fst snd].
  destruct (k a (h ++ e1)); reflexivity.
Qed.

Lemma result_ret {A : Type} (a : A) (h : list Event) : result (ret a) h = a.
Proof. reflexivity. Qed.

Lemma issued_ret {A : Type} (a : A) (h : list Event) : issued (ret a) h = [].
Proof. reflexivity. Qed.

(** ** Security-group resolution *)

Lemma securityGroupIds_of_groups (ids : list string) :
  fold_left
    (fun securityGroupIDs sg => securityGroupIDs ++ [ecs.SecurityGroup.SecurityGroupId sg])
    (map ecs.SecurityGroup.mk ids) []
  = ids.
Proof.
  rewrite (fold_left_keep_append (fun _ => true) ecs.SecurityGroup.SecurityGroupId).
  rewrite List.filter_true. cbn [app]. rewrite map_map. cbn. apply map_id.
Qed.

Lemma getSecurityGroupIDByTags_matching (machine : ObjectKey.t)
    (machineProviderConfig : AlibabaCloudMachineProviderConfig.t) (tags : list Tag.t)
    (client : alibabacloudClient.Client) (matching : list Tag.t -> list string)
    (h : list Event) :
  answersByTag client machineProviderConfig matching ->
  matching tags <> [] ->
  result (getSecurityGroupIDByTags machine machineProviderConfig tags client) h
  = inl (matching tags).
Proof.
  intros Hanswer Hfound.
  unfold getSecurityGroupIDByTags. rewrite result_bind.
  unfold invoke at 1. unfold result at 2. cbn [fst].
  unfold buildDescribeSecurityGroupsTag.
  fold (securityGroupsByTags machineProviderConfig tags).
  rewrite Hanswer. cbn [ecs.DescribeSecurityGroupsResponse.SecurityGroup].
  assert (Hlen : (length (map ecs.SecurityGroup.mk (matching tags)) <? 1)%nat = false).
  { apply length_lt_1. destruct (matching tags); [congruence | discriminate]. }
  rewrite Hlen, result_ret, securityGroupIds_of_groups. reflexivity.
Qed.

Lemma getSecurityGroupIDs_loop_matching (machine : ObjectKey.t)
    (machineProviderConfig : AlibabaCloudMachineProviderConfig.t)
    (client : alibabacloudClient.Client) (matching : list Tag.t -> list string)
    (entries : list AlibabaResourceReference.t) :
  answersByTag client machineProviderConfig matching ->
  filtersMatch matching entries ->
  forall (securityGroupIDs : list string) (h : list Event),
    result (getSecurityGroupIDs_loop machine machineProviderConfig client entries
              securityGroupIDs) h
    = inl (securityGroupIDs ++ concat (map (entryIDs matching) entries)).
Proof.
  intros Hanswer. induction entries as [|sg entries IH]; intros Hmatch acc h.
  - cbn. rewrite app_nil_r. reflexivity.
  - assert (Hrest : filtersMatch matching entries).
    { intros sg' tags Hin. apply Hmatch. right. exact Hin. }
    cbn [getSecurityGroupIDs_loop map concat]. unfold entryIDs at 1.
    destruct (strEq (AlibabaResourceReference.ID sg) "") eqn:Eid; cbn [negb].
    + apply strEq_true in Eid.
      destruct (AlibabaResourceReference.Tags sg) as [tags|] eqn:Etags.
      * rewrite result_bind.
        rewrite (getSecurityGroupIDByTags_matching machine machineProviderConfig tags
                   client matching h Hanswer).
        { rewrite IH by exact Hrest. rewrite <- app_assoc. reflexivity. }
        apply (Hmatch sg tags); [left | exact Eid | exact Etags].
      * rewrite IH by exact Hrest. reflexivity.
    + rewrite IH by exact Hrest. rewrite <- app_assoc. reflexivity.
Qed.

Lemma getSecurityGroupIDByTags_no_match (machine : ObjectKey.t)
    (machineProviderConfig : AlibabaCloudMachineProviderConfig.t) (tags : list Tag.t)
    (client : alibabacloudClient.Client) (matching : list Tag.t -> list string)
    (h : list Event) :
  answersByTag client machineProviderConfig matching ->
  matching tags = [] ->
  result (getSecurityGroupIDByTags machine machineProviderConfig tags client) h
  = inr (fmt_Errorf "no securitygroup for given tags not found" []).
Proof.
  intros Hanswer Hnone.
  unfold getSecurityGroupIDByTags. rewrite result_bind.
  unfold invoke at 1. unfold result at 2. cbn [fst].
  unfold buildDescribeSecurityGroupsTag.
  fold (securityGroupsByTags machineProviderConfig tags).
  rewrite Hanswer, Hnone. reflexivity.
Qed.

Lemma getSecurityGroupIDs_loop_no_match (machine : ObjectKey.t)
    (machineProviderConfig : AlibabaCloudMachineProviderConfig.t)
    (client : alibabacloudClient.Client) (matching : list Tag.t -> list string)
    (unmatched : AlibabaResourceReference.t) (tags : list Tag.t)
    (entries : list AlibabaResourceReference.t) :
  answersByTag client machineProviderConfig matching ->
  AlibabaResourceReference.ID unmatched = "" ->
  AlibabaResourceReference.Tags unmatched = Some tags ->
  matching tags = [] ->
  unmatched ∈ entries ->
  forall (securityGroupIDs : list string) (h : list Event),
    result (getSecurityGroupIDs_loop machine machineProviderConfig client entries
              securityGroupIDs) h
    = inr (fmt_Errorf "no securitygroup for given tags not found" []).
Proof.
  intros Hanswer Hid Htags Hnone.
  induction entries as [|sg entries IH]; intros Hin acc h; [inversion Hin |].
  cbn [getSecurityGroupIDs_loop].
  destruct (strEq (AlibabaResourceReference.ID sg) "") eqn:Esg;
    [apply strEq_true in Esg | apply strEq_false in Esg]; cbn [negb].
  - destruct (AlibabaResourceReference.Tags sg) as [tags0|] eqn:Etags0.
    + rewrite result_bind.
      destruct (matching tags0) as [|id ids] eqn:Ematch.
      * rewrite (getSecurityGroupIDByTags_no_match machine machineProviderConfig tags0
                   client matching h Hanswer Ematch).
        reflexivity.
      * rewrite (getSecurityGroupIDByTags_matching machine machineProviderConfig tags0
                   client matching h Hanswer) by (rewrite Ematch; discriminate).
        apply IH. apply elem_of_cons in Hin as [-> | Hin]; [| exact Hin].
        rewrite Htags in Etags0. injection Etags0 as <-. congruence.
    + apply IH. apply elem_of_cons in Hin as [-> | Hin]; [congruence | exact Hin].
  - apply IH. apply elem_of_cons in Hin as [-> | Hin]; [congruence | exact Hin].
Qed.

Lemma getSecurityGroupIDByTags_issued_matching (machine : ObjectKey.t)
    (machineProviderConfig : AlibabaCloudMachineProviderConfig.t) (tags : list Tag.t)
    (client : alibabacloudClient.Client) (matching : list Tag.t -> list string)
    (h : list Event) :
  answersByTag client machineProviderConfig matching ->
  matching tags <> [] ->
  issued (getSecurityGroupIDByTags machine machineProviderConfig tags client) h
  = [CallDescribeSecurityGroups (securityGroupsByTags machineProviderConfig tags)].
Proof.
  intros Hanswer Hfound.
  unfold issued, getSecurityGroupIDByTags, bind, invoke, ret.
  unfold buildDescribeSecurityGroupsTag.
  fold (securityGroupsByTags machineProviderConfig tags).
  rewrite Hanswer. cbn [ecs.DescribeSecurityGroupsResponse.SecurityGroup].
  assert (Hlen : (length (map ecs.SecurityGroup.mk (matching tags)) <? 1)%nat = false).
  { apply length_lt_1. destruct (matching tags); [congruence | discriminate]. }
  rewrite Hlen. reflexivity.
Qed.

Lemma getSecurityGroupIDs_loop_issued_matching (machine : ObjectKey.t)
    (machineProviderConfig : AlibabaCloudMachineProviderConfig.t)
    (client : alibabacloudClient.Client) (matching : list Tag.t -> list string)
    (entries : list AlibabaResourceReference.t) :
  answersByTag client machineProviderConfig matching ->
  filtersMatch matching entries ->
  forall (securityGroupIDs : list string) (h : list Event),
    issued (getSecurityGroupIDs_loop machine machineProviderConfig client entries
              securityGroupIDs) h
    = map (fun tags =>
             CallDescribeSecurityGroups (securityGroupsByTags machineProviderConfig tags))
        (consultedFilters entries).
Proof.
  intros Hanswer. induction entries as [|sg entries IH]; intros Hmatch acc h.
  - reflexivity.
  - assert (Hrest : filtersMatch matching entries).
    { intros sg' tags Hin. apply Hmatch. right. exact Hin. }
    cbn [getSecurityGroupIDs_loop consultedFilters flat_map].
    destruct (strEq (AlibabaResourceReference.ID sg) "") eqn:Eid; cbn [negb].
    + apply strEq_true in Eid.
      destruct (AlibabaResourceReference.Tags sg) as [tags|] eqn:Etags.
      * assert (Hfound : matching tags <> [])
          by (apply (Hmatch sg tags); [left | exact Eid | exact Etags]).
        rewrite issued_bind.
        rewrite (getSecurityGroupIDByTags_issued_matching machine machineProviderConfig
                   tags client matching h Hanswer Hfound).
        rewrite (getSecurityGroupIDByTags_matching machine machineProviderConfig tags
                   client matching h Hanswer Hfound).
        rewrite IH by exact Hrest. reflexivity.
      * rewrite IH by exact Hrest. reflexivity.
    + rewrite IH by exact Hrest. reflexivity.
Qed.

(** C8, as the code has it: [getSecurityGroupIDs] fails when no security
    group is configured, and never succeeds with an empty list.  For a
    provider that answers the describe call carrying the keys and values
    of a tag filter with the groups matching that filter: when every
    filter consulted matches a group, the calls made are the describe
    calls for the consulted filters, in the order of the configuration,
    and the result is the concatenation, in that order, of what each
    entry stands for (its literal ID if it has one, otherwise the IDs
    matching its filter); when a consulted filter matches no group, the
    whole call fails. *)
Theorem getSecurityGroupIDs_concatenates_in_order
    (machine : ObjectKey.t) (machineProviderConfig : AlibabaCloudMachineProviderConfig.t)
    (client : alibabacloudClient.Client) (h : list Event) :
  let entries := AlibabaCloudMachineProviderConfig.SecurityGroups machineProviderConfig in
  (entries = [] ->
   result (getSecurityGroupIDs machine machineProviderConfig client) h
   = inr (errors_New "no security configuration provided"))
  /\ (forall ids : list string,
        result (getSecurityGroupIDs machine machineProviderConfig client) h = inl ids ->
        ids <> [])
  /\ (forall matching : list Tag.t -> list string,
        answersQuery client machineProviderConfig matching ->
        entries <> [] ->
        (filtersMatch matching entries ->
         result (getSecurityGroupIDs machine machineProviderConfig client) h
         = match concat (map (entryIDs matching) entries) with
           | [] => inr (errors_New "no securitygroup IDs found from configuration")
           | ids => inl ids
           end
         /\ issued (getSecurityGroupIDs machine machineProviderConfig client) h
            = map (fun tags =>
                     CallDescribeSecurityGroups
                       (securityGroupsQuery machineProviderConfig tags))
                (consultedFilters entries))
        /\ (forall (unmatched : AlibabaResourceReference.t) (tags : list Tag.t),
              unmatched ∈ entries ->
              AlibabaResourceReference.ID unmatched = "" ->
              AlibabaResourceReference.Tags unmatched = Some tags ->
              matching tags = [] ->
              result (getSecurityGroupIDs machine machineProviderConfig client) h
              = inr (fmt_Errorf "no securitygroup for given tags not found" []))).
Proof.
  intros entries. unfold getSecurityGroupIDs. fold entries. split; [| split].
  - intros ->. reflexivity.
  - intros ids.
    destruct (length entries =? 0)%nat; [discriminate |].
    rewrite result_bind.
    destruct (result (getSecurityGroupIDs_loop _ _ _ _ _) h) as [found|err];
      [| discriminate].
    destruct found as [|id found]; [discriminate |].
    cbn. intros [= <-]. discriminate.
  - intros matching Hquery Hne.
    assert (Hanswer : answersByTag client machineProviderConfig matching)
      by exact Hquery.
    destruct entries as [|sg rest] eqn:Eentries; [congruence |].
    cbn [length Nat.eqb]. split.
    + intros Hmatch. rewrite result_bind, issued_bind.
      rewrite (getSecurityGroupIDs_loop_matching machine machineProviderConfig client
                 matching (sg :: rest) Hanswer Hmatch).
      rewrite (getSecurityGroupIDs_loop_issued_matching machine machineProviderConfig
                 client matching (sg :: rest) Hanswer Hmatch).
      cbn [app].
      destruct (concat (map (entryIDs matching) (sg :: rest)));
        cbn [length Nat.eqb]; rewrite issued_ret, app_nil_r; split; reflexivity.
    + intros unmatched tags Hin Hid Htags Hnone. rewrite result_bind.
      rewrite (getSecurityGroupIDs_loop_no_match machine machineProviderConfig client
                 matching unmatched tags (sg :: rest) Hanswer Hid Htags Hnone Hin).
      reflexivity.
Qed.

Lemma getSecurityGroupIDs_concatenates_in_order_witness :
  result
    (getSecurityGroupIDs sampleKey sampleConfigTwoGroups
       (sampleClient [] ["sg-tag-1"; "sg-tag-2"])) []
  = inl ["sg-literal"; "sg-tag-1"; "sg-tag-2"]
  /\ issued
       (getSecurityGroupIDs sampleKey sampleConfigTwoGroups
          (sampleClient [] ["sg-tag-1"; "sg-tag-2"])) []
     = [ CallDescribeSecurityGroups
           {| ecs.DescribeSecurityGroupsRequest.Scheme := "https";
              ecs.DescribeSecurityGroupsRequest.RegionId := "cn-hangzhou";
              ecs.DescribeSecurityGroupsRequest.VpcId := "vpc-1";
              ecs.DescribeSecurityGroupsRequest.ResourceGroupId := "";
              ecs.DescribeSecurityGroupsRequest.Tag :=
                Some [ecs.RequestTag.mk "role" "worker"] |} ].
Proof.
  refine (proj1 (proj2 (proj2 (getSecurityGroupIDs_concatenates_in_order sampleKey
                                 sampleConfigTwoGroups
                                 (sampleClient [] ["sg-tag-1"; "sg-tag-2"]) []))
                   (fun _ => ["sg-tag-1"; "sg-tag-2"]) _ _) _).
  - intros h tags. reflexivity.
  - discriminate.
  - intros sg tags _ _ _. discriminate.
Defined.

(** C8 as stated fails: the configuration has a literal ID and a tag
    filter that matches no group.  Entry by entry the IDs would be the
    literal one alone; the code fails the whole call. *)
Lemma getSecurityGroupIDs_unmatched_counterexample :
  concat (map (entryIDs (fun _ => []))
            (AlibabaCloudMachineProviderConfig.SecurityGroups sampleConfigTwoGroups))
  = ["sg-literal"]
  /\ result (getSecurityGroupIDs sampleKey sampleConfigTwoGroups (sampleClient [] [])) []
     = inr (fmt_Errorf "no securitygroup for given tags not found" [])
  /\ result (getSecurityGroupIDs sampleKey sampleConfigTwoGroups (sampleClient [] [])) []
     <> inl ["sg-literal"].
Proof. split; [reflexivity |]. split; [reflexivity | discriminate]. Qed.

(** ** The create-instance request *)

(** The resolution of image, security groups and vswitch makes no
    create-instance call. *)
Lemma getImageID_notRunInstances (machine : ObjectKey.t)
    (machineProviderConfig : AlibabaCloudMachineProviderConfig.t)
    (client : alibabacloudClient.Client) (h : list Event) :
  Forall notRunInstances (issued (getImageID machine machineProviderConfig client) h).
Proof.
  unfold issued, getImageID, bind, invoke, ret, metricsFailedCreate, emit.
  destruct (alibabacloudClient.DescribeImages client h _) as [response|err]; cbn.
  - destruct (ecs.DescribeImagesResponse.Image response) as [|image images]; cbn.
    + repeat constructor.
    + destruct (negb _); cbn; repeat constructor.
  - repeat constructor.
Qed.

Lemma getSecurityGroupIDByTags_notRunInstances (machine : ObjectKey.t)
    (machineProviderConfig : AlibabaCloudMachineProviderConfig.t) (tags : list Tag.t)
    (client : alibabacloudClient.Client) (h : list Event) :
  Forall notRunInstances
    (issued (getSecurityGroupIDByTags machine machineProviderConfig tags client) h).
Proof.
  unfold issued, getSecurityGroupIDByTags, bind, invoke, ret, metricsFailedCreate, emit.
  destruct (alibabacloudClient.DescribeSecurityGroups client h _) as [response|err]; cbn.
  - destruct (ecs.DescribeSecurityGroupsResponse.SecurityGroup response);
      cbn; repeat constructor.
  - repeat constructor.
Qed.

Lemma getSecurityGroupIDs_loop_notRunInstances (machine : ObjectKey.t)
    (machineProviderConfig : AlibabaCloudMachineProviderConfig.t)
    (client : alibabacloudClient.Client) (entries : list AlibabaResourceReference.t) :
  forall (securityGroupIDs : list string) (h : list Event),
    Forall notRunInstances
      (issued (getSecurityGroupIDs_loop machine machineProviderConfig client entries
                 securityGroupIDs) h).
Proof.
  induction entries as [|sg entries IH]; intros acc h; cbn [getSecurityGroupIDs_loop].
  - constructor.
  - destruct (negb _); [apply IH |].
    destruct (AlibabaResourceReference.Tags sg) as [tags|]; [| apply IH].
    rewrite issued_bind. apply Forall_app. split.
    + apply getSecurityGroupIDByTags_notRunInstances.
    + destruct (result _ h) as [ids|err]; [apply IH | constructor].
Qed.

Lemma getSecurityGroupIDs_notRunInstances (machine : ObjectKey.t)
    (machineProviderConfig : AlibabaCloudMachineProviderConfig.t)
    (client : alibabacloudClient.Client) (h : list Event) :
  Forall notRunInstances
    (issued (getSecurityGroupIDs machine machineProviderConfig client) h).
Proof.
  unfold getSecurityGroupIDs.
  destruct (_ =? 0)%nat; [constructor |].
  rewrite issued_bind. apply Forall_app. split.
  - apply getSecurityGroupIDs_loop_notRunInstances.
  - destruct (result _ h) as [ids|err]; [| constructor].
    destruct (length ids =? 0)%nat; constructor.
Qed.

Lemma getVSwitchID_notRunInstances (machine : ObjectKey.t)
    (machineProviderConfig : AlibabaCloudMachineProviderConfig.t)
    (client : alibabacloudClient.Client) (h : list Event) :
  Forall notRunInstances (issued (getVSwitchID machine machineProviderConfig client) h).
Proof.
  unfold getVSwitchID.
  destruct (_ && _); [constructor |].
  destruct (negb _); [constructor |].
  destruct (AlibabaResourceReference.Tags _); [| constructor].
  unfold issued, getVSwitchIDFromTags, bind, invoke, ret, metricsFailedCreate, emit.
  destruct (alibabacloudClient.DescribeVSwitches client h _) as [response|err]; cbn.
  - destruct (vpc.DescribeVSwitchesResponse.VSwitch response); cbn; repeat constructor.
  - repeat constructor.
Qed.

(** Where the first create-instance call of a log is. *)
Lemma first_runInstances_unique (pre1 pre2 post1 post2 : list Event)
    (request1 request2 : ecs.RunInstancesRequest.t) :
  Forall notRunInstances pre1 -> Forall notRunInstances pre2 ->
  pre1 ++ CallRunInstances request1 :: post1 = pre2 ++ CallRunInstances request2 :: post2 ->
  request1 = request2.
Proof.
  revert pre2. induction pre1 as [|e pre1 IH]; intros pre2 H1 H2 Heq.
  - destruct pre2 as [|e2 pre2]; cbn in Heq.
    + congruence.
    + injection Heq as <- _. apply Forall_cons in H2 as [Hbad _]. destruct Hbad.
  - destruct pre2 as [|e2 pre2]; cbn in Heq.
    + injection Heq as -> _. apply Forall_cons in H1 as [Hbad _]. destruct Hbad.
    + injection Heq as _ Heq.
      apply Forall_cons in H1 as [_ H1]. apply Forall_cons in H2 as [_ H2].
      exact (IH pre2 H1 H2 Heq).
Qed.

Section RunInstancesFacts.
Context `{Externals}.
Import AlibabaCloudMachineProviderConfig.

Lemma runInstancesRequestOf_error (machine : Machine.t)
    (machineProviderConfig : AlibabaCloudMachineProviderConfig.t) (userData : string)
    (imageID : string) (securityGroupIDs : list string) (vSwitchID clusterID : string)
    (err : error) :
  runInstancesRequestOf machine machineProviderConfig userData imageID
    securityGroupIDs vSwitchID clusterID = inr err ->
  tenancyOf (Tenancy machineProviderConfig) = inr err.
Proof.
  unfold runInstancesRequestOf.
  destruct (tenancyOf (Tenancy machineProviderConfig)); [discriminate | congruence].
Qed.

(** What a call of [runInstances] comes to.  Either it makes no
    create-instance call and fails, with the error of the tenancy
    switch or with an invalid-configuration error of the resolution;
    or the first create-instance call it makes carries the request
    assembled from the configuration and the resolved resources. *)
Lemma runInstances_outcome (machine : Machine.t)
    (machineProviderConfig : AlibabaCloudMachineProviderConfig.t) (userData : string)
    (client : alibabacloudClient.Client) (h : list Event) :
  (Forall notRunInstances
     (issued (runInstances machine machineProviderConfig userData client) h)
   /\ exists err,
        result (runInstances machine machineProviderConfig userData client) h = inr err
        /\ (tenancyOf (Tenancy machineProviderConfig) = inr err
            \/ exists format args,
                 err = mapierrors.InvalidMachineConfiguration format args
                 /\ format <> tenancyFormat))
  \/ (exists pre imageID securityGroupIDs vSwitchID clusterID request post,
        issued (runInstances machine machineProviderConfig userData client) h
        = pre ++ CallRunInstances request :: post
        /\ Forall notRunInstances pre
        /\ runInstancesRequestOf machine machineProviderConfig userData imageID
             securityGroupIDs vSwitchID clusterID = inl request).
Proof.
  unfold runInstances.
  set (machineKey := ObjectKey.mk (Machine.Name machine) (Machine.Namespace machine)).
  rewrite issued_bind, result_bind.
  pose proof (getImageID_notRunInstances machineKey machineProviderConfig client h) as H1.
  set (e1 := issued (getImageID machineKey machineProviderConfig client) h) in *.
  destruct (result (getImageID machineKey machineProviderConfig client) h)
    as [imageID|err].
  2:{ left. rewrite issued_ret, result_ret, app_nil_r. split; [exact H1 |].
      eexists. split; [reflexivity |]. right. eexists _, _.
      split; [reflexivity | discriminate]. }
  rewrite issued_bind, result_bind.
  pose proof (getSecurityGroupIDs_notRunInstances machineKey machineProviderConfig
                client (h ++ e1)) as H2.
  set (e2 := issued (getSecurityGroupIDs machineKey machineProviderConfig client)
               (h ++ e1)) in *.
  destruct (result (getSecurityGroupIDs machineKey machineProviderConfig client)
              (h ++ e1)) as [securityGroupIDs|err].
  2:{ left. rewrite issued_ret, result_ret, app_nil_r.
      split; [apply Forall_app; split; assumption |].
      eexists. split; [reflexivity |]. right. eexists _, _.
      split; [reflexivity | discriminate]. }
  rewrite issued_bind, result_bind.
  pose proof (getVSwitchID_notRunInstances machineKey machineProviderConfig
                client ((h ++ e1) ++ e2)) as H3.
  set (e3 := issued (getVSwitchID machineKey machineProviderConfig client)
               ((h ++ e1) ++ e2)) in *.
  destruct (result (getVSwitchID machineKey machineProviderConfig client)
              ((h ++ e1) ++ e2)) as [vSwitchID|err].
  2:{ left. rewrite issued_ret, result_ret, app_nil_r.
      split; [repeat (apply Forall_app; split); assumption |].
      eexists. split; [reflexivity |]. right. eexists _, _.
      split; [reflexivity | discriminate]. }
  assert (Hpre : Forall notRunInstances (e1 ++ e2 ++ e3))
    by (repeat (apply Forall_app; split); assumption).
  destruct (getClusterID machine) as [clusterID|].
  2:{ left. rewrite issued_ret, result_ret, app_nil_r.
      split; [exact Hpre |].
      eexists. split; [reflexivity |]. right. eexists _, _.
      split; [reflexivity | discriminate]. }
  destruct (runInstancesRequestOf machine machineProviderConfig userData imageID
              securityGroupIDs vSwitchID clusterID) as [request|err] eqn:Erequest.
  2:{ left. rewrite issued_ret, result_ret, app_nil_r.
      split; [exact Hpre |].
      eexists. split; [reflexivity |]. left.
      exact (runInstancesRequestOf_error _ _ _ _ _ _ _ _ Erequest). }
  right. rewrite issued_bind.
  exists (e1 ++ e2 ++ e3), imageID, securityGroupIDs, vSwitchID, clusterID, request.
  eexists. split; [| split; [exact Hpre | exact Erequest]].
  unfold invoke at 1. unfold issued at 1. cbn [snd].
  rewrite <- !app_assoc. reflexivity.
Qed.

End RunInstancesFacts.

Lemma FormatInt10_nonempty (v : Z) : FormatInt10 v <> "".
Proof.
  unfold FormatInt10, NilZero.string_of_int.
  destruct (Z.to_int v) as [d|d]; [destruct d|]; discriminate.
Qed.

Section RunInstancesClaims.
Context `{Externals}.
Import AlibabaCloudMachineProviderConfig.

(** C2, as the code has it: in the request of the create-instance
    call, the outbound bandwidth is left unset when the configured
    value is zero (or below) and the inbound bandwidth when it is
    zero; otherwise they hold the decimal rendering of the value.  The
    size of the system disk is always set, to the decimal rendering of
    the configured size, which for zero is the text 0. *)
Theorem runInstances_numeric_fields
    (machine : Machine.t) (machineProviderConfig : AlibabaCloudMachineProviderConfig.t)
    (userData : string) (client : alibabacloudClient.Client) (h : list Event)
    (pre post : list Event) (request : ecs.RunInstancesRequest.t) :
  issued (runInstances machine machineProviderConfig userData client) h
  = pre ++ CallRunInstances request :: post ->
  Forall notRunInstances pre ->
  let bandwidth := Bandwidth machineProviderConfig in
  let size := SystemDiskProperties.Size (SystemDisk machineProviderConfig) in
  (BandwidthProperties.InternetMaxBandwidthOut bandwidth <= 0 ->
     ecs.RunInstancesRequest.InternetMaxBandwidthOut request = "")
  /\ (0 < BandwidthProperties.InternetMaxBandwidthOut bandwidth ->
        ecs.RunInstancesRequest.InternetMaxBandwidthOut request
        = FormatInt10 (BandwidthProperties.InternetMaxBandwidthOut bandwidth))
  /\ (BandwidthProperties.InternetMaxBandwidthIn bandwidth = 0 ->
        ecs.RunInstancesRequest.InternetMaxBandwidthIn request = "")
  /\ (BandwidthProperties.InternetMaxBandwidthIn bandwidth <> 0 ->
        ecs.RunInstancesRequest.InternetMaxBandwidthIn request
        = FormatInt10 (BandwidthProperties.InternetMaxBandwidthIn bandwidth))
  /\ ecs.RunInstancesRequest.SystemDiskSize request = FormatInt10 size
  /\ ecs.RunInstancesRequest.SystemDiskSize request <> ""
  /\ (size = 0 -> ecs.RunInstancesRequest.SystemDiskSize request = "0").
Proof.
  intros Hlog Hpre bandwidth size.
  destruct (runInstances_outcome machine machineProviderConfig userData client h)
    as [[Hnone _] | (pre' & imageID & sgs & vsw & cid & request' & post' & Hlog' & Hpre' & Hreq)].
  { rewrite Hlog in Hnone. apply Forall_app in Hnone as [_ Hnone].
    apply Forall_cons in Hnone as [Hbad _]. destruct Hbad. }
  rewrite Hlog in Hlog'.
  pose proof (first_runInstances_unique _ _ _ _ _ _ Hpre Hpre' Hlog') as ->.
  unfold runInstancesRequestOf in Hreq.
  destruct (tenancyOf (Tenancy machineProviderConfig)); [| discriminate].
  injection Hreq as <-. cbn.
  fold bandwidth. fold size. unfold NewInteger64.
  repeat split.
  - intros Hle. destruct (Z.gtb_spec (BandwidthProperties.InternetMaxBandwidthOut bandwidth) 0);
      [lia | reflexivity].
  - intros Hlt. destruct (Z.gtb_spec (BandwidthProperties.InternetMaxBandwidthOut bandwidth) 0);
      [reflexivity | lia].
  - intros ->. reflexivity.
  - intros Hne. destruct (Z.eqb_spec (BandwidthProperties.InternetMaxBandwidthIn bandwidth) 0);
      [contradiction | reflexivity].
  - apply FormatInt10_nonempty.
  - intros ->. reflexivity.
Qed.


End RunInstancesClaims.

Lemma runInstances_numeric_fields_witness :
  exists pre request post,
    issued
      (@runInstances sampleExternals sampleMachine (sampleConfig "" 40 0 0) ""
         (sampleClient [sampleInstance "i-new" "Running" ""] [])) []
    = pre ++ CallRunInstances request :: post
    /\ ecs.RunInstancesRequest.InternetMaxBandwidthOut request = ""
    /\ ecs.RunInstancesRequest.InternetMaxBandwidthIn request = ""
    /\ ecs.RunInstancesRequest.SystemDiskSize request = "40".
Proof.
  eexists [_], _, [_; _].
  match goal with
  | |- ?P /\ _ => assert (Hlog : P) by (vm_compute; reflexivity)
  end.
  split; [exact Hlog |].
  destruct (@runInstances_numeric_fields sampleExternals _ _ _ _ _ _ _ _ Hlog)
    as (Hout & _ & Hin & _ & Hsize & _).
  { repeat constructor. }
  split; [apply Hout; vm_compute; discriminate |].
  split; [apply Hin; reflexivity |].
  exact Hsize.
Defined.

(** C2 as stated fails for the system disk: with a configured size of
    zero the request carries the size as the text 0; the field is set,
    not omitted. *)
Lemma runInstances_zero_disk_size_counterexample :
  SystemDiskProperties.Size
    (AlibabaCloudMachineProviderConfig.SystemDisk (sampleConfig "" 0 0 0)) = 0
  /\ exists pre request post,
       issued
         (@runInstances sampleExternals sampleMachine (sampleConfig "" 0 0 0) ""
            (sampleClient [sampleInstance "i-new" "Running" ""] [])) []
       = pre ++ CallRunInstances request :: post
       /\ Forall notRunInstances pre
       /\ ecs.RunInstancesRequest.SystemDiskSize request = "0"
       /\ ecs.RunInstancesRequest.SystemDiskSize request <> "".
Proof.
  split; [reflexivity |].
  eexists [_], _, [_; _].
  split; [vm_compute; reflexivity |].
  split; [repeat constructor |].
  split; [reflexivity | discriminate].
Qed.



(** * Further properties of the code *)

(** ** Tags *)

Lemma freshFor_app (l1 l2 : list Tag.t) (tag : Tag.t) :
  freshFor (l1 ++ l2) tag = freshFor l1 tag && freshFor l2 tag.
Proof. unfold freshFor. apply forallb_app. Qed.

Lemma freshFor_keys (earlier : list Tag.t) (tag : Tag.t) :
  freshFor earlier tag = true <-> Tag.Key tag ∉ map Tag.Key earlier.
Proof. apply forallb_key_fresh. Qed.

(** First occurrences of a concatenation: those of the first part, then
    those of the second part whose key is fresh for the first. *)
Lemma firstOccurrences_app (l1 l2 : list Tag.t) :
  firstOccurrences (l1 ++ l2)
  = firstOccurrences l1 ++ List.filter (freshFor l1) (firstOccurrences l2).
Proof.
  induction l2 as [|x l2 IH] using rev_ind.
  - cbn. rewrite !app_nil_r. reflexivity.
  - rewrite app_assoc, !firstOccurrences_snoc, IH.
    fold (freshFor (l1 ++ l2) x). fold (freshFor l2 x).
    rewrite freshFor_app, List.filter_app, <- app_assoc. f_equal. f_equal.
    destruct (freshFor l2 x); cbn [List.filter].
    + rewrite andb_true_r. destruct (freshFor l1 x); reflexivity.
    + rewrite andb_false_r. reflexivity.
Qed.

Lemma firstOccurrences_NoDup_keys_id (tags : list Tag.t) :
  NoDup (map Tag.Key tags) -> firstOccurrences tags = tags.
Proof.
  induction tags as [|x pre IH] using rev_ind; intros Hnd; [reflexivity |].
  rewrite map_app in Hnd. apply NoDup_app in Hnd as (Hpre & Hfresh & _).
  rewrite firstOccurrences_snoc, (IH Hpre).
  assert (Hx : freshFor pre x = true).
  { apply freshFor_keys. intros Hin. apply (Hfresh _ Hin). cbn. left. }
  unfold freshFor in Hx. rewrite Hx. reflexivity.
Qed.

Lemma NoDup_keys_same (tags : list Tag.t) (a b : Tag.t) :
  NoDup (map Tag.Key tags) -> a ∈ tags -> b ∈ tags -> Tag.Key a = Tag.Key b -> a = b.
Proof.
  induction tags as [|x tags IH]; intros Hnd Ha Hb Hkey; [inversion Ha |].
  cbn [map] in Hnd. apply NoDup_cons in Hnd as [Hx Hnd].
  apply elem_of_cons in Ha as [-> | Ha]; apply elem_of_cons in Hb as [-> | Hb].
  - reflexivity.
  - exfalso. apply Hx. rewrite Hkey. apply list_elem_of_fmap. exists b. auto.
  - exfalso. apply Hx. rewrite <- Hkey. apply list_elem_of_fmap. exists a. auto.
  - exact (IH Hnd Ha Hb Hkey).
Qed.

(** X1: de-duplicating twice changes nothing more, and a list whose keys
    are all different is left as it is. *)
Theorem removeDuplicatedTags_idempotent (tags : list Tag.t) :
  removeDuplicatedTags (removeDuplicatedTags tags) = removeDuplicatedTags tags
  /\ (NoDup (map Tag.Key tags) -> removeDuplicatedTags tags = tags)
  /\ (length (removeDuplicatedTags tags) <= length tags)%nat.
Proof.
  rewrite !removeDuplicatedTags_firstOccurrences. split; [| split].
  - apply firstOccurrences_NoDup_keys_id, firstOccurrences_NoDup.
  - apply firstOccurrences_NoDup_keys_id.
  - apply sublist_length, firstOccurrences_sublist.
Qed.

Lemma HasPrefix_app (prefix rest : string) : HasPrefix (prefix +:+ rest) prefix = true.
Proof.
  unfold HasPrefix. induction prefix as [|c prefix IH]; cbn.
  - destruct rest; reflexivity.
  - change (String c prefix +:+ rest) with (String c (prefix +:+ rest)).
    cbn [String.prefix].
    destruct (ascii_dec c c) as [_ | Hne]; [exact IH | congruence].
Qed.

Section GeneratedTags.
Context `{Externals}.

Lemma kept_fresh_for_reserved (machineTags : list Tag.t) (tag : Tag.t) :
  reservedKey (Tag.Key tag) ->
  freshFor (List.filter keepsMachineTag machineTags) tag = true.
Proof.
  intros Hres. apply freshFor_keys. intros Hin.
  apply list_elem_of_fmap in Hin as (u & Hkey & Hu).
  apply list_elem_of_In, List.filter_In in Hu as [_ Hkeep].
  apply keepsMachineTag_not_reserved in Hkeep. rewrite <- Hkey in Hkeep. contradiction.
Qed.

Lemma buildTagList_split (machineName clusterID : string) (machineTags : list Tag.t) :
  buildTagList machineName clusterID machineTags
  = firstOccurrences (List.filter keepsMachineTag machineTags)
    ++ List.filter (freshFor (List.filter keepsMachineTag machineTags))
         (firstOccurrences (generatedTags machineName clusterID)).
Proof.
  rewrite buildTagList_unfold, removeDuplicatedTags_firstOccurrences.
  apply firstOccurrences_app.
Qed.

Lemma buildTagList_NoDup (machineName clusterID : string) (machineTags : list Tag.t) :
  NoDup (map Tag.Key (buildTagList machineName clusterID machineTags)).
Proof.
  rewrite buildTagList_unfold, removeDuplicatedTags_firstOccurrences.
  apply firstOccurrences_NoDup.
Qed.

(** X2: whatever tags the machine carries, the generated list holds the
    cluster marker for the cluster ID with the owned value, and no other
    tag with that key. *)
Theorem buildTagList_has_cluster_marker
    (machineName clusterID : string) (machineTags : list Tag.t) :
  Tag.mk (clusterFilterKeyPrefix +:+ clusterID) clusterFilterValue
    ∈ buildTagList machineName clusterID machineTags
  /\ (forall tag : Tag.t,
        tag ∈ buildTagList machineName clusterID machineTags ->
        Tag.Key tag = clusterFilterKeyPrefix +:+ clusterID ->
        tag = Tag.mk (clusterFilterKeyPrefix +:+ clusterID) clusterFilterValue).
Proof.
  assert (Hin : Tag.mk (clusterFilterKeyPrefix +:+ clusterID) clusterFilterValue
                  ∈ buildTagList machineName clusterID machineTags).
  { rewrite buildTagList_split. apply elem_of_app. right.
    apply list_elem_of_In, List.filter_In. split.
    - apply list_elem_of_In. unfold generatedTags.
      change (?x :: ?l) with ([x] ++ l).
      rewrite firstOccurrences_app. apply elem_of_app. left. cbn. left.
    - apply kept_fresh_for_reserved. left. apply HasPrefix_app. }
  split; [exact Hin |].
  intros tag Htag Hkey.
  exact (NoDup_keys_same _ _ _ (buildTagList_NoDup _ _ _) Htag Hin Hkey).
Qed.

(** X3: unless the cluster key for this cluster ID is itself the name
    key, the generated list holds the name marker with the name of the
    machine, and no other tag with the name key. *)
Theorem buildTagList_has_name_marker
    (machineName clusterID : string) (machineTags : list Tag.t) :
  clusterFilterKeyPrefix +:+ clusterID <> clusterFilterName ->
  Tag.mk clusterFilterName machineName ∈ buildTagList machineName clusterID machineTags
  /\ (forall tag : Tag.t,
        tag ∈ buildTagList machineName clusterID machineTags ->
        Tag.Key tag = clusterFilterName ->
        Tag.Value tag = machineName).
Proof.
  intros Hne.
  assert (Hin : Tag.mk clusterFilterName machineName
                  ∈ buildTagList machineName clusterID machineTags).
  { rewrite buildTagList_split. apply elem_of_app. right.
    apply list_elem_of_In, List.filter_In. split.
    - apply list_elem_of_In. unfold generatedTags.
      change (?x :: ?y :: ?l) with ([x] ++ [y] ++ l).
      rewrite firstOccurrences_app. apply elem_of_app. right.
      apply list_elem_of_In, List.filter_In. split.
      + apply list_elem_of_In. rewrite firstOccurrences_app.
        apply elem_of_app. left. cbn. left.
      + cbn. apply strEq_false in Hne. rewrite Hne. reflexivity.
    - apply kept_fresh_for_reserved. right. reflexivity. }
  split; [exact Hin |].
  intros tag Htag Hkey.
  rewrite (NoDup_keys_same _ _ _ (buildTagList_NoDup _ _ _) Htag Hin Hkey). reflexivity.
Qed.

(** X4: a machine tag outside the reserved namespace takes precedence
    over a generated tag with the same key: the tag of the generated
    list with that key is a machine tag. *)
Theorem buildTagList_machine_tag_wins
    (machineName clusterID : string) (machineTags : list Tag.t) (tag : Tag.t) :
  tag ∈ machineTags ->
  ~ reservedKey (Tag.Key tag) ->
  (exists kept : Tag.t,
     kept ∈ buildTagList machineName clusterID machineTags
     /\ Tag.Key kept = Tag.Key tag)
  /\ (forall other : Tag.t,
        other ∈ buildTagList machineName clusterID machineTags ->
        Tag.Key other = Tag.Key tag ->
        other ∈ machineTags).
Proof.
  intros Htag Hfree.
  assert (Hkept : tag ∈ List.filter keepsMachineTag machineTags).
  { apply list_elem_of_In, List.filter_In. split; [apply list_elem_of_In; exact Htag |].
    apply keepsMachineTag_not_reserved. exact Hfree. }
  assert (Hkey : Tag.Key tag ∈ map Tag.Key
                   (firstOccurrences (List.filter keepsMachineTag machineTags))).
  { apply firstOccurrences_keys. apply list_elem_of_fmap. exists tag. auto. }
  apply list_elem_of_fmap in Hkey as (kept & Hk & Hin).
  assert (Hres : kept ∈ buildTagList machineName clusterID machineTags).
  { rewrite buildTagList_split. apply elem_of_app. left. exact Hin. }
  split; [exists kept; auto |].
  intros other Hother Hsame.
  assert (other = kept) as ->.
  { apply (NoDup_keys_same _ _ _ (buildTagList_NoDup _ _ _) Hother Hres). congruence. }
  apply firstOccurrences_elem_of in Hin.
  apply list_elem_of_In, List.filter_In in Hin as [Hin _].
  apply list_elem_of_In. exact Hin.
Qed.

End GeneratedTags.

Lemma buildTagList_has_name_marker_witness :
  Tag.mk "Name" "worker-0"
    ∈ @buildTagList sampleExternals "worker-0" "c1"
        [Tag.mk "Name" "intruder"; Tag.mk "team" "storage"]
  /\ (forall tag : Tag.t,
        tag ∈ @buildTagList sampleExternals "worker-0" "c1"
                [Tag.mk "Name" "intruder"; Tag.mk "team" "storage"] ->
        Tag.Key tag = "Name" -> Tag.Value tag = "worker-0").
Proof.
  apply (@buildTagList_has_name_marker sampleExternals "worker-0" "c1"
           [Tag.mk "Name" "intruder"; Tag.mk "team" "storage"]).
  discriminate.
Defined.

Lemma buildTagList_machine_tag_wins_witness :
  (exists kept : Tag.t,
     kept ∈ @buildTagList sampleExternals "worker-0" "c1" [Tag.mk "cluster-owned" "mine"]
     /\ Tag.Key kept = "cluster-owned")
  /\ (forall other : Tag.t,
        other ∈ @buildTagList sampleExternals "worker-0" "c1" [Tag.mk "cluster-owned" "mine"] ->
        Tag.Key other = "cluster-owned" ->
        other ∈ [Tag.mk "cluster-owned" "mine"]).
Proof.
  apply (@buildTagList_machine_tag_wins sampleExternals "worker-0" "c1"
           [Tag.mk "cluster-owned" "mine"] (Tag.mk "cluster-owned" "mine")).
  - left.
  - intros [Hp | Hn]; [vm_compute in Hp | cbn in Hn]; discriminate.
Defined.

(** ** Order of duplicate instances, continued *)

Section SortedInput.
Context {A : Type} (less : A -> A -> bool).

Lemma Sorted_middle (R : A -> A -> Prop) (l1 l2 : list A) (y x : A) :
  Sorted R (l1 ++ y :: x :: l2) -> R y x.
Proof.
  induction l1 as [|a l1 IH]; cbn [app]; intros Hs.
  - apply Sorted_inv in Hs as [_ Hhd]. apply HdRel_inv in Hhd. exact Hhd.
  - apply Sorted_inv in Hs as [Hs _]. exact (IH Hs).
Qed.

(** Insertion sort leaves a slice as it is when no element is less than
    the one before it. *)
Lemma insertionSort_sorted_id (data : list A) :
  Sorted (fun earlier later => less later earlier = false) data ->
  insertionSort less data = data.
Proof.
  intros Hs. unfold insertionSort.
  assert (Hgen : forall rest pre,
             Sorted (fun earlier later => less later earlier = false) (pre ++ rest) ->
             fold_left (fun before x => sift less x before) rest (rev pre)
             = rev (pre ++ rest)).
  { induction rest as [|x rest IH]; intros pre Hsorted; cbn [fold_left].
    - rewrite app_nil_r. reflexivity.
    - replace (pre ++ x :: rest) with ((pre ++ [x]) ++ rest) in *
        by (rewrite <- app_assoc; reflexivity).
      rewrite <- (IH (pre ++ [x]) Hsorted). f_equal.
      rewrite rev_app_distr. cbn [rev app].
      destruct pre as [|a pre] using rev_ind; [reflexivity |].
      rewrite rev_app_distr. cbn [rev app sift].
      rewrite <- !app_assoc in Hsorted. cbn [app] in Hsorted.
      rewrite (Sorted_middle _ _ _ _ _ Hsorted). reflexivity. }
  pose proof (Hgen data [] Hs) as Hdata. cbn [rev app] in Hdata.
  rewrite Hdata. apply rev_involutive.
Qed.

End SortedInput.

Section InstanceOrderMore.
Context `{Externals}.

(** X5: whatever the start times are, parsed or not, [Less] is a strict
    order: no instance is less than itself, two instances are never
    less than each other, and less is transitive. *)
Theorem Less_strict_order :
  (forall a, Less a a = false)
  /\ (forall a b, Less a b = true -> Less b a = false)
  /\ (forall a b c, Less a b = true -> Less b c = true -> Less a c = true).
Proof.
  split; [| split].
  - intros a. unfold Less.
    destruct (strEq (ecs.Instance.StartTime a) ""); cbn; [reflexivity |].
    destruct (ParseInLocation _) as [t|]; [| reflexivity].
    destruct (Z.gtb_spec t t); [lia | reflexivity].
  - intros a b. unfold Less.
    destruct (strEq (ecs.Instance.StartTime a) "");
      destruct (strEq (ecs.Instance.StartTime b) ""); cbn; try discriminate;
      try reflexivity.
    destruct (ParseInLocation (ecs.Instance.StartTime a)) as [ta|]; [| discriminate].
    destruct (ParseInLocation (ecs.Instance.StartTime b)) as [tb|]; [| discriminate].
    destruct (Z.gtb_spec ta tb); [| discriminate].
    destruct (Z.gtb_spec tb ta); [lia | reflexivity].
  - intros a b c. unfold Less.
    destruct (strEq (ecs.Instance.StartTime a) "");
      destruct (strEq (ecs.Instance.StartTime b) "");
      destruct (strEq (ecs.Instance.StartTime c) ""); cbn;
      try discriminate; try reflexivity.
    all: repeat match goal with
                | |- context [ParseInLocation ?s] => destruct (ParseInLocation s)
                end;
      try discriminate; try reflexivity.
    all: repeat match goal with
                | |- context [?x >? ?y] => destruct (Z.gtb_spec x y)
                end;
      try discriminate; try reflexivity; intros; lia.
Qed.

(** X7: when every instance has a start time and none of them parses,
    [Less] is false for every pair of them, in both directions, so the
    comparison gives a sort nothing to reorder; and a slice of up to six
    such instances, which [sort.Sort] hands to its insertion sort as it
    is, is left in the order it came in. *)
Theorem sortInstances_unparsed_unchanged (instances : list ecs.Instance.t) :
  Forall startTimeUnparsed instances ->
  (forall a b : ecs.Instance.t, a ∈ instances -> b ∈ instances -> Less a b = false)
  /\ ((length instances <= 6)%nat -> sortInstances instances = instances).
Proof.
  intros Hun.
  assert (Hpair : forall a b : ecs.Instance.t,
             a ∈ instances -> b ∈ instances -> Less a b = false).
  { intros a b Ha Hb. rewrite Forall_forall in Hun.
    destruct (Hun a Ha) as [Hsa Hpa]. destruct (Hun b Hb) as [Hsb _].
    unfold Less. apply strEq_false in Hsa, Hsb. rewrite Hsa, Hsb, Hpa. reflexivity. }
  split; [exact Hpair |].
  intros _. unfold sortInstances. apply insertionSort_sorted_id.
  clear Hun. induction instances as [|x l IH]; [constructor |].
  constructor.
  - apply IH. intros a b Ha Hb. apply Hpair; right; assumption.
  - destruct l as [|y l]; constructor.
    apply Hpair; [right; left | left].
Qed.

Lemma sortInstances_ordered (instances : list ecs.Instance.t) :
  Forall startTimeParses instances ->
  Permutation instances (sortInstances instances)
  /\ StronglySorted standsBefore (sortInstances instances).
Proof.
  intros Hparse. split; [apply insertionSort_Permutation |].
  apply Less_sorted_standsBefore.
  - unfold sortInstances. rewrite <- (insertionSort_Permutation Less instances).
    exact Hparse.
  - apply StronglySorted_Sorted.
    exact (insertionSort_sorted Less startTimeParses Less_asym Less_not_less_trans
             instances Hparse).
Qed.

(** X8: when every instance has a start time that parses, the first
    instance after sorting is one of the input whose start is not
    before the start of any other. *)
Theorem sortInstances_head_is_newest (instances : list ecs.Instance.t) :
  instances <> [] ->
  Forall (fun instance => exists t, startsAt instance t) instances ->
  exists first rest t,
    sortInstances instances = first :: rest
    /\ first ∈ instances
    /\ startsAt first t
    /\ (forall other t', other ∈ instances -> startsAt other t' -> t' <= t).
Proof.
  intros Hne Hdated.
  assert (Hparse : Forall startTimeParses instances).
  { eapply Forall_impl; [exact Hdated |].
    intros i [t [_ Ht]]. right. exists t. exact Ht. }
  destruct (sortInstances_ordered instances Hparse)
    as [Hperm Hsorted].
  destruct (sortInstances instances) as [|first rest] eqn:Esorted.
  { symmetry in Hperm. apply Permutation_nil in Hperm. contradiction. }
  assert (Hfirst : first ∈ instances).
  { rewrite Hperm. left. }
  rewrite Forall_forall in Hdated.
  destruct (Hdated first Hfirst) as [t Hstart].
  exists first, rest, t. repeat split; auto; try apply Hstart.
  intros other t' Hother [Hset' Ht'].
  rewrite Hperm in Hother. apply elem_of_cons in Hother as [-> | Hin].
  - destruct Hstart as [_ Ht]. rewrite Ht in Ht'. injection Ht' as ->. lia.
  - apply StronglySorted_inv in Hsorted as [_ Hall].
    rewrite Forall_forall in Hall.
    destruct (Hall other Hin) as [Hempty | (_ & _ & ta & tb & Hta & Htb & Hle)].
    + destruct Hstart as [Hset _]. contradiction.
    + destruct Hstart as [_ Ht]. rewrite Ht in Hta. rewrite Ht' in Htb.
      injection Hta as <-. injection Htb as <-. exact Hle.
Qed.

End InstanceOrderMore.

Lemma sortInstances_unparsed_unchanged_witness :
  @Less sampleExternals
    (sampleInstance "i-later" "Running" "2021-03-01T08:30Z") instanceUnparsed = false
  /\ @sortInstances sampleExternals
       [instanceUnparsed; sampleInstance "i-later" "Running" "2021-03-01T08:30Z"]
     = [instanceUnparsed; sampleInstance "i-later" "Running" "2021-03-01T08:30Z"].
Proof.
  assert (Hun : Forall (@startTimeUnparsed sampleExternals)
                  [instanceUnparsed;
                   sampleInstance "i-later" "Running" "2021-03-01T08:30Z"]).
  { apply List.Forall_cons; [split; [discriminate | vm_compute; reflexivity] |].
    apply List.Forall_cons; [split; [discriminate | vm_compute; reflexivity] |].
    apply List.Forall_nil. }
  destruct (@sortInstances_unparsed_unchanged sampleExternals _ Hun) as [Hpair Hsame].
  split.
  - apply Hpair; [right; left | left].
  - apply Hsame. cbn. lia.
Defined.

Lemma sortInstances_head_is_newest_witness :
  exists first rest t,
    @sortInstances sampleExternals [instanceT1; instanceT2] = first :: rest
    /\ first ∈ [instanceT1; instanceT2]
    /\ @startsAt sampleExternals first t
    /\ (forall other t',
          other ∈ [instanceT1; instanceT2] ->
          @startsAt sampleExternals other t' -> t' <= t).
Proof.
  apply (@sortInstances_head_is_newest sampleExternals [instanceT1; instanceT2]).
  - discriminate.
  - apply List.Forall_cons;
      [eexists; split; [discriminate | vm_compute; reflexivity] |].
    apply List.Forall_cons;
      [eexists; split; [discriminate | vm_compute; reflexivity] |].
    apply List.Forall_nil.
Defined.

(** ** Running instances and clean-up, continued *)

Lemma getRunningFromInstances_filter (instances : list ecs.Instance.t) :
  getRunningFromInstances instances = List.filter isRunning instances.
Proof.
  unfold getRunningFromInstances.
  transitivity ([] ++ map (fun instance => instance) (List.filter isRunning instances)).
  - apply (fold_left_keep_append isRunning (fun instance => instance) instances []).
  - cbn [app]. apply map_id.
Qed.

Lemma filter_filter_same {A : Type} (keep : A -> bool) (l : list A) :
  List.filter keep (List.filter keep l) = List.filter keep l.
Proof.
  induction l as [|x l IH]; [reflexivity |]. cbn [List.filter].
  destruct (keep x) eqn:E; [| exact IH].
  cbn [List.filter]. rewrite E, IH. reflexivity.
Qed.

(** X9: [getRunningFromInstances] keeps, in their order, the instances
    whose status is Running and no other; applying it again changes
    nothing; and the IDs [stopInstances] puts into the stop request are
    the IDs of the instances it keeps. *)
Theorem getRunningFromInstances_running (instances : list ecs.Instance.t) :
  (forall instance : ecs.Instance.t,
     instance ∈ getRunningFromInstances instances <->
     instance ∈ instances /\ ecs.Instance.Status instance = ECSInstanceStatusRunning)
  /\ sublist (getRunningFromInstances instances) instances
  /\ getRunningFromInstances (getRunningFromInstances instances)
     = getRunningFromInstances instances
  /\ needStoppedInstanceIDsOf instances
     = map ecs.Instance.InstanceId (getRunningFromInstances instances).
Proof.
  rewrite !getRunningFromInstances_filter. split; [| split; [| split]].
  - intros instance.
    rewrite list_elem_of_In, List.filter_In, <- list_elem_of_In.
    unfold isRunning. rewrite strEq_true. reflexivity.
  - induction instances as [|x l IH]; [constructor |]. cbn [List.filter].
    destruct (isRunning x); [apply sublist_skip | apply sublist_cons]; exact IH.
  - apply filter_filter_same.
  - apply needStoppedInstanceIDsOf_running.
Qed.

(** X10: [stopInstances] makes no describe call for an empty input, and
    passes an error of the describe call on unchanged without a stop
    call; an error of the stop call itself is wrapped. *)
Theorem stopInstances_error_paths
    (client : alibabacloudClient.Client) (regionID : string)
    (instances : list ecs.Instance.t) (h : list Event) :
  (instances = [] ->
   issued (stopInstances client regionID instances) h = []
   /\ result (stopInstances client regionID instances) h
      = inr (fmt_Errorf "instance-ids not specified" []))
  /\ (forall err : error,
        instances <> [] ->
        alibabacloudClient.DescribeInstances client h
          (describeByIDs regionID (map ecs.Instance.InstanceId instances)) = inr err ->
        issued (stopInstances client regionID instances) h
        = [ CallDescribeInstances
              (describeByIDs regionID (map ecs.Instance.InstanceId instances)) ]
        /\ result (stopInstances client regionID instances) h = inr err)
  /\ (forall (existingInstances : list ecs.Instance.t) (err : error),
        instances <> [] ->
        existingInstances <> [] ->
        alibabacloudClient.DescribeInstances client h
          (describeByIDs regionID (map ecs.Instance.InstanceId instances))
        = inl (ecs.DescribeInstancesResponse.mk existingInstances) ->
        alibabacloudClient.StopInstances client
          (h ++ [ CallDescribeInstances
                    (describeByIDs regionID (map ecs.Instance.InstanceId instances)) ])
          (stopRequest regionID
             (map ecs.Instance.InstanceId (getRunningFromInstances existingInstances)))
        = inr err ->
        result (stopInstances client regionID instances) h
        = inr (fmt_Errorf "error stopping instances: %v" [ArgError err])).
Proof.
  split; [| split].
  - intros ->. split; reflexivity.
  - intros err Hne Hdescribe.
    unfold result, issued, stopInstances, describeInstances, bind, invoke, ret.
    rewrite instanceIDsOf_map.
    assert (Hids : (length (map ecs.Instance.InstanceId instances) <? 1)%nat = false).
    { apply length_lt_1. destruct instances; [congruence | discriminate]. }
    rewrite Hids. fold (describeByIDs regionID (map ecs.Instance.InstanceId instances)).
    rewrite Hdescribe. split; reflexivity.
  - intros existingInstances err Hne Hexisting Hdescribe Hstop.
    rewrite getRunningFromInstances_filter in Hstop.
    unfold result, stopInstances, describeInstances, bind, invoke, ret.
    rewrite instanceIDsOf_map.
    assert (Hids : (length (map ecs.Instance.InstanceId instances) <? 1)%nat = false).
    { apply length_lt_1. destruct instances; [congruence | discriminate]. }
    rewrite Hids. fold (describeByIDs regionID (map ecs.Instance.InstanceId instances)).
    rewrite Hdescribe. cbn [ecs.DescribeInstancesResponse.Instance].
    apply length_lt_1 in Hexisting. rewrite Hexisting.
    rewrite needStoppedInstanceIDsOf_running.
    fold (stopRequest regionID
            (map ecs.Instance.InstanceId (List.filter isRunning existingInstances))).
    cbn [app]. rewrite Hstop. reflexivity.
Qed.

(** ** Lookup of instances *)

(** X11: [getInstanceByID] makes no call for an empty ID.  It returns an
    instance exactly when the describe call for that one ID answers
    exactly one instance, and then it returns that instance even when
    its state is not supported; it returns no error exactly when, in
    addition, [instanceHasSupportedState] accepts the instance. *)
Theorem getInstanceByID_found_iff
    (instanceID regionID : string) (client : alibabacloudClient.Client)
    (instanceStates : list string) (h : list Event) :
  (instanceID = "" ->
   issued (getInstanceByID instanceID regionID client instanceStates) h = [])
  /\ (forall instance : ecs.Instance.t,
        fst (result (getInstanceByID instanceID regionID client instanceStates) h)
        = Some instance
        <-> instanceID <> ""
            /\ alibabacloudClient.DescribeInstances client h
                 (describeByIDs regionID [instanceID])
               = inl (ecs.DescribeInstancesResponse.mk [instance]))
  /\ (snd (result (getInstanceByID instanceID regionID client instanceStates) h) = None
      <-> exists instance : ecs.Instance.t,
            instanceID <> ""
            /\ alibabacloudClient.DescribeInstances client h
                 (describeByIDs regionID [instanceID])
               = inl (ecs.DescribeInstancesResponse.mk [instance])
            /\ instanceHasSupportedState instance instanceStates = None).
Proof.
  unfold getInstanceByID.
  destruct (strEq instanceID "") eqn:Eid;
    [apply strEq_true in Eid | apply strEq_false in Eid].
  { split; [reflexivity |]. split.
    - intros instance. cbn. split; [discriminate | intros [Hne _]; contradiction].
    - cbn. split; [discriminate | intros (i & Hne & _); contradiction]. }
  split; [intros E; contradiction |].
  rewrite result_bind.
  unfold describeInstances at 1 3. cbn [length Nat.ltb Nat.leb].
  rewrite result_bind. unfold invoke at 1 3. unfold result at 3 6. cbn [fst].
  fold (describeByIDs regionID [instanceID]).
  destruct (alibabacloudClient.DescribeInstances client h
              (describeByIDs regionID [instanceID])) as [[described]|err].
  - rewrite !result_ret. cbn [ecs.DescribeInstancesResponse.Instance].
    destruct described as [|i [|i' rest]]; rewrite result_ret; cbn [fst snd].
    + split.
      * intros instance. split; [discriminate | intros [_ [=]]].
      * split; [discriminate | intros (i & _ & [=] & _)].
    + split.
      * intros instance. split.
        -- intros [= ->]. auto.
        -- intros [_ [= ->]]. reflexivity.
      * split.
        -- intros Hok. exists i. auto.
        -- intros (i0 & _ & [= <-] & Hok). exact Hok.
    + split.
      * intros instance. split; [discriminate | intros [_ [=]]].
      * split; [discriminate | intros (i0 & _ & [=] & _)].
  - rewrite !result_ret. cbn [fst snd]. split.
    + intros instance. split; [discriminate | intros [_ [=]]].
    + split; [discriminate | intros (i & _ & [=] & _)].
Qed.

Section LookupFacts.
Context `{Externals}.


(** X13: every entry of the slice [getInstances] returns is the last
    instance of the describe response, whether or not that instance is
    in a supported state: the loop stores the address of its one loop
    variable. *)
Theorem getInstances_entries_are_last
    (machine : Machine.t) (regionID : string) (client : alibabacloudClient.Client)
    (instanceStates : list string) (h : list Event)
    (clusterID : string) (described instances : list ecs.Instance.t)
    (instance : ecs.Instance.t) :
  getClusterID machine = Some clusterID ->
  alibabacloudClient.DescribeInstances client h
    (describeByOwner regionID clusterID (Machine.Name machine))
  = inl (ecs.DescribeInstancesResponse.mk described) ->
  result (getInstances machine regionID client instanceStates) h = inl instances ->
  instance ∈ instances ->
  last described = Some instance.
Proof.
  intros Hcluster Hdescribe. unfold getInstances. rewrite Hcluster.
  rewrite result_bind. unfold invoke at 1. unfold result at 2. cbn [fst].
  fold (describeByOwner regionID clusterID (Machine.Name machine)).
  rewrite Hdescribe. cbn [ecs.DescribeInstancesResponse.Instance].
  destruct (last described) as [loopVariable|].
  - rewrite result_ret. intros [= <-] Hin.
    apply elem_of_replicate in Hin as [-> _]. reflexivity.
  - rewrite result_ret. intros [= <-] Hin. inversion Hin.
Qed.

(** X14: [correctExistingTags] makes no call and returns an error when
    the instance is nil, when it has no ID, and when the machine has no
    cluster ID. *)
Theorem correctExistingTags_rejects
    (machine : Machine.t) (regionID : string) (instance : option ecs.Instance.t)
    (client : alibabacloudClient.Client) (h : list Event) :
  instance = None
  \/ (exists inst, instance = Some inst /\ ecs.Instance.InstanceId inst = "")
  \/ getClusterID machine = None ->
  issued (correctExistingTags machine regionID instance client) h = []
  /\ is_Some (result (correctExistingTags machine regionID instance client) h).
Proof.
  unfold correctExistingTags.
  intros [-> | [(inst & -> & Hid) | Hcluster]].
  - split; [reflexivity | eexists; reflexivity].
  - apply strEq_true in Hid. rewrite Hid. split; [reflexivity | eexists; reflexivity].
  - destruct instance as [inst|]; [| split; [reflexivity | eexists; reflexivity]].
    destruct (strEq (ecs.Instance.InstanceId inst) "");
      [split; [reflexivity | eexists; reflexivity] |].
    rewrite Hcluster. split; [reflexivity | eexists; reflexivity].
Qed.

End LookupFacts.

Lemma getInstances_entries_are_last_witness :
  result
    (@getInstances sampleExternals sampleMachine "cn-hangzhou"
       (sampleClient [sampleInstance "i-a" "Running" ""; sampleInstance "i-b" "" ""] [])
       ["Running"]) []
  = inl [sampleInstance "i-b" "" ""]
  /\ last [sampleInstance "i-a" "Running" ""; sampleInstance "i-b" "" ""]
     = Some (sampleInstance "i-b" "" "").
Proof.
  split; [reflexivity |].
  apply (@getInstances_entries_are_last sampleExternals sampleMachine "cn-hangzhou"
           (sampleClient [sampleInstance "i-a" "Running" ""; sampleInstance "i-b" "" ""] [])
           ["Running"] [] "c1"
           [sampleInstance "i-a" "Running" ""; sampleInstance "i-b" "" ""]
           [sampleInstance "i-b" "" ""]).
  - reflexivity.
  - reflexivity.
  - reflexivity.
  - left.
Defined.

Lemma correctExistingTags_rejects_witness :
  issued
    (@correctExistingTags sampleExternals sampleMachine "cn-hangzhou"
       (Some (sampleInstance "" "Running" "")) (sampleClient [] [])) [] = []
  /\ is_Some
       (result
          (@correctExistingTags sampleExternals sampleMachine "cn-hangzhou"
             (Some (sampleInstance "" "Running" "")) (sampleClient [] [])) []).
Proof.
  apply (@correctExistingTags_rejects sampleExternals).
  right. left. eexists. split; reflexivity.
Defined.

(** ** Waiting for a status *)

(** X15: one poll makes one describe call for the IDs.  An error of
    the call asks for another poll; an empty answer stops the wait with
    an error; otherwise the poll stops with success exactly when as many
    instances are in the wanted status as IDs were asked for, and then
    it yields that many entries. *)
Theorem waitForInstancesStatus_predicate_outcomes
    (client : alibabacloudClient.Client) (regionID : string)
    (instanceIds : list string) (instanceStatus : string) (h : list Event) :
  issued (waitForInstancesStatus_predicate client regionID instanceIds instanceStatus) h
  = [ CallDescribeInstances (describeByIDs regionID instanceIds) ]
  /\ match alibabacloudClient.DescribeInstances client h
             (describeByIDs regionID instanceIds) with
     | inr err =>
         result (waitForInstancesStatus_predicate client regionID instanceIds
                   instanceStatus) h
         = (false, None, Some err)
     | inl response =>
         let described := ecs.DescribeInstancesResponse.Instance response in
         let matching :=
           filter (fun instance => ecs.Instance.Status instance = instanceStatus)
             described in
         (described = [] ->
          exists err,
            result (waitForInstancesStatus_predicate client regionID instanceIds
                      instanceStatus) h
            = (true, None, Some err))
         /\ (described <> [] -> length matching = length instanceIds ->
             exists instances,
               result (waitForInstancesStatus_predicate client regionID instanceIds
                         instanceStatus) h
               = (true, Some instances, None)
               /\ length instances = length instanceIds)
         /\ (described <> [] -> length matching <> length instanceIds ->
             exists err,
               result (waitForInstancesStatus_predicate client regionID instanceIds
                         instanceStatus) h
               = (false, None, Some err))
     end.
Proof.
  unfold issued, result, waitForInstancesStatus_predicate, bind, invoke, ret.
  fold (describeByIDs regionID instanceIds).
  destruct (alibabacloudClient.DescribeInstances client h
              (describeByIDs regionID instanceIds)) as [response|err].
  2:{ split; reflexivity. }
  destruct (ecs.DescribeInstancesResponse.Instance response) as [|first others].
  { cbn. split; [reflexivity |]. split; [| split].
    - intros _. eexists. reflexivity.
    - intros Hne. contradiction.
    - intros Hne. contradiction. }
  destruct (last (first :: others)) as [loopVariable|] eqn:Elast.
  2:{ apply last_None in Elast. discriminate. }
  rewrite length_replicate.
  destruct (Nat.eqb_spec
              (length (filter (fun instance => ecs.Instance.Status instance = instanceStatus)
                         (first :: others)))
              (length instanceIds)) as [Heq | Hneq].
  - cbn [fst snd app]. split; [reflexivity |]. cbn zeta. split; [| split].
    + discriminate.
    + intros _ _. eexists. split; [reflexivity |].
      rewrite length_replicate. exact Heq.
    + intros _ Hne. contradiction.
  - cbn [fst snd app]. split; [reflexivity |]. cbn zeta. split; [| split].
    + discriminate.
    + intros _ Heq. contradiction.
    + intros _ _. eexists. reflexivity.
Qed.

Section WaitFacts.
Context `{Externals}.

(** X16: a timeout that is zero or negative is replaced by the default
    timeout of 900 seconds. *)
Theorem waitForInstancesStatus_default_timeout
    (client : alibabacloudClient.Client) (regionID : string)
    (instanceIds : list string) (instanceStatus : string) (timeout : Z)
    (h : list Event) :
  timeout <= 0 ->
  waitForInstancesStatus client regionID instanceIds instanceStatus timeout h
  = waitForInstancesStatus client regionID instanceIds instanceStatus 900 h.
Proof.
  intros Hle. unfold waitForInstancesStatus.
  destruct (Z.leb_spec timeout 0) as [_ | Hgt]; [| lia].
  reflexivity.
Qed.

End WaitFacts.

Lemma waitForInstancesStatus_default_timeout_witness :
  @waitForInstancesStatus sampleExternals
    (sampleClient [sampleInstance "i-new" "Running" ""] []) "cn-hangzhou"
    ["i-new"] "Running" (-3) []
  = @waitForInstancesStatus sampleExternals
      (sampleClient [sampleInstance "i-new" "Running" ""] []) "cn-hangzhou"
      ["i-new"] "Running" 900 [].
Proof.
  apply (@waitForInstancesStatus_default_timeout sampleExternals). lia.
Defined.

(** ** Resolution of image, vswitch and security groups *)

(** X17: [getImageID] returns an image ID exactly when the describe call
    succeeds and the first image it answers is in the Available status,
    and the ID is that image's.  A failure metric is registered when the
    call itself fails, and not when the image is missing or not
    available. *)
Theorem getImageID_first_available
    (machine : ObjectKey.t) (machineProviderConfig : AlibabaCloudMachineProviderConfig.t)
    (client : alibabacloudClient.Client) (h : list Event) :
  (forall imageID : string,
     result (getImageID machine machineProviderConfig client) h = inl imageID
     <-> exists image others,
           alibabacloudClient.DescribeImages client h (describeImage machineProviderConfig)
           = inl (ecs.DescribeImagesResponse.mk (image :: others))
           /\ ecs.Image.Status image = "Available"
           /\ ecs.Image.ImageId image = imageID)
  /\ (forall err : error,
        alibabacloudClient.DescribeImages client h (describeImage machineProviderConfig)
        = inr err ->
        issued (getImageID machine machineProviderConfig client) h
        = [ CallDescribeImages (describeImage machineProviderConfig);
            RegisterFailedInstanceCreate (ObjectKey.Name machine)
              (ObjectKey.Namespace machine) err ])
  /\ (forall response : ecs.DescribeImagesResponse.t,
        alibabacloudClient.DescribeImages client h (describeImage machineProviderConfig)
        = inl response ->
        issued (getImageID machine machineProviderConfig client) h
        = [ CallDescribeImages (describeImage machineProviderConfig) ]).
Proof.
  unfold issued, result, getImageID, bind, invoke, ret, metricsFailedCreate, emit.
  change (FormatBool true) with "true".
  fold (describeImage machineProviderConfig).
  destruct (alibabacloudClient.DescribeImages client h (describeImage machineProviderConfig))
    as [[images]|err].
  - cbn [ecs.DescribeImagesResponse.Image].
    destruct images as [|image others].
    + cbn. split; [| split].
      * intros imageID. split; [discriminate | intros (i & o & [=] & _)].
      * discriminate.
      * reflexivity.
    + destruct (strEq (ecs.Image.Status image) EcsImageStatusAvailable) eqn:Est;
        [apply strEq_true in Est | apply strEq_false in Est]; cbn.
      * split; [| split; [discriminate | reflexivity]].
        intros imageID. split.
        -- intros [= <-]. exists image, others. auto.
        -- intros (i & o & [= <- <-] & _ & <-). reflexivity.
      * split; [| split; [discriminate | reflexivity]].
        intros imageID. split; [discriminate |].
        intros (i & o & [= <- <-] & Hst & _). contradiction.
  - cbn. split; [| split].
    + intros imageID. split; [discriminate | intros (i & o & [=] & _)].
    + intros err' [= <-]. reflexivity.
    + discriminate.
Qed.

(** X18: [getVSwitchID] returns a configured ID as it is, without a
    call; without an ID and without tags it fails without a call; with
    tags only it returns the first vswitch the describe call answers.
    The error of its last line is never returned. *)
Theorem getVSwitchID_literal_or_first_match
    (machine : ObjectKey.t) (machineProviderConfig : AlibabaCloudMachineProviderConfig.t)
    (client : alibabacloudClient.Client) (h : list Event) :
  let vswitch := AlibabaCloudMachineProviderConfig.VSwitch machineProviderConfig in
  (AlibabaResourceReference.ID vswitch <> "" ->
   result (getVSwitchID machine machineProviderConfig client) h
   = inl (AlibabaResourceReference.ID vswitch)
   /\ issued (getVSwitchID machine machineProviderConfig client) h = [])
  /\ (AlibabaResourceReference.ID vswitch = "" ->
      sliceOf (AlibabaResourceReference.Tags vswitch) = [] ->
      result (getVSwitchID machine machineProviderConfig client) h
      = inr (errors_New "no vswitch configuration provided")
      /\ issued (getVSwitchID machine machineProviderConfig client) h = [])
  /\ (forall (first : vpc.VSwitch.t) (others : list vpc.VSwitch.t),
        AlibabaResourceReference.ID vswitch = "" ->
        sliceOf (AlibabaResourceReference.Tags vswitch) <> [] ->
        alibabacloudClient.DescribeVSwitches client h (describeVSwitches machineProviderConfig)
        = inl (vpc.DescribeVSwitchesResponse.mk (first :: others)) ->
        result (getVSwitchID machine machineProviderConfig client) h
        = inl (vpc.VSwitch.VSwitchId first))
  /\ result (getVSwitchID machine machineProviderConfig client) h
     <> inr (fmt_Errorf "no vSwitch found from configuration" []).
Proof.
  intros vswitch. unfold getVSwitchID. fold vswitch.
  destruct (strEq (AlibabaResourceReference.ID vswitch) "") eqn:Eid;
    [apply strEq_true in Eid | apply strEq_false in Eid]; cbn [andb negb].
  - destruct (AlibabaResourceReference.Tags vswitch) as [tags|] eqn:Etags;
      cbn [sliceOf].
    + destruct tags as [|tag tags]; cbn [length Nat.eqb].
      * repeat split; try contradiction; try discriminate; auto.
      * split; [intros; contradiction |]. split; [intros _ [=] |].
        unfold result, getVSwitchIDFromTags, bind, invoke, ret, metricsFailedCreate, emit.
        unfold buildDescribeVSwitchesTag.
        fold (describeVSwitches machineProviderConfig).
        destruct (alibabacloudClient.DescribeVSwitches client h
                    (describeVSwitches machineProviderConfig)) as [[found]|err]; cbn.
        -- destruct found as [|v vs]; cbn.
           ++ split; [intros f o _ _ [=] | discriminate].
           ++ split; [intros f o _ _ [= <- <-]; reflexivity | discriminate].
        -- split; [intros f o _ _ [=] | discriminate].
    + cbn. repeat split; try contradiction; try discriminate; auto.
  - repeat split; try contradiction; try discriminate; auto.
Qed.

Lemma getSecurityGroupIDs_loop_literal (machine : ObjectKey.t)
    (machineProviderConfig : AlibabaCloudMachineProviderConfig.t)
    (client : alibabacloudClient.Client) (entries : list AlibabaResourceReference.t) :
  Forall (fun sg => AlibabaResourceReference.ID sg <> "") entries ->
  forall (securityGroupIDs : list string) (h : list Event),
    getSecurityGroupIDs_loop machine machineProviderConfig client entries
      securityGroupIDs h
    = (inl (securityGroupIDs ++ map AlibabaResourceReference.ID entries), []).
Proof.
  induction 1 as [|sg entries Hsg _ IH]; intros acc h; cbn [getSecurityGroupIDs_loop map].
  - rewrite app_nil_r. reflexivity.
  - apply strEq_false in Hsg. rewrite Hsg. cbn [negb].
    rewrite IH, <- app_assoc. reflexivity.
Qed.

(** X19: when every configured security group has a literal ID, the IDs
    are returned in the order of the configuration and no call is
    made. *)
Theorem getSecurityGroupIDs_all_literal
    (machine : ObjectKey.t) (machineProviderConfig : AlibabaCloudMachineProviderConfig.t)
    (client : alibabacloudClient.Client) (h : list Event) :
  AlibabaCloudMachineProviderConfig.SecurityGroups machineProviderConfig <> [] ->
  Forall (fun sg => AlibabaResourceReference.ID sg <> "")
    (AlibabaCloudMachineProviderConfig.SecurityGroups machineProviderConfig) ->
  result (getSecurityGroupIDs machine machineProviderConfig client) h
  = inl (map AlibabaResourceReference.ID
           (AlibabaCloudMachineProviderConfig.SecurityGroups machineProviderConfig))
  /\ issued (getSecurityGroupIDs machine machineProviderConfig client) h = [].
Proof.
  intros Hne Hall.
  unfold result, issued, getSecurityGroupIDs, bind, ret.
  destruct (AlibabaCloudMachineProviderConfig.SecurityGroups machineProviderConfig)
    as [|sg entries]; [congruence |].
  cbn [length Nat.eqb].
  rewrite (getSecurityGroupIDs_loop_literal machine machineProviderConfig client
             (sg :: entries) Hall [] h).
  cbn. split; reflexivity.
Qed.

(** X20: one consulted tag filter that matches no security group makes
    the whole resolution fail, also when other entries have literal IDs
    or matching filters. *)
Theorem getSecurityGroupIDs_unmatched_filter_fails
    (machine : ObjectKey.t) (machineProviderConfig : AlibabaCloudMachineProviderConfig.t)
    (client : alibabacloudClient.Client) (matching : list Tag.t -> list string)
    (unmatched : AlibabaResourceReference.t) (tags : list Tag.t) (h : list Event) :
  answersByTag client machineProviderConfig matching ->
  unmatched ∈ AlibabaCloudMachineProviderConfig.SecurityGroups machineProviderConfig ->
  AlibabaResourceReference.ID unmatched = "" ->
  AlibabaResourceReference.Tags unmatched = Some tags ->
  matching tags = [] ->
  result (getSecurityGroupIDs machine machineProviderConfig client) h
  = inr (fmt_Errorf "no securitygroup for given tags not found" []).
Proof.
  intros Hanswer Hin Hid Htags Hnone. unfold getSecurityGroupIDs.
  destruct (AlibabaCloudMachineProviderConfig.SecurityGroups machineProviderConfig)
    as [|sg entries] eqn:Eentries; [inversion Hin |].
  cbn [length Nat.eqb]. rewrite result_bind.
  rewrite (getSecurityGroupIDs_loop_no_match machine machineProviderConfig client
             matching unmatched tags (sg :: entries) Hanswer Hid Htags Hnone Hin).
  reflexivity.
Qed.

Lemma getSecurityGroupIDs_all_literal_witness :
  result (getSecurityGroupIDs sampleKey (sampleConfig "" 40 0 0) (sampleClient [] [])) []
  = inl ["sg-literal"]
  /\ issued (getSecurityGroupIDs sampleKey (sampleConfig "" 40 0 0) (sampleClient [] [])) []
     = [].
Proof.
  apply (getSecurityGroupIDs_all_literal sampleKey (sampleConfig "" 40 0 0)
           (sampleClient [] []) []).
  - discriminate.
  - apply List.Forall_cons; [discriminate | apply List.Forall_nil].
Defined.

Lemma getSecurityGroupIDs_unmatched_filter_fails_witness :
  result (getSecurityGroupIDs sampleKey sampleConfigTwoGroups (sampleClient [] [])) []
  = inr (fmt_Errorf "no securitygroup for given tags not found" []).
Proof.
  apply (getSecurityGroupIDs_unmatched_filter_fails sampleKey sampleConfigTwoGroups
           (sampleClient [] []) (fun _ => [])
           (AlibabaResourceReference.mk "" (Some [Tag.mk "role" "worker"]))
           [Tag.mk "role" "worker"] []).
  - intros h tags. reflexivity.
  - right. left.
  - reflexivity.
  - reflexivity.
  - reflexivity.
Defined.

(** ** The create-instance call, continued *)

Lemma getSecurityGroupIDs_nonempty (machine : ObjectKey.t)
    (machineProviderConfig : AlibabaCloudMachineProviderConfig.t)
    (client : alibabacloudClient.Client) (h : list Event) (ids : list string) :
  result (getSecurityGroupIDs machine machineProviderConfig client) h = inl ids ->
  ids <> [].
Proof.
  unfold getSecurityGroupIDs.
  destruct (_ =? 0)%nat; [discriminate |].
  rewrite result_bind.
  destruct (result (getSecurityGroupIDs_loop _ _ _ _ _) h) as [found|err];
    [| discriminate].
  destruct found as [|id found]; [discriminate |].
  cbn. intros [= <-]. discriminate.
Qed.

Lemma first_runInstances_split (pre1 pre2 post1 post2 : list Event)
    (request1 request2 : ecs.RunInstancesRequest.t) :
  Forall notRunInstances pre1 -> Forall notRunInstances pre2 ->
  pre1 ++ CallRunInstances request1 :: post1 = pre2 ++ CallRunInstances request2 :: post2 ->
  pre1 = pre2 /\ request1 = request2 /\ post1 = post2.
Proof.
  revert pre2. induction pre1 as [|e pre1 IH]; intros pre2 H1 H2 Heq.
  - destruct pre2 as [|e2 pre2]; cbn in Heq.
    + injection Heq as -> ->. auto.
    + injection Heq as <- _. apply Forall_cons in H2 as [Hbad _]. destruct Hbad.
  - destruct pre2 as [|e2 pre2]; cbn in Heq.
    + injection Heq as -> _. apply Forall_cons in H1 as [Hbad _]. destruct Hbad.
    + injection Heq as -> Heq.
      apply Forall_cons in H1 as [_ H1]. apply Forall_cons in H2 as [_ H2].
      destruct (IH pre2 H1 H2 Heq) as (-> & -> & ->). auto.
Qed.

Lemma issued_invoke {Req Resp : Type} (ev : Req -> Event)
    (method : list Event -> Req -> Resp) (request : Req) (h : list Event) :
  issued (invoke ev method request) h = [ev request].
Proof. reflexivity. Qed.

Lemma result_invoke {Req Resp : Type} (ev : Req -> Event)
    (method : list Event -> Req -> Resp) (request : Req) (h : list Event) :
  result (invoke ev method request) h = method h request.
Proof. reflexivity. Qed.

Lemma issued_emit (e : Event) (h : list Event) : issued (emit e) h = [e].
Proof. reflexivity. Qed.

Section RunInstancesCases.
Context `{Externals}.
Import AlibabaCloudMachineProviderConfig.

Lemma tenancyOf_error_reason (instanceTenancy : string) (err : error) :
  tenancyOf instanceTenancy = inr err -> errorReason err = Some CreateMachineError.
Proof.
  unfold tenancyOf.
  destruct (strEq instanceTenancy ""); [discriminate |].
  destruct (_ || _); [discriminate |].
  intros [= <-]. reflexivity.
Qed.

(** The course of a call of [runInstances]: a failure before the
    create-instance call, or the call and what follows from its
    answer. *)
Lemma runInstances_cases (machine : Machine.t)
    (machineProviderConfig : AlibabaCloudMachineProviderConfig.t) (userData : string)
    (client : alibabacloudClient.Client) (h : list Event) :
  (Forall notRunInstances
     (issued (runInstances machine machineProviderConfig userData client) h)
   /\ exists err,
        result (runInstances machine machineProviderConfig userData client) h = inr err
        /\ (errorReason err = Some CreateMachineError
            \/ errorReason err = Some InvalidConfigurationMachineError))
  \/ (exists pre imageID securityGroupIDs vSwitchID clusterID request,
        Forall notRunInstances pre
        /\ securityGroupIDs <> []
        /\ getClusterID machine = Some clusterID
        /\ runInstancesRequestOf machine machineProviderConfig userData imageID
             securityGroupIDs vSwitchID clusterID = inl request
        /\ match alibabacloudClient.RunInstances client (h ++ pre) request with
           | inr err =>
               issued (runInstances machine machineProviderConfig userData client) h
               = pre ++ [ CallRunInstances request;
                          RegisterFailedInstanceCreate (Machine.Name machine)
                            (Machine.Namespace machine) err ]
               /\ result (runInstances machine machineProviderConfig userData client) h
                  = inr (mapierrors.CreateMachine "error creating ECS instance: %v"
                           [ArgError err])
           | inl (Some {| ecs.RunInstancesResponse.InstanceIdSet := [instanceId] |}) =>
               exists polled,
                 issued (runInstances machine machineProviderConfig userData client) h
                 = pre ++ CallRunInstances request :: Sleep 5 :: polled
                 /\ ((exists instance,
                        result (runInstances machine machineProviderConfig userData
                                  client) h = inl instance)
                     \/ (exists format args,
                           result (runInstances machine machineProviderConfig userData
                                     client) h
                           = inr (mapierrors.CreateMachine format args)))
           | inl _ =>
               issued (runInstances machine machineProviderConfig userData client) h
               = pre ++ [CallRunInstances request]
               /\ result (runInstances machine machineProviderConfig userData client) h
                  = inr (mapierrors.CreateMachine
                           "unexpected reservation creating instance" [])
           end).
Proof.
  unfold runInstances.
  set (machineKey := ObjectKey.mk (Machine.Name machine) (Machine.Namespace machine)).
  rewrite issued_bind, result_bind.
  pose proof (getImageID_notRunInstances machineKey machineProviderConfig client h) as H1.
  set (e1 := issued (getImageID machineKey machineProviderConfig client) h) in *.
  destruct (result (getImageID machineKey machineProviderConfig client) h)
    as [imageID|err].
  2:{ left. rewrite issued_ret, result_ret, app_nil_r. split; [exact H1 |].
      eexists. split; [reflexivity |]. right. reflexivity. }
  rewrite issued_bind, result_bind.
  pose proof (getSecurityGroupIDs_notRunInstances machineKey machineProviderConfig
                client (h ++ e1)) as H2.
  pose proof (getSecurityGroupIDs_nonempty machineKey machineProviderConfig
                client (h ++ e1)) as Hsg.
  set (e2 := issued (getSecurityGroupIDs machineKey machineProviderConfig client)
               (h ++ e1)) in *.
  destruct (result (getSecurityGroupIDs machineKey machineProviderConfig client)
              (h ++ e1)) as [securityGroupIDs|err].
  2:{ left. rewrite issued_ret, result_ret, app_nil_r.
      split; [apply Forall_app; split; assumption |].
      eexists. split; [reflexivity |]. right. reflexivity. }
  specialize (Hsg securityGroupIDs eq_refl).
  rewrite issued_bind, result_bind.
  pose proof (getVSwitchID_notRunInstances machineKey machineProviderConfig
                client ((h ++ e1) ++ e2)) as H3.
  set (e3 := issued (getVSwitchID machineKey machineProviderConfig client)
               ((h ++ e1) ++ e2)) in *.
  destruct (result (getVSwitchID machineKey machineProviderConfig client)
              ((h ++ e1) ++ e2)) as [vSwitchID|err].
  2:{ left. rewrite issued_ret, result_ret, app_nil_r.
      split; [repeat (apply Forall_app; split); assumption |].
      eexists. split; [reflexivity |]. right. reflexivity. }
  assert (Hpre : Forall notRunInstances (e1 ++ e2 ++ e3))
    by (repeat (apply Forall_app; split); assumption).
  destruct (getClusterID machine) as [clusterID|] eqn:Ecluster.
  2:{ left. rewrite issued_ret, result_ret, app_nil_r.
      split; [exact Hpre |].
      eexists. split; [reflexivity |]. right. reflexivity. }
  destruct (runInstancesRequestOf machine machineProviderConfig userData imageID
              securityGroupIDs vSwitchID clusterID) as [request|err] eqn:Erequest.
  2:{ left. rewrite issued_ret, result_ret, app_nil_r.
      split; [exact Hpre |].
      eexists. split; [reflexivity |]. left.
      exact (tenancyOf_error_reason _ _
               (runInstancesRequestOf_error _ _ _ _ _ _ _ _ Erequest)). }
  right.
  exists (e1 ++ e2 ++ e3), imageID, securityGroupIDs, vSwitchID, clusterID, request.
  split; [exact Hpre |]. split; [exact Hsg |]. split; [reflexivity |].
  split; [exact Erequest |].
  rewrite issued_bind, result_bind, issued_invoke, result_invoke.
  replace (h ++ e1 ++ e2 ++ e3) with (((h ++ e1) ++ e2) ++ e3)
    by (rewrite <- !app_assoc; reflexivity).
  destruct (alibabacloudClient.RunInstances client (((h ++ e1) ++ e2) ++ e3) request)
    as [[[ids]|]|err].
  - destruct ids as [|instanceId [|second ids]].
    + rewrite issued_ret, result_ret, <- !app_assoc. split; reflexivity.
    + rewrite !issued_bind, !result_bind, !issued_emit.
      destruct (result (waitForInstancesStatus _ _ _ _ _) _)
        as [[[|first others]|]|err].
      * eexists. rewrite issued_ret, result_ret, <- !app_assoc.
        split; [reflexivity |]. right. eexists _, _. reflexivity.
      * eexists. rewrite issued_ret, result_ret, <- !app_assoc.
        split; [reflexivity |]. left. eexists. reflexivity.
      * eexists. rewrite issued_ret, result_ret, <- !app_assoc.
        split; [reflexivity |]. right. eexists _, _. reflexivity.
      * eexists. rewrite issued_bind, result_bind, issued_ret, result_ret, <- !app_assoc.
        split; [reflexivity |]. right. eexists _, _. reflexivity.
    + rewrite issued_ret, result_ret, <- !app_assoc. split; reflexivity.
  - rewrite issued_ret, result_ret, <- !app_assoc. split; reflexivity.
  - rewrite issued_bind, result_bind, issued_ret, result_ret, <- !app_assoc.
    split; reflexivity.
Qed.

End RunInstancesCases.

Lemma buildTagList_cluster_marker_in `{Externals}
    (machineName clusterID : string) (machineTags : list Tag.t) :
  Tag.mk (clusterFilterKeyPrefix +:+ clusterID) clusterFilterValue
    ∈ buildTagList machineName clusterID machineTags.
Proof.
  rewrite buildTagList_split. apply elem_of_app. right.
  apply list_elem_of_In, List.filter_In. split.
  - apply list_elem_of_In. unfold generatedTags.
    change (?x :: ?l) with ([x] ++ l).
    rewrite firstOccurrences_app. apply elem_of_app. left. cbn. left.
  - apply kept_fresh_for_reserved. left. apply HasPrefix_app.
Qed.

Section RunInstancesMore.
Context `{Externals}.
Import AlibabaCloudMachineProviderConfig.

(** The first create-instance call of [runInstances], the request it
    carries, and what follows from the answer of the provider. *)
Lemma runInstances_first_call (machine : Machine.t)
    (machineProviderConfig : AlibabaCloudMachineProviderConfig.t) (userData : string)
    (client : alibabacloudClient.Client) (h pre post : list Event)
    (request : ecs.RunInstancesRequest.t) :
  issued (runInstances machine machineProviderConfig userData client) h
  = pre ++ CallRunInstances request :: post ->
  Forall notRunInstances pre ->
  exists imageID securityGroupIDs vSwitchID clusterID,
    securityGroupIDs <> []
    /\ getClusterID machine = Some clusterID
    /\ runInstancesRequestOf machine machineProviderConfig userData imageID
         securityGroupIDs vSwitchID clusterID = inl request
    /\ match alibabacloudClient.RunInstances client (h ++ pre) request with
       | inr err =>
           post = [ RegisterFailedInstanceCreate (Machine.Name machine)
                      (Machine.Namespace machine) err ]
           /\ result (runInstances machine machineProviderConfig userData client) h
              = inr (mapierrors.CreateMachine "error creating ECS instance: %v"
                       [ArgError err])
       | inl (Some {| ecs.RunInstancesResponse.InstanceIdSet := [instanceId] |}) =>
           (exists polled, post = Sleep 5 :: polled)
           /\ ((exists instance,
                  result (runInstances machine machineProviderConfig userData client) h
                  = inl instance)
               \/ (exists format args,
                     result (runInstances machine machineProviderConfig userData client) h
                     = inr (mapierrors.CreateMachine format args)))
       | inl _ =>
           post = []
           /\ result (runInstances machine machineProviderConfig userData client) h
              = inr (mapierrors.CreateMachine
                       "unexpected reservation creating instance" [])
       end.
Proof.
  intros Hlog Hpre.
  destruct (runInstances_cases machine machineProviderConfig userData client h)
    as [[Hnone _]
       | (pre' & imageID & sgs & vsw & cid & request' & Hpre' & Hsg & Hcid & Hreq & Hrun)].
  { rewrite Hlog in Hnone. apply Forall_app in Hnone as [_ Hnone].
    apply Forall_cons in Hnone as [Hbad _]. destruct Hbad. }
  assert (Hsame : pre = pre' /\ request = request'
                  /\ match alibabacloudClient.RunInstances client (h ++ pre') request' with
                     | inr err =>
                         post = [ RegisterFailedInstanceCreate (Machine.Name machine)
                                    (Machine.Namespace machine) err ]
                     | inl (Some {| ecs.RunInstancesResponse.InstanceIdSet := [instanceId] |}) =>
                         exists polled, post = Sleep 5 :: polled
                     | inl _ => post = []
                     end).
  { destruct (alibabacloudClient.RunInstances client (h ++ pre') request')
      as [[[[|instanceId [|second ids]]]|]|err].
    - destruct Hrun as [Hissued _]. rewrite Hlog in Hissued.
      destruct (first_runInstances_split _ _ _ _ _ _ Hpre Hpre' Hissued) as (? & ? & ?).
      auto.
    - destruct Hrun as (polled & Hissued & _). rewrite Hlog in Hissued.
      destruct (first_runInstances_split _ _ _ _ _ _ Hpre Hpre' Hissued) as (? & ? & ?).
      eauto.
    - destruct Hrun as [Hissued _]. rewrite Hlog in Hissued.
      destruct (first_runInstances_split _ _ _ _ _ _ Hpre Hpre' Hissued) as (? & ? & ?).
      auto.
    - destruct Hrun as [Hissued _]. rewrite Hlog in Hissued.
      destruct (first_runInstances_split _ _ _ _ _ _ Hpre Hpre' Hissued) as (? & ? & ?).
      auto.
    - destruct Hrun as [Hissued _]. rewrite Hlog in Hissued.
      destruct (first_runInstances_split _ _ _ _ _ _ Hpre Hpre' Hissued) as (? & ? & ?).
      auto. }
  destruct Hsame as (-> & -> & Hpost).
  exists imageID, sgs, vsw, cid.
  split; [exact Hsg |]. split; [exact Hcid |]. split; [exact Hreq |].
  destruct (alibabacloudClient.RunInstances client (h ++ pre') request')
    as [[[[|instanceId [|second ids]]]|]|err].
  - split; [exact Hpost | apply Hrun].
  - destruct Hrun as (polled & _ & Hresult). split; [exact Hpost | exact Hresult].
  - split; [exact Hpost | apply Hrun].
  - split; [exact Hpost | apply Hrun].
  - split; [exact Hpost | apply Hrun].
Qed.

(** X21: every error [runInstances] returns is a machine error with a
    reason, and an error with the invalid-configuration reason means
    that no create-instance call was made. *)
Theorem runInstances_errors_classified
    (machine : Machine.t) (machineProviderConfig : AlibabaCloudMachineProviderConfig.t)
    (userData : string) (client : alibabacloudClient.Client) (h : list Event)
    (err : error) :
  result (runInstances machine machineProviderConfig userData client) h = inr err ->
  errorReason err = Some CreateMachineError
  \/ (errorReason err = Some InvalidConfigurationMachineError
      /\ Forall notRunInstances
           (issued (runInstances machine machineProviderConfig userData client) h)).
Proof.
  intros Hresult.
  destruct (runInstances_cases machine machineProviderConfig userData client h)
    as [[Hnone (err' & Hres & Hkind)]
       | (pre' & imageID & sgs & vsw & cid & request' & _ & _ & _ & _ & Hrun)].
  - rewrite Hresult in Hres. injection Hres as <-.
    destruct Hkind as [Hk | Hk]; [left; exact Hk | right; split; assumption].
  - left.
    destruct (alibabacloudClient.RunInstances client (h ++ pre') request')
      as [[[[|instanceId [|second ids]]]|]|err0].
    + destruct Hrun as [_ Hres]. rewrite Hresult in Hres. injection Hres as ->. reflexivity.
    + destruct Hrun as (polled & _ & [[i Hres] | (f & a & Hres)]);
        rewrite Hresult in Hres; [discriminate |].
      injection Hres as ->. reflexivity.
    + destruct Hrun as [_ Hres]. rewrite Hresult in Hres. injection Hres as ->. reflexivity.
    + destruct Hrun as [_ Hres]. rewrite Hresult in Hres. injection Hres as ->. reflexivity.
    + destruct Hrun as [_ Hres]. rewrite Hresult in Hres. injection Hres as ->. reflexivity.
Qed.

(** X22: [runInstances] returns an instance only after a
    create-instance call that is followed at once by the sleep of five
    seconds. *)
Theorem runInstances_success_after_call
    (machine : Machine.t) (machineProviderConfig : AlibabaCloudMachineProviderConfig.t)
    (userData : string) (client : alibabacloudClient.Client) (h : list Event)
    (instance : ecs.Instance.t) :
  result (runInstances machine machineProviderConfig userData client) h = inl instance ->
  exists pre request polled,
    issued (runInstances machine machineProviderConfig userData client) h
    = pre ++ CallRunInstances request :: Sleep 5 :: polled
    /\ Forall notRunInstances pre.
Proof.
  intros Hresult.
  destruct (runInstances_cases machine machineProviderConfig userData client h)
    as [[_ (err' & Hres & _)]
       | (pre' & imageID & sgs & vsw & cid & request' & Hpre' & _ & _ & _ & Hrun)].
  { rewrite Hresult in Hres. discriminate. }
  destruct (alibabacloudClient.RunInstances client (h ++ pre') request')
    as [[[[|instanceId [|second ids]]]|]|err0].
  - destruct Hrun as [_ Hres]. rewrite Hresult in Hres. discriminate.
  - destruct Hrun as (polled & Hissued & _). exists pre', request', polled. auto.
  - destruct Hrun as [_ Hres]. rewrite Hresult in Hres. discriminate.
  - destruct Hrun as [_ Hres]. rewrite Hresult in Hres. discriminate.
  - destruct Hrun as [_ Hres]. rewrite Hresult in Hres. discriminate.
Qed.

(** X23: when the provider refuses the create-instance call, the
    failure metric is registered and the function returns a
    create-machine error; it neither sleeps nor polls. *)
Theorem runInstances_submit_failure
    (machine : Machine.t) (machineProviderConfig : AlibabaCloudMachineProviderConfig.t)
    (userData : string) (client : alibabacloudClient.Client) (h pre post : list Event)
    (request : ecs.RunInstancesRequest.t) (err : error) :
  issued (runInstances machine machineProviderConfig userData client) h
  = pre ++ CallRunInstances request :: post ->
  Forall notRunInstances pre ->
  alibabacloudClient.RunInstances client (h ++ pre) request = inr err ->
  post = [ RegisterFailedInstanceCreate (Machine.Name machine)
             (Machine.Namespace machine) err ]
  /\ result (runInstances machine machineProviderConfig userData client) h
     = inr (mapierrors.CreateMachine "error creating ECS instance: %v" [ArgError err]).
Proof.
  intros Hlog Hpre Hanswer.
  destruct (runInstances_first_call _ _ _ _ _ _ _ _ Hlog Hpre)
    as (_ & _ & _ & _ & _ & _ & _ & Hrun).
  rewrite Hanswer in Hrun. exact Hrun.
Qed.

(** X24: when the provider answers the create-instance call with no
    response or with a number of instance IDs other than one, the
    function returns the unexpected-reservation error at once: no sleep,
    no poll, no metric. *)
Theorem runInstances_unexpected_reservation
    (machine : Machine.t) (machineProviderConfig : AlibabaCloudMachineProviderConfig.t)
    (userData : string) (client : alibabacloudClient.Client) (h pre post : list Event)
    (request : ecs.RunInstancesRequest.t)
    (response : option ecs.RunInstancesResponse.t) :
  issued (runInstances machine machineProviderConfig userData client) h
  = pre ++ CallRunInstances request :: post ->
  Forall notRunInstances pre ->
  alibabacloudClient.RunInstances client (h ++ pre) request = inl response ->
  (forall answered, response = Some answered ->
     length (ecs.RunInstancesResponse.InstanceIdSet answered) <> 1%nat) ->
  post = []
  /\ result (runInstances machine machineProviderConfig userData client) h
     = inr (mapierrors.CreateMachine "unexpected reservation creating instance" []).
Proof.
  intros Hlog Hpre Hanswer Hcount.
  destruct (runInstances_first_call _ _ _ _ _ _ _ _ Hlog Hpre)
    as (_ & _ & _ & _ & _ & _ & _ & Hrun).
  rewrite Hanswer in Hrun.
  destruct response as [[[|instanceId [|second ids]]]|]; try exact Hrun.
  exfalso. apply (Hcount _ eq_refl). reflexivity.
Qed.

Lemma covertToRunInstancesTag_map (tags : list Tag.t) :
  covertToRunInstancesTag tags = Some (map toRequestTag tags).
Proof.
  unfold covertToRunInstancesTag. f_equal.
  rewrite <- (List.filter_true tags) at 2.
  apply (fold_left_keep_append (fun _ => true) toRequestTag tags []).
Qed.

(** X25: the request of the create-instance call asks for exactly one
    instance, names instance and host after the machine, lists at least
    one security group, and carries the cluster marker of the cluster ID
    of the machine among its tags. *)
Theorem runInstances_request_shape
    (machine : Machine.t) (machineProviderConfig : AlibabaCloudMachineProviderConfig.t)
    (userData : string) (client : alibabacloudClient.Client) (h pre post : list Event)
    (request : ecs.RunInstancesRequest.t) :
  issued (runInstances machine machineProviderConfig userData client) h
  = pre ++ CallRunInstances request :: post ->
  Forall notRunInstances pre ->
  ecs.RunInstancesRequest.Amount request = "1"
  /\ ecs.RunInstancesRequest.MinAmount request = "1"
  /\ ecs.RunInstancesRequest.InstanceName request = Machine.Name machine
  /\ ecs.RunInstancesRequest.HostName request = Machine.Name machine
  /\ (exists securityGroupIDs,
        ecs.RunInstancesRequest.SecurityGroupIds request = Some securityGroupIDs
        /\ securityGroupIDs <> [])
  /\ (exists clusterID,
        getClusterID machine = Some clusterID
        /\ ecs.RequestTag.mk (clusterFilterKeyPrefix +:+ clusterID) clusterFilterValue
             ∈ sliceOf (ecs.RunInstancesRequest.Tag request)).
Proof.
  intros Hlog Hpre.
  destruct (runInstances_first_call _ _ _ _ _ _ _ _ Hlog Hpre)
    as (imageID & sgs & vsw & cid & Hsg & Hcid & Hreq & _).
  unfold runInstancesRequestOf in Hreq.
  destruct (tenancyOf (Tenancy machineProviderConfig)); [| discriminate].
  injection Hreq as <-. cbn -[covertToRunInstancesTag buildTagList].
  repeat split.
  - exists sgs. auto.
  - exists cid. split; [exact Hcid |].
    rewrite covertToRunInstancesTag_map. cbn [sliceOf].
    apply list_elem_of_fmap.
    exists (Tag.mk (clusterFilterKeyPrefix +:+ cid) clusterFilterValue).
    split; [reflexivity |].
    apply (buildTagList_cluster_marker_in (Machine.Name machine) cid
             (Tags machineProviderConfig)).
Qed.

End RunInstancesMore.

Lemma runInstances_errors_classified_witness :
  exists err,
    result
      (@runInstances sampleExternals (Machine.mk "worker-0" "openshift-machine-api" ∅)
         (sampleConfig "" 40 0 0) "" (sampleClient [] [])) []
    = inr err
    /\ (errorReason err = Some CreateMachineError
        \/ (errorReason err = Some InvalidConfigurationMachineError
            /\ Forall notRunInstances
                 (issued
                    (@runInstances sampleExternals
                       (Machine.mk "worker-0" "openshift-machine-api" ∅)
                       (sampleConfig "" 40 0 0) "" (sampleClient [] [])) []))).
Proof.
  eexists.
  match goal with
  | |- ?P /\ _ => assert (Hresult : P) by (vm_compute; reflexivity)
  end.
  split; [exact Hresult |].
  exact (@runInstances_errors_classified sampleExternals _ _ _ _ _ _ Hresult).
Defined.

Lemma runInstances_success_after_call_witness :
  exists pre request polled,
    issued
      (@runInstances sampleExternals sampleMachine (sampleConfig "" 40 0 0) ""
         (sampleClient [sampleInstance "i-new" "Running" ""] [])) []
    = pre ++ CallRunInstances request :: Sleep 5 :: polled
    /\ Forall notRunInstances pre.
Proof.
  apply (@runInstances_success_after_call sampleExternals sampleMachine
           (sampleConfig "" 40 0 0) ""
           (sampleClient [sampleInstance "i-new" "Running" ""] []) []
           (sampleInstance "i-new" "Running" "")).
  vm_compute. reflexivity.
Defined.

Lemma runInstances_submit_failure_witness :
  exists pre request post,
    issued
      (@runInstances sampleExternals sampleMachine (sampleConfig "" 40 0 0) ""
         (sampleClientAnswering (inr (errors_New "quota exceeded")))) []
    = pre ++ CallRunInstances request :: post
    /\ post = [ RegisterFailedInstanceCreate "worker-0" "openshift-machine-api"
                  (errors_New "quota exceeded") ]
    /\ result
         (@runInstances sampleExternals sampleMachine (sampleConfig "" 40 0 0) ""
            (sampleClientAnswering (inr (errors_New "quota exceeded")))) []
       = inr (mapierrors.CreateMachine "error creating ECS instance: %v"
                [ArgError (errors_New "quota exceeded")]).
Proof.
  eexists [_], _, _.
  match goal with
  | |- ?P /\ _ => assert (Hlog : P) by (vm_compute; reflexivity)
  end.
  split; [exact Hlog |].
  apply (@runInstances_submit_failure sampleExternals _ _ _ _ _ _ _ _ _ Hlog).
  - repeat constructor.
  - reflexivity.
Defined.

Lemma runInstances_unexpected_reservation_witness :
  exists pre request post,
    issued
      (@runInstances sampleExternals sampleMachine (sampleConfig "" 40 0 0) ""
         (sampleClientAnswering
            (inl (Some (ecs.RunInstancesResponse.mk ["i-1"; "i-2"]))))) []
    = pre ++ CallRunInstances request :: post
    /\ post = []
    /\ result
         (@runInstances sampleExternals sampleMachine (sampleConfig "" 40 0 0) ""
            (sampleClientAnswering
               (inl (Some (ecs.RunInstancesResponse.mk ["i-1"; "i-2"]))))) []
       = inr (mapierrors.CreateMachine "unexpected reservation creating instance" []).
Proof.
  eexists [_], _, _.
  match goal with
  | |- ?P /\ _ => assert (Hlog : P) by (vm_compute; reflexivity)
  end.
  split; [exact Hlog |].
  apply (@runInstances_unexpected_reservation sampleExternals _ _ _ _ _ _ _ _
           (Some (ecs.RunInstancesResponse.mk ["i-1"; "i-2"])) Hlog).
  - repeat constructor.
  - reflexivity.
  - intros answered [= <-]. discriminate.
Defined.

Lemma runInstances_request_shape_witness :
  exists pre request post,
    issued
      (@runInstances sampleExternals sampleMachine (sampleConfig "" 40 0 0) ""
         (sampleClient [sampleInstance "i-new" "Running" ""] [])) []
    = pre ++ CallRunInstances request :: post
    /\ ecs.RunInstancesRequest.Amount request = "1"
    /\ ecs.RunInstancesRequest.InstanceName request = "worker-0"
    /\ ecs.RequestTag.mk "kubernetes.io/cluster/c1" "owned"
         ∈ sliceOf (ecs.RunInstancesRequest.Tag request).
Proof.
  eexists [_], _, [_; _].
  match goal with
  | |- ?P /\ _ => assert (Hlog : P) by (vm_compute; reflexivity)
  end.
  split; [exact Hlog |].
  destruct (@runInstances_request_shape sampleExternals _ _ _ _ _ _ _ _ Hlog)
    as (Hamount & _ & Hname & _ & _ & (cid & Hcid & Htag)).
  { repeat constructor. }
  split; [exact Hamount |]. split; [exact Hname |].
  vm_compute in Hcid. injection Hcid as <-. exact Htag.
Defined.

Section RunInstancesOrder.
Context `{Externals}.

(** X26: the image is resolved first, and a failure to resolve it ends
    the call: the only events are those of [getImageID], so no security
    group or vswitch is looked up, and the error is an
    invalid-configuration error that wraps the one of [getImageID]. *)
Theorem runInstances_image_failure_stops
    (machine : Machine.t) (machineProviderConfig : AlibabaCloudMachineProviderConfig.t)
    (userData : string) (client : alibabacloudClient.Client) (h : list Event)
    (err : error) :
  result
    (getImageID (ObjectKey.mk (Machine.Name machine) (Machine.Namespace machine))
       machineProviderConfig client) h
  = inr err ->
  result (runInstances machine machineProviderConfig userData client) h
  = inr (mapierrors.InvalidMachineConfiguration "error getting ImageID: %v"
           [ArgError err])
  /\ issued (runInstances machine machineProviderConfig userData client) h
     = issued
         (getImageID (ObjectKey.mk (Machine.Name machine) (Machine.Namespace machine))
            machineProviderConfig client) h.
Proof.
  intros Himage. unfold runInstances.
  rewrite issued_bind, result_bind, Himage, issued_ret, result_ret, app_nil_r.
  split; reflexivity.
Qed.

End RunInstancesOrder.

Lemma runInstances_image_failure_stops_witness :
  result
    (@runInstances sampleExternals sampleMachine (sampleConfig "" 40 0 0) ""
       {| alibabacloudClient.DescribeImages := fun _ _ =>
            inl (ecs.DescribeImagesResponse.mk [ecs.Image.mk "img-1" "Deprecated"]);
          alibabacloudClient.DescribeSecurityGroups :=
            alibabacloudClient.DescribeSecurityGroups (sampleClient [] []);
          alibabacloudClient.DescribeVSwitches :=
            alibabacloudClient.DescribeVSwitches (sampleClient [] []);
          alibabacloudClient.RunInstances :=
            alibabacloudClient.RunInstances (sampleClient [] []);
          alibabacloudClient.DescribeInstances :=
            alibabacloudClient.DescribeInstances (sampleClient [] []);
          alibabacloudClient.StopInstances :=
            alibabacloudClient.StopInstances (sampleClient [] []);
          alibabacloudClient.TagResources :=
            alibabacloudClient.TagResources (sampleClient [] []) |}) []
  = inr (mapierrors.InvalidMachineConfiguration "error getting ImageID: %v"
           [ArgError (fmt_Errorf "%s invalid image status: %s"
                        [ArgString "img-1"; ArgString "Deprecated"])])
  /\ issued
       (@runInstances sampleExternals sampleMachine (sampleConfig "" 40 0 0) ""
          {| alibabacloudClient.DescribeImages := fun _ _ =>
               inl (ecs.DescribeImagesResponse.mk [ecs.Image.mk "img-1" "Deprecated"]);
             alibabacloudClient.DescribeSecurityGroups :=
               alibabacloudClient.DescribeSecurityGroups (sampleClient [] []);
             alibabacloudClient.DescribeVSwitches :=
               alibabacloudClient.DescribeVSwitches (sampleClient [] []);
             alibabacloudClient.RunInstances :=
               alibabacloudClient.RunInstances (sampleClient [] []);
             alibabacloudClient.DescribeInstances :=
               alibabacloudClient.DescribeInstances (sampleClient [] []);
             alibabacloudClient.StopInstances :=
               alibabacloudClient.StopInstances (sampleClient [] []);
             alibabacloudClient.TagResources :=
               alibabacloudClient.TagResources (sampleClient [] []) |}) []
     = [ CallDescribeImages (describeImage (sampleConfig "" 40 0 0)) ].
Proof.
  apply (@runInstances_image_failure_stops sampleExternals). reflexivity.
Defined.
